(** * HUVTSP energy anomaly pipeline: scoring engine and alert export

    A shallow embedding of
    - [Rayfield_Week 4 Deliverable/Day 2/anomaly-detection-enhanced.py]
      (class [EnhancedAnomalyDetector]) and
    - [Rayfield_Week 4 Deliverable/Day 4/alert_export.py]
      (class [AlertExporter]),
    followed by the properties of the specification settled against it.

    Modelling conventions.
    - A Python/NumPy float is a value of [float64]: a rational, an infinity
      or NaN; zero is unsigned.  The special values follow IEEE 754 as NumPy
      applies it (warnings are silenced by the source, so a division by zero
      yields Inf or NaN).  The operations of [F] are exact; those of [B64]
      round the exact result to binary64.  What is stated about the value of
      the combined score, of the SPC score and of the derived export fields
      is stated over [D], which computes in binary64; the exact operations
      serve where control flow, columns, counts, comparisons and special
      values are at stake.
    - The reductions of pandas and the estimators of scikit-learn are not
      part of the repository: they are interfaces ([Pandas], [Sklearn]),
      with small stand-ins to run examples.
    - A pandas DataFrame is an ordered association list of named columns.
    - Exceptions are values of [exn]; code that raises returns [Raise e].
    - Objects that the source mutates (the detector, the caller's frame, the
      export directory, the log) live in an explicit store that is threaded
      through the calls. *)

From Stdlib Require Import ZArith QArith Qabs Qround Qminmax Qpower List String Ascii Bool Lia Lqa.
Import ListNotations.
Open Scope Q_scope.

(* ================================================================== *)
(** * Floating-point values *)
(* ================================================================== *)

Inductive float64 : Type :=
| Fin (q : Q)
| PInf
| NInf
| NaN.

Module F.

Definition Qltb (a b : Q) : bool := negb (Qle_bool b a).

Definition is_nan (x : float64) : bool :=
  match x with NaN => true | _ => false end.

Definition is_finite (x : float64) : bool :=
  match x with Fin _ => true | _ => false end.

Definition neg (x : float64) : float64 :=
  match x with
  | Fin q => Fin (- q)
  | PInf => NInf
  | NInf => PInf
  | NaN => NaN
  end.

Definition add (x y : float64) : float64 :=
  match x, y with
  | NaN, _ | _, NaN => NaN
  | Fin a, Fin b => Fin (a + b)
  | PInf, NInf | NInf, PInf => NaN
  | PInf, _ | _, PInf => PInf
  | NInf, _ | _, NInf => NInf
  end.

Definition sub (x y : float64) : float64 := add x (neg y).

(** Sign of a non-NaN value: -1, 0 or 1. *)
Definition sgn (x : float64) : Z :=
  match x with
  | Fin q => Z.sgn (Qnum q)
  | PInf => 1%Z
  | NInf => (-1)%Z
  | NaN => 0%Z
  end.

Definition inf_of_sign (s : Z) : float64 :=
  if (s =? 0)%Z then NaN else if (0 <? s)%Z then PInf else NInf.

Definition mul (x y : float64) : float64 :=
  match x, y with
  | NaN, _ | _, NaN => NaN
  | Fin a, Fin b => Fin (a * b)
  | _, _ => inf_of_sign (sgn x * sgn y)
  end.

(** [x / y]: a finite value over zero is an infinity of the numerator's
    sign, zero over zero and Inf over Inf are NaN. *)
Definition div (x y : float64) : float64 :=
  match x, y with
  | NaN, _ | _, NaN => NaN
  | Fin a, Fin b =>
      if Qeq_bool b 0 then inf_of_sign (sgn x) else Fin (a / b)
  | Fin _, _ => Fin 0
  | _, Fin b => if Qeq_bool b 0 then x else inf_of_sign (sgn x * sgn y)
  | _, _ => NaN
  end.

Definition abs (x : float64) : float64 :=
  match x with
  | Fin q => Fin (Qabs q)
  | PInf | NInf => PInf
  | NaN => NaN
  end.

(** Comparisons; every comparison with NaN is false. *)
Definition ltb (x y : float64) : bool :=
  match x, y with
  | NaN, _ | _, NaN => false
  | Fin a, Fin b => Qltb a b
  | Fin _, PInf | NInf, Fin _ | NInf, PInf => true
  | _, _ => false
  end.

Definition gtb (x y : float64) : bool := ltb y x.

Definition leb (x y : float64) : bool :=
  match x, y with
  | NaN, _ | _, NaN => false
  | Fin a, Fin b => Qle_bool a b
  | NInf, _ => true
  | _, PInf => true
  | _, _ => false
  end.

Definition geb (x y : float64) : bool := leb y x.

(** Python's builtin [max(a, b)]: [b] replaces [a] only if [b > a], so a NaN
    second argument is ignored. *)
Definition py_max (a b : float64) : float64 := if gtb b a then b else a.

(** [np.maximum] and [np.minimum] propagate NaN. *)
Definition maximum (a b : float64) : float64 :=
  match a, b with
  | NaN, _ | _, NaN => NaN
  | _, _ => if ltb a b then b else a
  end.

Definition minimum (a b : float64) : float64 :=
  match a, b with
  | NaN, _ | _, NaN => NaN
  | _, _ => if ltb b a then b else a
  end.

(** [np.clip(x, lo, hi)] is [minimum(maximum(x, lo), hi)]. *)
Definition clip (x lo hi : float64) : float64 := minimum (maximum x lo) hi.

(** Square root of [n/d] in lowest terms: the integer square root of
    [n * d * 2^104] over [d * 2^52], hence exact on squares and rounded down
    to a multiple of [1 / (d * 2^52)] otherwise. *)
Definition Qsqrt (q : Q) : Q :=
  let r := Qred q in
  Qred (Z.sqrt (Qnum r * Z.pos (Qden r) * 2 ^ 104)%Z # (Qden r * 2 ^ 52)%positive).

Definition sqrt (x : float64) : float64 :=
  match x with
  | Fin q => if Qltb q 0 then NaN else Fin (Qsqrt q)
  | PInf => PInf
  | NInf | NaN => NaN
  end.

(** Round half to even to the nearest integer ([np.rint]). *)
Definition Qrint (q : Q) : Z :=
  let f := Qfloor q in
  let r := q - inject_Z f in
  match Qcompare r (1 # 2) with
  | Lt => f
  | Gt => (f + 1)%Z
  | Eq => if Z.even f then f else (f + 1)%Z
  end.

(** [Series.round(2)]: scale by 100, round half to even, scale back. *)
Definition round2 (x : float64) : float64 :=
  match x with
  | Fin q => Fin (inject_Z (Qrint (q * 100)) / 100)
  | _ => x
  end.

Definition of_nat (n : nat) : float64 := Fin (inject_Z (Z.of_nat n)).

Definition sum (xs : list float64) : float64 := fold_left add xs (Fin 0).

(** Equality of floats as numbers: rationals up to [Qeq]. *)
Definition eqb (x y : float64) : bool :=
  match x, y with
  | Fin a, Fin b => Qeq_bool a b
  | PInf, PInf | NInf, NInf => true
  | _, _ => false
  end.

End F.

(** Two floats denote the same value (NaN included, as a bit pattern). *)
Definition same_float (x y : float64) : Prop :=
  match x, y with
  | Fin a, Fin b => a == b
  | PInf, PInf | NInf, NInf | NaN, NaN => True
  | _, _ => False
  end.

(* ================================================================== *)
(** * Exceptions and the store-passing monad *)
(* ================================================================== *)

Open Scope string_scope.

(** The exception classes the modelled code raises or lets through; each
    carries what [str(e)] prints. *)
Inductive exn : Type :=
| ValueError (msg : string)
| KeyError (key : string)
| TypeError (msg : string)
| OSError (msg : string)
| NotFittedError (msg : string).

Definition str_of_exn (e : exn) : string :=
  match e with
  | ValueError m | TypeError m | OSError m | NotFittedError m => m
  | KeyError k => "'" ++ k ++ "'"
  end.

Inductive outcome (A : Type) : Type :=
| Ok (a : A)
| Raise (e : exn).
Arguments Ok {A} a.
Arguments Raise {A} e.

(** A computation over a store [S]: it returns or raises, and in both cases
    leaves the store it reached. *)
Definition M (S A : Type) : Type := S -> outcome A * S.

Definition ret {S A} (a : A) : M S A := fun s => (Ok a, s).

Definition bind {S A B} (m : M S A) (k : A -> M S B) : M S B :=
  fun s =>
    match m s with
    | (Ok a, s') => k a s'
    | (Raise e, s') => (Raise e, s')
    end.

Definition raise {S A} (e : exn) : M S A := fun s => (Raise e, s).

Definition gets {S A} (f : S -> A) : M S A := fun s => (Ok (f s), s).

Definition modify {S} (f : S -> S) : M S unit := fun s => (Ok tt, f s).

(** A pure step that may raise. *)
Definition lift {S A} (o : outcome A) : M S A := fun s => (o, s).

(** [try: m  except Exception as e: h e]. *)
Definition try_except {S A} (m : M S A) (h : exn -> M S A) : M S A :=
  fun s =>
    match m s with
    | (Ok a, s') => (Ok a, s')
    | (Raise e, s') => h e s'
    end.

Declare Scope monad_scope.
Delimit Scope monad_scope with monad.
Notation "x <- m ;; k" := (bind m (fun x => k))
  (at level 61, m at next level, right associativity) : monad_scope.
Notation "m ;;; k" := (bind m (fun _ => k))
  (at level 61, right associativity) : monad_scope.
Open Scope monad_scope.

Definition obind {A B} (o : outcome A) (k : A -> outcome B) : outcome B :=
  match o with
  | Ok a => k a
  | Raise e => Raise e
  end.

Fixpoint omap {A B} (f : A -> outcome B) (xs : list A) : outcome (list B) :=
  match xs with
  | [] => Ok []
  | x :: xs' =>
      obind (f x) (fun y => obind (omap f xs') (fun ys => Ok (y :: ys)))
  end.

(* ================================================================== *)
(** * Strings and calendar dates *)
(* ================================================================== *)

Module Str.

Fixpoint skipn_str (n : nat) (s : string) : string :=
  match n, s with
  | O, _ => s
  | S k, String _ s' => skipn_str k s'
  | S _, EmptyString => EmptyString
  end.

(** [s.replace(old, new)] for a non-empty [old]: leftmost, non-overlapping
    occurrences.  [skip] counts the characters of a match still to drop. *)
Fixpoint replace_from (skip : nat) (old new s : string) : string :=
  match s with
  | EmptyString => EmptyString
  | String c s' =>
      match skip with
      | S k => replace_from k old new s'
      | O =>
          if prefix old s
          then new ++ replace_from (String.length old - 1) old new s'
          else String c (replace_from O old new s')
      end
  end.

Definition replace (old new s : string) : string := replace_from O old new s.

Definition digit (d : Z) : ascii := ascii_of_nat (48 + Z.to_nat (d mod 10)).

Definition pad2 (n : Z) : string :=
  String (digit (n / 10)) (String (digit n) EmptyString).

Definition pad4 (n : Z) : string :=
  String (digit (n / 1000)) (String (digit (n / 100)) (pad2 n)).

Definition digit_val (c : ascii) : option Z :=
  let n := nat_of_ascii c in
  if ((48 <=? n) && (n <=? 57))%nat then Some (Z.of_nat (n - 48)) else None.

Fixpoint number_from (acc : Z) (s : string) : option Z :=
  match s with
  | EmptyString => Some acc
  | String c s' =>
      match digit_val c with
      | Some d => number_from (10 * acc + d) s'
      | None => None
      end
  end.

(** An unsigned decimal numeral, digits only and at least one. *)
Definition number (s : string) : option Z :=
  match s with
  | EmptyString => None
  | _ => number_from 0 s
  end.

(** [str(n)] for a natural number. *)
Fixpoint of_nat_fuel (fuel n : nat) (acc : string) : string :=
  match fuel with
  | O => acc
  | S f =>
      let acc' := String (digit (Z.of_nat n)) acc in
      if (n <? 10)%nat then acc' else of_nat_fuel f (n / 10) acc'
  end.

Definition of_nat (n : nat) : string := of_nat_fuel (S n) n EmptyString.

End Str.

(** A point in time: days since 1970-01-01 and seconds since midnight. *)
Record timestamp : Type := mkTime { ts_day : Z; ts_sec : Z }.

Module Cal.

Open Scope Z_scope.

(** Day number of a proleptic Gregorian date (1970-01-01 is day 0). *)
Definition days_from_civil (y m d : Z) : Z :=
  let y' := if m <=? 2 then y - 1 else y in
  let era := y' / 400 in
  let yoe := y' - era * 400 in
  let mp := if 2 <? m then m - 3 else m + 9 in
  let doy := (153 * mp + 2) / 5 + d - 1 in
  let doe := yoe * 365 + yoe / 4 - yoe / 100 + doy in
  era * 146097 + doe - 719468.

Definition civil_from_days (z : Z) : Z * Z * Z :=
  let z' := z + 719468 in
  let era := z' / 146097 in
  let doe := z' - era * 146097 in
  let yoe := (doe - doe / 1460 + doe / 36524 - doe / 146096) / 365 in
  let doy := doe - (365 * yoe + yoe / 4 - yoe / 100) in
  let mp := (5 * doy + 2) / 153 in
  let d := doy - (153 * mp + 2) / 5 + 1 in
  let m := if mp <? 10 then mp + 3 else mp - 9 in
  let y := yoe + era * 400 in
  (if m <=? 2 then y + 1 else y, m, d).

Definition is_leap (y : Z) : bool :=
  ((y mod 4 =? 0) && negb (y mod 100 =? 0)) || (y mod 400 =? 0).

Definition days_in_month (y m : Z) : Z :=
  if m =? 2 then (if is_leap y then 29 else 28)
  else if (m =? 4) || (m =? 6) || (m =? 9) || (m =? 11) then 30 else 31.

Definition valid_date (y m d : Z) : bool :=
  (1 <=? y) && (1 <=? m) && (m <=? 12) && (1 <=? d) && (d <=? days_in_month y m).

(** [strftime('%Y-%m-%d')]. *)
Definition strftime_date (t : timestamp) : string :=
  let '(y, m, d) := civil_from_days (ts_day t) in
  (Str.pad4 y ++ "-" ++ Str.pad2 m ++ "-" ++ Str.pad2 d)%string.

(** [strftime('%Y-%m-%d %H:%M:%S')]. *)
Definition strftime_datetime (t : timestamp) : string :=
  let s := ts_sec t in
  (strftime_date t ++ " " ++ Str.pad2 (s / 3600) ++ ":"
     ++ Str.pad2 (s / 60 mod 60) ++ ":" ++ Str.pad2 (s mod 60))%string.

(** [t - timedelta(days=i)]. *)
Definition minus_days (t : timestamp) (i : nat) : timestamp :=
  mkTime (ts_day t - Z.of_nat i) (ts_sec t).

Definition parse_date (s : string) : option Z :=
  match Str.number (substring 0 4 s), Str.number (substring 5 2 s),
        Str.number (substring 8 2 s) with
  | Some y, Some m, Some d =>
      if (String.eqb (substring 4 1 s) "-" && String.eqb (substring 7 1 s) "-"
          && valid_date y m d)%bool
      then Some (days_from_civil y m d) else None
  | _, _, _ => None
  end.

Definition parse_time (s : string) : option Z :=
  match Str.number (substring 0 2 s), Str.number (substring 3 2 s),
        Str.number (substring 6 2 s) with
  | Some h, Some mi, Some se =>
      if (String.eqb (substring 2 1 s) ":" && String.eqb (substring 5 1 s) ":"
          && (h <? 24) && (mi <? 60) && (se <? 60))%bool
      then Some (h * 3600 + mi * 60 + se) else None
  | _, _, _ => None
  end.

(** The date strings the model parses: [YYYY-MM-DD] and
    [YYYY-MM-DD HH:MM:SS] (a [T] separator is accepted too); anything else
    is unparseable. *)
Definition parse (s : string) : option timestamp :=
  let n := String.length s in
  if (n =? 10)%nat then
    match parse_date s with
    | Some d => Some (mkTime d 0)
    | None => None
    end
  else if (n =? 19)%nat then
    match parse_date (substring 0 10 s), parse_time (substring 11 8 s) with
    | Some d, Some t =>
        if (String.eqb (substring 10 1 s) " " || String.eqb (substring 10 1 s) "T")%bool
        then Some (mkTime d t) else None
    | _, _ => None
    end
  else None.

(** [Timestamp.hour] and [Timestamp.dayofweek] (Monday is 0). *)
Definition hour (t : timestamp) : Z := ts_sec t / 3600.
Definition dayofweek (t : timestamp) : Z := (ts_day t + 3) mod 7.

End Cal.

(* ================================================================== *)
(** * Data frames *)
(* ================================================================== *)

(** A cell of a frame. *)
Inductive value : Type :=
| VInt (z : Z)
| VFloat (x : float64)
| VStr (s : string)
| VTime (t : timestamp)
| VBool (b : bool).

(** A DataFrame: its columns in order, each with one cell per row. *)
Definition frame : Type := list (string * list value).

Module DF.

Definition columns (df : frame) : list string := map fst df.

Fixpoint col (name : string) (df : frame) : option (list value) :=
  match df with
  | [] => None
  | (n, c) :: df' => if String.eqb n name then Some c else col name df'
  end.

Definition has_col (name : string) (df : frame) : bool :=
  match col name df with Some _ => true | None => false end.

(** [len(df)]: the number of rows. *)
Definition len (df : frame) : nat :=
  match df with
  | [] => O
  | (_, c) :: _ => List.length c
  end.

(** [df.empty]. *)
Definition empty (df : frame) : bool := (len df =? 0)%nat.

(** [df[name]]; a missing column raises [KeyError]. *)
Definition getitem (name : string) (df : frame) : outcome (list value) :=
  match col name df with
  | Some c => Ok c
  | None => Raise (KeyError name)
  end.

(** [df[name] = c]: an existing column is replaced in place, a new one is
    appended after the others. *)
Fixpoint setitem (name : string) (c : list value) (df : frame) : frame :=
  match df with
  | [] => [(name, c)]
  | (n, c0) :: df' =>
      if String.eqb n name then (n, c) :: df' else (n, c0) :: setitem name c df'
  end.

Fixpoint select {A} (mask : list bool) (xs : list A) : list A :=
  match mask, xs with
  | b :: mask', x :: xs' => if b then x :: select mask' xs' else select mask' xs'
  | _, _ => []
  end.

(** [df[mask]]: the rows where the boolean mask holds, all columns kept. *)
Definition filter_rows (mask : list bool) (df : frame) : frame :=
  map (fun nc => (fst nc, select mask (snd nc))) df.

(** A scalar assigned to a column is repeated on every row. *)
Definition broadcast (n : nat) (v : value) : list value := repeat v n.

(** [df.get(name, default)] as used to build a column of [n] rows. *)
Definition get (name : string) (default : value) (n : nat) (df : frame)
  : list value :=
  match col name df with
  | Some c => c
  | None => broadcast n default
  end.

(** Numeric view of a cell; a non-numeric cell makes pandas raise. *)
Definition to_float (v : value) : outcome float64 :=
  match v with
  | VInt z => Ok (Fin (inject_Z z))
  | VFloat x => Ok x
  | VBool b => Ok (Fin (if b then 1 else 0))
  | VStr _ | VTime _ => Raise (TypeError "could not convert to numeric")
  end.

Definition as_floats (c : list value) : outcome (list float64) := omap to_float c.

Definition of_floats (xs : list float64) : list value := map VFloat xs.

(** [pd.to_datetime] on one cell: timestamps pass, strings are parsed. *)
Definition to_datetime1 (v : value) : outcome timestamp :=
  match v with
  | VTime t => Ok t
  | VStr s =>
      match Cal.parse s with
      | Some t => Ok t
      | None => Raise (ValueError ("Unknown datetime string format, unable to parse: " ++ s))
      end
  | _ => Raise (TypeError "cannot convert to datetime")
  end.

(** [pd.to_datetime(column)]: fails as a whole if any cell fails. *)
Definition to_datetime (c : list value) : outcome (list timestamp) :=
  omap to_datetime1 c.

End DF.

(* ================================================================== *)
(** * Series statistics *)
(* ================================================================== *)

Module Series.

Definition notna (xs : list float64) : list float64 :=
  filter (fun x => negb (F.is_nan x)) xs.

Definition fillna0 (xs : list float64) : list float64 :=
  map (fun x => if F.is_nan x then Fin 0 else x) xs.

(** [Series.mean()]: NaN cells are skipped; no cell left gives NaN. *)
Definition mean (xs : list float64) : float64 :=
  let ys := notna xs in
  F.div (F.sum ys) (F.of_nat (List.length ys)).

Definition sq_dev (m : float64) (xs : list float64) : float64 :=
  F.sum (map (fun x => F.mul (F.sub x m) (F.sub x m)) xs).

(** [Series.std()]: the sample standard deviation (ddof = 1) of the non-NaN
    cells, NaN when fewer than two of them are left. *)
Definition std (xs : list float64) : float64 :=
  let ys := notna xs in
  let n := List.length ys in
  if (n <=? 1)%nat then NaN
  else F.sqrt (F.div (sq_dev (mean ys) ys) (F.of_nat (n - 1))).

(** [ndarray.mean()] and [ndarray.std()] (ddof = 0): NaN is not skipped. *)
Definition np_mean (xs : list float64) : float64 :=
  F.div (F.sum xs) (F.of_nat (List.length xs)).

Definition np_std (xs : list float64) : float64 :=
  F.sqrt (F.div (sq_dev (np_mean xs) xs) (F.of_nat (List.length xs))).

(** [scipy.stats.zscore(a)]: [(a - a.mean()) / a.std()].  A batch whose
    standard deviation is 0 divides 0 by 0. *)
Definition zscore (xs : list float64) : list float64 :=
  let m := np_mean xs in
  let s := np_std xs in
  map (fun x => F.div (F.sub x m) s) xs.

(** The trailing window of at most [w] cells ending at index [i]. *)
Definition window (w i : nat) (xs : list float64) : list float64 :=
  skipn (S i - w) (firstn (S i) xs).

(** [rolling(window=w, min_periods=1)] followed by an aggregate. *)
Definition rolling (w : nat) (agg : list float64 -> float64)
    (xs : list float64) : list float64 :=
  map (fun i => agg (window w i xs)) (seq 0 (List.length xs)).

(** [Series.diff()]: difference with the previous cell, NaN at the start. *)
Fixpoint diff_from (prev : float64) (xs : list float64) : list float64 :=
  match xs with
  | [] => []
  | x :: xs' => F.sub x prev :: diff_from x xs'
  end.

Definition diff (xs : list float64) : list float64 := diff_from NaN xs.

(** [ndarray.min()] / [ndarray.max()]: NaN propagates, an empty array
    raises. *)
Definition amin (xs : list float64) : outcome float64 :=
  match xs with
  | [] => Raise (ValueError "zero-size array to reduction operation minimum which has no identity")
  | x :: xs' => Ok (fold_left F.minimum xs' x)
  end.

Definition amax (xs : list float64) : outcome float64 :=
  match xs with
  | [] => Raise (ValueError "zero-size array to reduction operation maximum which has no identity")
  | x :: xs' => Ok (fold_left F.maximum xs' x)
  end.

(** [Series.is_monotonic_decreasing]: every cell is at most its
    predecessor. *)
Fixpoint is_monotonic_decreasing (xs : list float64) : bool :=
  match xs with
  | x :: ((y :: _) as xs') => F.geb x y && is_monotonic_decreasing xs'
  | _ => true
  end.

End Series.

(* ================================================================== *)
(** * The anomaly detector ([anomaly-detection-enhanced.py]) *)
(* ================================================================== *)

(** A feature matrix, row by row. *)
Definition matrix : Type := list (list float64).

(** [np.column_stack]: the columns must have one length. *)
Definition column_stack (cols : list (list float64)) : outcome matrix :=
  match cols with
  | [] => Raise (ValueError "need at least one array to concatenate")
  | c :: _ =>
      let n := List.length c in
      if forallb (fun c' => (List.length c' =? n)%nat) cols
      then Ok (map (fun i => map (fun c' => nth i c' NaN) cols) (seq 0 n))
      else Raise (ValueError "all the input array dimensions except for the concatenation axis must match exactly")
  end.

(** The two scikit-learn estimators the detector owns.  Their code is not
    part of the repository: they are an interface here, every call of which
    may raise. *)
Class Sklearn : Type := {
  StandardScaler : Type;
  IsolationForest : Type;
  scaler_fit_transform : matrix -> outcome (StandardScaler * matrix);
  scaler_transform : StandardScaler -> matrix -> outcome matrix;
  (** [IsolationForest(contamination, random_state, n_estimators=100).fit] *)
  forest_fit : float64 -> Z -> matrix -> outcome IsolationForest;
  decision_function : IsolationForest -> matrix -> outcome (list float64);
  predict : IsolationForest -> matrix -> outcome (list Z)
}.

Inductive severity : Type := Normal | Info | Warning | Critical.

Definition severity_name (s : severity) : string :=
  match s with
  | Normal => "Normal"
  | Info => "Info"
  | Warning => "Warning"
  | Critical => "Critical"
  end.

(** The order [Normal < Info < Warning < Critical]. *)
Definition severity_rank (s : severity) : nat :=
  match s with
  | Normal => 0
  | Info => 1
  | Warning => 2
  | Critical => 3
  end.

Definition severity_le (a b : severity) : Prop :=
  (severity_rank a <= severity_rank b)%nat.

Record thresholds_t : Type := mkThresholds {
  th_critical : float64;
  th_warning : float64;
  th_info : float64
}.

Section Detector.

Context {sk : Sklearn}.

Record detector : Type := mkDetector {
  contamination : float64;
  random_state : Z;
  isolation_forest : option IsolationForest;  (* [None]: not fitted yet *)
  scaler : option StandardScaler;
  fitted : bool;
  thresholds : thresholds_t
}.

(** [EnhancedAnomalyDetector.__init__]. *)
Definition init (contamination : float64) (random_state : Z) : detector :=
  {| contamination := contamination;
     random_state := random_state;
     isolation_forest := None;
     scaler := None;
     fitted := false;
     thresholds := mkThresholds (Fin 0.8) (Fin 0.5) (Fin 0.3) |}.

(** [__init__] with its default arguments. *)
Definition init_default : detector := init (Fin 0.1) 42.

(** The store of a detector call: the detector itself and the frame the
    caller passed, both by reference. *)
Record dstore : Type := mkDstore {
  self : detector;
  data : frame
}.

Definition set_self (f : detector -> detector) (s : dstore) : dstore :=
  mkDstore (f (self s)) (data s).

Definition energy_of (df : frame) : outcome (list float64) :=
  obind (DF.getitem "energyOutput" df) DF.as_floats.

(** The calendar features; the source swallows every exception raised while
    computing them. *)
Definition time_features (df : frame) : list (list float64) :=
  match DF.col "date" df with
  | None => []
  | Some c =>
      match DF.to_datetime c with
      | Ok dates =>
          [map (fun t => Fin (inject_Z (Cal.hour t))) dates;
           map (fun t => Fin (inject_Z (Cal.dayofweek t))) dates]
      | Raise _ => []
      end
  end.

Definition rolling_features (n : nat) (energy : list float64)
  : list (list float64) :=
  if (7 <=? n)%nat
  then [Series.rolling 3 Series.mean energy;
        Series.fillna0 (Series.rolling 3 Series.std energy)]
  else [].

Definition rate_features (n : nat) (energy : list float64)
  : list (list float64) :=
  if (1 <? n)%nat then [Series.fillna0 (Series.diff energy)] else [].

(** The feature columns in the order the source appends them. *)
Definition feature_columns (df : frame) (energy : list float64)
  : list (list float64) :=
  [energy] ++ rolling_features (DF.len df) energy
           ++ time_features df
           ++ rate_features (DF.len df) energy.

Definition _extract_features (df : frame) : outcome matrix :=
  obind (energy_of df) (fun energy => column_stack (feature_columns df energy)).

Definition _spc_analysis (values : list float64) : list float64 :=
  let mean_val := Series.mean values in
  let std_val := Series.std values in
  let ucl := F.add mean_val (F.mul (Fin 3) std_val) in
  let lcl := F.sub mean_val (F.mul (Fin 3) std_val) in
  map (fun v =>
         let upper_deviation := F.div (F.maximum (Fin 0) (F.sub v ucl)) std_val in
         let lower_deviation := F.div (F.maximum (Fin 0) (F.sub lcl v)) std_val in
         F.add upper_deviation lower_deviation)
      values.

Fixpoint zip3 {A B C D} (f : A -> B -> C -> D)
    (xs : list A) (ys : list B) (zs : list C) : list D :=
  match xs, ys, zs with
  | x :: xs', y :: ys', z :: zs' => f x y z :: zip3 f xs' ys' zs'
  | _, _, _ => []
  end.

(** The literal [1e-8]. *)
Definition epsilon : Q := 1 # 100000000.

Definition iso_normalize (lo hi x : float64) : float64 :=
  let iso_normalized := F.div (F.sub x lo) (F.add (F.sub hi lo) (Fin epsilon)) in
  F.sub (Fin 1) iso_normalized.

Definition z_normalize (z : float64) : float64 :=
  F.clip (F.div z (Fin 4)) (Fin 0) (Fin 1).

Definition spc_normalize (s : float64) : float64 :=
  F.clip (F.div s (Fin 3)) (Fin 0) (Fin 1).

Definition weighted (iso_normalized z_normalized spc_normalized : float64)
  : float64 :=
  F.add (F.add (F.mul (Fin 0.5) iso_normalized) (F.mul (Fin 0.3) z_normalized))
        (F.mul (Fin 0.2) spc_normalized).

(** The three arrays are combined element by element, so their lengths must
    agree (the detector passes one score of each kind per row). *)
Definition _combine_scores (isolation_scores z_scores spc_scores : list float64)
  : outcome (list float64) :=
  obind (Series.amin isolation_scores) (fun lo =>
  obind (Series.amax isolation_scores) (fun hi =>
  if ((List.length z_scores =? List.length isolation_scores)
      && (List.length spc_scores =? List.length isolation_scores))%nat
  then
    Ok (zip3 weighted
          (map (iso_normalize lo hi) isolation_scores)
          (map z_normalize z_scores)
          (map spc_normalize spc_scores))
  else Raise (ValueError "operands could not be broadcast together"))).

Definition classify (th : thresholds_t) (score : float64) : severity :=
  if F.geb score (th_critical th) then Critical
  else if F.geb score (th_warning th) then Warning
  else if F.geb score (th_info th) then Info
  else Normal.

Definition _classify_severity (th : thresholds_t) (scores : list float64)
  : list severity :=
  map (classify th) scores.

Definition recommend (mean_output : float64) (sev : value) (energy : float64)
  : string :=
  match sev with
  | VStr "Critical" =>
      if F.ltb energy (F.mul mean_output (Fin 0.5))
      then "Immediate equipment inspection required"
      else "Check for external factors affecting output"
  | VStr "Warning" => "Monitor closely and schedule maintenance check"
  | VStr "Info" => "Note for pattern analysis"
  | _ => "No action required"
  end.

Fixpoint zip2 {A B C} (f : A -> B -> C) (xs : list A) (ys : list B) : list C :=
  match xs, ys with
  | x :: xs', y :: ys' => f x y :: zip2 f xs' ys'
  | _, _ => []
  end.

Definition _get_recommendations (df : frame) : outcome (list string) :=
  obind (DF.getitem "severity" df) (fun sev =>
  obind (energy_of df) (fun energy =>
  Ok (zip2 (recommend (Series.mean energy)) sev energy))).

(** [EnhancedAnomalyDetector.fit]. *)
Definition fit : M dstore unit :=
  df <- gets data ;;
  features <- lift (_extract_features df) ;;
  fitted_scaler <- lift (scaler_fit_transform features) ;;
  modify (set_self (fun d =>
    mkDetector (contamination d) (random_state d) (isolation_forest d)
               (Some (fst fitted_scaler)) (fitted d) (thresholds d))) ;;;
  d <- gets self ;;
  forest <- lift (forest_fit (contamination d) (random_state d) (snd fitted_scaler)) ;;
  modify (set_self (fun d =>
    mkDetector (contamination d) (random_state d) (Some forest)
               (scaler d) true (thresholds d))).

Definition fitted_parts (d : detector)
  : outcome (StandardScaler * IsolationForest) :=
  match scaler d, isolation_forest d with
  | Some sc, Some forest => Ok (sc, forest)
  | _, _ => Raise (NotFittedError "This estimator instance is not fitted yet")
  end.

(** [EnhancedAnomalyDetector.detect_anomalies].  The result is a copy of the
    caller's frame with seven columns assigned to it. *)
Definition detect_anomalies : M dstore frame :=
  d <- gets self ;;
  if negb (fitted d)
  then raise (ValueError "Model must be fitted before detecting anomalies")
  else
    df <- gets data ;;
    features <- lift (_extract_features df) ;;
    parts <- lift (fitted_parts d) ;;
    scaled_features <- lift (scaler_transform (fst parts) features) ;;
    isolation_scores <- lift (decision_function (snd parts) scaled_features) ;;
    isolation_anomalies <- lift (predict (snd parts) scaled_features) ;;
    energy <- lift (energy_of df) ;;
    let z_scores := map F.abs (Series.zscore energy) in
    let spc_scores := _spc_analysis energy in
    combined_scores <- lift (_combine_scores isolation_scores z_scores spc_scores) ;;
    let result := df in
    let result := DF.setitem "anomaly_score" (DF.of_floats combined_scores) result in
    let result := DF.setitem "isolation_score" (DF.of_floats isolation_scores) result in
    let result := DF.setitem "z_score" (DF.of_floats z_scores) result in
    let result := DF.setitem "spc_score" (DF.of_floats spc_scores) result in
    let result := DF.setitem "anomaly_flag"
                    (map (fun x => VBool (F.gtb x (th_info (thresholds d)))) combined_scores)
                    result in
    let result := DF.setitem "severity"
                    (map (fun s => VStr (severity_name s))
                         (_classify_severity (thresholds d) combined_scores))
                    result in
    recommendations <- lift (_get_recommendations result) ;;
    ret (DF.setitem "recommended_action" (map VStr recommendations) result).

End Detector.

(* ================================================================== *)
(** * The alert exporter ([alert_export.py]) *)
(* ================================================================== *)

(** A JSON value of a daily summary. *)
Inductive json : Type :=
| JInt (z : Z)
| JFloat (x : float64)
| JStr (s : string)
| JStrs (l : list string)
| JCounts (l : list (string * nat)).

Definition summary : Type := list (string * json).

(** What a written file holds. *)
Inductive file : Type :=
| Csv (header : list string) (rows : list (list value))
| Json (s : summary).

(** What the exporter cannot control: the clock, and which paths cannot be
    written (with the message of the error the write raises). *)
Record env : Type := mkEnv {
  now : timestamp;
  io_error : string -> option string
}.

(** The store of an exporter call: the caller's frame (by reference), the
    files written so far, the log. *)
Record estore : Type := mkEstore {
  anomaly_data : frame;
  files : list (string * file);
  log : list string
}.

Record batch_result : Type := mkBatchResult {
  br_date : string;
  br_file_path : option string;
  br_alert_count : nat;
  br_status : string;
  br_error : option string
}.

(** The header written for a day without alerts. *)
Definition headers : list string :=
  ["alert_id"; "timestamp"; "energy_kwh"; "severity"; "anomaly_score";
   "deviation_percentage"; "expected_min"; "expected_max"; "system_status";
   "recommended_action"; "units_affected"; "trend_direction"; "created_at"].

Definition system_status_of (sev : value) : value :=
  match sev with
  | VStr "Critical" => VStr "Requires Immediate Attention"
  | VStr "Warning" => VStr "Monitoring Required"
  | VStr "Info" => VStr "Normal Operation"
  | VStr "Normal" => VStr "Operating Normally"
  | _ => VStr "Under Review"
  end.

(** [max(0, x)] with the integer literal kept when [x] does not exceed it. *)
Definition py_max0 (x : float64) : value :=
  if F.gtb x (Fin 0) then VFloat x else VInt 0.

Definition deviation_percentage (mean_output x : float64) : float64 :=
  F.round2 (F.abs (F.mul (F.div (F.sub x mean_output) mean_output) (Fin 100))).

(** The rows of a frame, for writing. *)
Definition rows_of (df : frame) : list (list value) :=
  map (fun i => map (fun nc => nth i (snd nc) (VStr ""))  df) (seq 0 (DF.len df)).

Definition count_str (key : string) (c : list value) : nat :=
  List.length (filter (fun v => match v with VStr s => String.eqb s key | _ => false end) c).

Fixpoint add_count (key : string) (acc : list (string * nat)) : list (string * nat) :=
  match acc with
  | [] => [(key, 1%nat)]
  | (k, n) :: acc' =>
      if String.eqb k key then (k, S n) :: acc' else (k, n) :: add_count key acc'
  end.

Fixpoint insert_by_count (e : string * nat) (l : list (string * nat))
  : list (string * nat) :=
  match l with
  | [] => [e]
  | e' :: l' =>
      if (snd e' <? snd e)%nat then e :: l else e' :: insert_by_count e l'
  end.

(** [Series.value_counts().to_dict()] of a column of strings: one count per
    distinct value, the most frequent first. *)
Definition value_counts (c : list value) : list (string * nat) :=
  let counts :=
    fold_left (fun acc v => match v with VStr s => add_count s acc | _ => acc end)
              c [] in
  fold_right insert_by_count [] counts.

Definition lookup_count (key : string) (l : list (string * nat)) : nat :=
  match find (fun e => String.eqb (fst e) key) l with
  | Some e => snd e
  | None => O
  end.

(** [Series.min()] / [Series.max()]: NaN cells are skipped. *)
Definition series_min (xs : list float64) : float64 :=
  match Series.notna xs with
  | [] => NaN
  | y :: ys => fold_left F.minimum ys y
  end.

Definition series_max (xs : list float64) : float64 :=
  match Series.notna xs with
  | [] => NaN
  | y :: ys => fold_left F.maximum ys y
  end.

Definition path_join (dir name : string) : string :=
  if String.eqb dir "" then name
  else if String.eqb (substring (String.length dir - 1) 1 dir) "/" then dir ++ name
  else dir ++ "/" ++ name.

Section Exporter.

Variable world : env.
Variable output_dir : string.

Definition logger (level msg : string) : M estore unit :=
  modify (fun s => mkEstore (anomaly_data s) (files s) (log s ++ [level ++ " - " ++ msg])).

(** Opening [path] for writing and writing [content]: raises [OSError] on a
    path that cannot be written, replaces the file otherwise. *)
Definition write_file (path : string) (content : file) : M estore unit :=
  match io_error world path with
  | Some msg => raise (OSError msg)
  | None =>
      modify (fun s =>
        mkEstore (anomaly_data s)
                 ((path, content) :: filter (fun f => negb (String.eqb (fst f) path)) (files s))
                 (log s))
  end.

Definition today : string := Cal.strftime_date (now world).

(** [AlertExporter.filter_anomalies_by_date].  The assignment to
    [data['date']] writes to the frame the caller passed. *)
Definition filter_anomalies_by_date (target_date : option string) : M estore frame :=
  let target_date := match target_date with Some d => d | None => today end in
  df <- gets anomaly_data ;;
  match DF.col "date" df with
  | Some c =>
      dates <- lift (DF.to_datetime c) ;;
      modify (fun s =>
        mkEstore (DF.setitem "date" (map VTime dates) (anomaly_data s)) (files s) (log s)) ;;;
      df <- gets anomaly_data ;;
      target_datetime <- lift (DF.to_datetime1 (VStr target_date)) ;;
      let filtered_data :=
        DF.filter_rows (map (fun t => (ts_day t =? ts_day target_datetime)%Z) dates) df in
      logger "INFO" ("Filtered " ++ Str.of_nat (DF.len filtered_data)
                       ++ " anomalies for date " ++ target_date) ;;;
      ret filtered_data
  | None =>
      logger "WARNING" "No 'date' column found in data" ;;;
      ret []
  end.

(** The thirteen export columns as [format_alert_data] first builds them. *)
Definition export_columns (df : frame) : frame :=
  let n := DF.len df in
  [("alert_id", map (fun i => VInt (Z.of_nat i)) (seq 1 n));
   ("timestamp", DF.get "date" (VStr "") n df);
   ("energy_kwh", DF.get "energyOutput" (VInt 0) n df);
   ("severity", DF.get "severity" (VStr "Unknown") n df);
   ("anomaly_score", DF.get "anomaly_score" (VInt 0) n df);
   ("deviation_percentage", DF.broadcast n (VStr ""));
   ("expected_min", DF.broadcast n (VStr ""));
   ("expected_max", DF.broadcast n (VStr ""));
   ("system_status", DF.broadcast n (VStr ""));
   ("recommended_action", DF.get "recommended_action" (VStr "Review and investigate") n df);
   ("units_affected", DF.broadcast n (VStr "Primary System"));
   ("trend_direction", DF.broadcast n (VStr ""));
   ("created_at", DF.broadcast n (VStr (Cal.strftime_datetime (now world))))].

(** The expected range and the deviation of every alert, from the mean and
    the standard deviation of the frame being formatted. *)
Definition additional_fields (df formatted_data : frame) : outcome frame :=
  if DF.has_col "energyOutput" df then
    obind (energy_of df) (fun energy =>
    let mean_output := Series.mean energy in
    let std_output := Series.std energy in
    let n := DF.len formatted_data in
    let formatted_data :=
      DF.setitem "expected_min"
        (DF.broadcast n (py_max0 (F.sub mean_output (F.mul (Fin 2) std_output))))
        formatted_data in
    let formatted_data :=
      DF.setitem "expected_max"
        (DF.broadcast n (VFloat (F.add mean_output (F.mul (Fin 2) std_output))))
        formatted_data in
    obind (obind (DF.getitem "energy_kwh" formatted_data) DF.as_floats) (fun kwh =>
    Ok (DF.setitem "deviation_percentage"
          (DF.of_floats (map (deviation_percentage mean_output) kwh))
          formatted_data)))
  else Ok formatted_data.

Definition trend_direction (formatted_data : frame) : outcome value :=
  if (1 <? DF.len formatted_data)%nat then
    obind (obind (DF.getitem "energy_kwh" formatted_data) DF.as_floats) (fun kwh =>
    Ok (VStr (if Series.is_monotonic_decreasing kwh then "Declining" else "Variable")))
  else Ok (VStr "Single Point").

(** [AlertExporter.format_alert_data]; its argument is only read. *)
Definition format_alert_data (df : frame) : outcome frame :=
  if DF.empty df then Ok []
  else
    obind (additional_fields df (export_columns df)) (fun formatted_data =>
    obind (DF.getitem "severity" formatted_data) (fun sev =>
    let formatted_data :=
      DF.setitem "system_status" (map system_status_of sev) formatted_data in
    obind (trend_direction formatted_data) (fun trend =>
    Ok (DF.setitem "trend_direction"
          (DF.broadcast (DF.len formatted_data) trend) formatted_data)))).

Definition float_col (name : string) (df : frame) : outcome (list float64) :=
  obind (DF.getitem name df) DF.as_floats.

(** [AlertExporter.get_recommendations]. *)
Definition get_recommendations (alert_data : frame) : outcome (list string) :=
  if DF.empty alert_data
  then Ok ["No immediate action required - no anomalies detected"]
  else
    obind (DF.getitem "severity" alert_data) (fun sev =>
    let critical_count := count_str "Critical" sev in
    let warning_count := count_str "Warning" sev in
    obind (float_col "deviation_percentage" alert_data) (fun dev =>
    let r1 :=
      if (0 <? critical_count)%nat
      then ["Immediate attention required: " ++ Str.of_nat critical_count
              ++ " critical anomalies detected";
            "Contact on-call engineer for immediate investigation"]
      else [] in
    let r2 :=
      if (2 <? warning_count)%nat
      then ["Monitor closely: " ++ Str.of_nat warning_count
              ++ " warning-level anomalies detected";
            "Schedule maintenance check within 24 hours"]
      else [] in
    let r3 :=
      if F.gtb (series_max dev) (Fin 50)
      then ["High deviation detected - investigate potential equipment issues"]
      else [] in
    let recommendations := (r1 ++ r2 ++ r3)%list in
    Ok (match recommendations with
        | [] => ["Continue normal monitoring procedures"]
        | _ => recommendations
        end))).

(** [AlertExporter.generate_summary_stats].  [export_timestamp] is kept to
    the second; the trend and unit columns hold one value on every row, so
    their mode and their number of distinct values are read off the first
    row. *)
Definition generate_summary_stats (alert_data : frame) (export_date : string)
  : outcome summary :=
  let stamp := JStr (Cal.strftime_datetime (now world)) in
  if DF.empty alert_data then
    Ok [("export_date", JStr export_date);
        ("total_alerts", JInt 0);
        ("severity_breakdown", JCounts []);
        ("avg_energy_output", JInt 0);
        ("avg_deviation", JInt 0);
        ("status", JStr "No alerts");
        ("export_timestamp", stamp)]
  else
    obind (DF.getitem "severity" alert_data) (fun sev =>
    let severity_counts := value_counts sev in
    obind (float_col "energy_kwh" alert_data) (fun kwh =>
    obind (float_col "deviation_percentage" alert_data) (fun dev =>
    obind (DF.getitem "trend_direction" alert_data) (fun trend =>
    obind (get_recommendations alert_data) (fun recs =>
    Ok [("export_date", JStr export_date);
        ("total_alerts", JInt (Z.of_nat (DF.len alert_data)));
        ("severity_breakdown", JCounts severity_counts);
        ("critical_alerts", JInt (Z.of_nat (lookup_count "Critical" severity_counts)));
        ("warning_alerts", JInt (Z.of_nat (lookup_count "Warning" severity_counts)));
        ("info_alerts", JInt (Z.of_nat (lookup_count "Info" severity_counts)));
        ("avg_energy_output", JFloat (Series.mean kwh));
        ("min_energy_output", JFloat (series_min kwh));
        ("max_energy_output", JFloat (series_max kwh));
        ("avg_deviation", JFloat (Series.mean dev));
        ("max_deviation", JFloat (series_max dev));
        ("primary_trend", match trend with VStr t :: _ => JStr t | _ => JStr "N/A" end);
        ("systems_affected", JInt 1);
        ("status", JStr (if (0 <? lookup_count "Critical" severity_counts)%nat
                         then "Critical" else "Normal"));
        ("export_timestamp", stamp);
        ("recommendations", JStrs recs)]))))).

(** [AlertExporter.export_daily_alerts]. *)
Definition export_daily_alerts (export_date : option string) (filename_prefix : string)
  : M estore (string * nat * summary) :=
  let export_date := match export_date with Some d => d | None => today end in
  logger "INFO" ("Starting export for date: " ++ export_date) ;;;
  daily_anomalies <- filter_anomalies_by_date (Some export_date) ;;
  formatted_data <- lift (format_alert_data daily_anomalies) ;;
  let filename := filename_prefix ++ "_" ++ Str.replace "-" "" export_date ++ ".csv" in
  let export_path := path_join output_dir filename in
  (if negb (DF.empty formatted_data) then
     write_file export_path (Csv (DF.columns formatted_data) (rows_of formatted_data)) ;;;
     logger "INFO" ("Exported " ++ Str.of_nat (DF.len formatted_data)
                      ++ " alerts to " ++ export_path)
   else
     write_file export_path (Csv headers (rows_of [])) ;;;
     logger "INFO" ("No alerts found for " ++ export_date
                      ++ ". Created empty file: " ++ export_path)) ;;;
  summary_stats <- lift (generate_summary_stats formatted_data export_date) ;;
  let summary_path := Str.replace ".csv" "_summary.json" export_path in
  write_file summary_path (Json summary_stats) ;;;
  ret (export_path, DF.len formatted_data, summary_stats).

(** One iteration of the loop of [batch_export]: the export of the day [i]
    days back, with its [try]/[except]. *)
Definition export_day (i : nat) : M estore batch_result :=
  let export_date := Cal.strftime_date (Cal.minus_days (now world) i) in
  try_except
    (r <- export_daily_alerts (Some export_date) "alerts" ;;
     ret (mkBatchResult export_date (Some (fst (fst r))) (snd (fst r)) "success" None))
    (fun e =>
       logger "ERROR" ("Failed to export for " ++ export_date ++ ": " ++ str_of_exn e) ;;;
       ret (mkBatchResult export_date None 0 "failed" (Some (str_of_exn e)))).

Fixpoint batch_loop (days : list nat) (results : list batch_result)
  : M estore (list batch_result) :=
  match days with
  | [] => ret results
  | i :: days' =>
      r <- export_day i ;;
      batch_loop days' (results ++ [r])
  end.

(** [AlertExporter.batch_export]. *)
Definition batch_export (date_range_days : nat) : M estore (list batch_result) :=
  batch_loop (seq 0 date_range_days) [].

End Exporter.

(* ================================================================== *)
(** * The formulas of the specification *)
(* ================================================================== *)

(** The normalisations of the score combiner as the specification words
    them, on rationals. *)
Definition iso_normalized_spec (lo hi x : Q) : Q := 1 - (x - lo) / (hi - lo + epsilon).
Definition clip01_spec (q : Q) : Q := Qmin (Qmax q 0) 1.
Definition combined_spec (iso_n z_n spc_n : Q) : Q := 0.5 * iso_n + 0.3 * z_n + 0.2 * spc_n.

(* ================================================================== *)
(** * Predicates of the statements *)
(* ================================================================== *)

(** A batch is non-degenerate when both standard deviations the scorers
    divide by (population for the z-score, sample for SPC) are finite and
    not zero. *)
Definition nonzero_finite (x : float64) : bool :=
  match x with
  | Fin q => negb (Qeq_bool q 0)
  | _ => false
  end.

Definition non_degenerate (xs : list float64) : bool :=
  nonzero_finite (Series.np_std xs) && nonzero_finite (Series.std xs).

(** Every cell is a finite value equal (as a number) to [c]. *)
Definition all_about (c : Q) (xs : list float64) : Prop :=
  Forall (fun x => exists q, x = Fin q /\ q == c) xs.

(** The scores the fitted estimators of [d] give for the frame [df], when
    none of the library calls raises. *)
Definition library_scores {sk : Sklearn} (d : detector) (df : frame)
    (isolation_scores : list float64) : Prop :=
  exists sc forest X X' labels,
    scaler d = Some sc /\ isolation_forest d = Some forest
    /\ _extract_features df = Ok X
    /\ scaler_transform sc X = Ok X'
    /\ decision_function forest X' = Ok isolation_scores
    /\ predict forest X' = Ok labels.

Definition not_fitted_error : exn :=
  ValueError "Model must be fitted before detecting anomalies".

(** [fillna(0)] on one cell. *)
Definition nan_to_zero (x : float64) : float64 :=
  if F.is_nan x then Fin 0 else x.

(** The trend label [format_alert_data] gives a day of [n] alerts. *)
Definition trend_label (n : nat) (kwh : list float64) : string :=
  if (1 <? n)%nat
  then (if Series.is_monotonic_decreasing kwh then "Declining" else "Variable")
  else "Single Point".

(** The cells are floats with the given numeric values. *)
Fixpoint values_are (cells : list value) (qs : list Q) : bool :=
  match cells, qs with
  | [], [] => true
  | VFloat x :: cells', q :: qs' => F.eqb x (Fin q) && values_are cells' qs'
  | _, _ => false
  end.

(** The content of the file at [path], if one was written. *)
Definition read_file (path : string) (fs : list (string * file)) : option file :=
  match find (fun f => String.eqb (fst f) path) fs with
  | Some f => Some (snd f)
  | None => None
  end.

(** The paths [export_daily_alerts] writes for a day. *)
Definition csv_path (output_dir filename_prefix export_date : string) : string :=
  path_join output_dir
    (filename_prefix ++ "_" ++ Str.replace "-" "" export_date ++ ".csv").

Definition summary_path (output_dir filename_prefix export_date : string) : string :=
  Str.replace ".csv" "_summary.json" (csv_path output_dir filename_prefix export_date).

(** No reading of the frame falls on the day [d] (and the dates can be
    read at all). *)
Definition empty_day (df : frame) (d : string) : Prop :=
  match DF.col "date" df with
  | None => True
  | Some c =>
      exists dates t,
        DF.to_datetime c = Ok dates
        /\ DF.to_datetime1 (VStr d) = Ok t
        /\ Forall (fun x => ts_day x <> ts_day t) dates
  end.

(** The date string of the day [i] days before the clock's day. *)
Definition day_back (world : env) (i : nat) : string :=
  Cal.strftime_date (Cal.minus_days (now world) i).

(** The record [batch_export] keeps of a day, from the outcome of that
    day's export. *)
Definition record_of (export_date : string)
    (o : outcome (string * nat * summary)) : batch_result :=
  match o with
  | Ok r => mkBatchResult export_date (Some (fst (fst r))) (snd (fst r)) "success" None
  | Raise e => mkBatchResult export_date None 0 "failed" (Some (str_of_exn e))
  end.


(** The caller's frame once a daily export ran, compared with the frame it had
    going in: untouched, or with its [date] column parsed in place. *)
Definition dates_parsed_in_place (frame_before frame_after : frame) : Prop :=
  frame_after = frame_before
  \/ exists c dates,
       DF.col "date" frame_before = Some c
       /\ DF.to_datetime c = Ok dates
       /\ frame_after = DF.setitem "date" (map VTime dates) frame_before.

(* ================================================================== *)
(** * Example inputs *)
(* ================================================================== *)

(** A small stand-in for the scikit-learn estimators, to run the detector
    on examples: the scaler records the number of features and rejects a
    matrix of another width, the forest scores a row by how far its first
    feature lies from the training mean (lower is more anomalous). *)
Definition toy_sklearn : Sklearn := {|
  StandardScaler := nat;
  IsolationForest := float64;
  scaler_fit_transform := fun X =>
    match X with
    | [] => Raise (ValueError "Found array with 0 sample(s)")
    | row :: _ => Ok (List.length row, X)
    end;
  scaler_transform := fun n X =>
    if forallb (fun row => (List.length row =? n)%nat) X then Ok X
    else Raise (ValueError "X has a different number of features");
  forest_fit := fun _ _ X => Ok (Series.np_mean (map (fun row => nth 0 row NaN) X));
  decision_function := fun center X =>
    Ok (map (fun row => F.neg (F.abs (F.sub (nth 0 row NaN) center))) X);
  predict := fun _ X => Ok (map (fun _ => 1%Z) X)
|}.

Definition sample_frame : frame :=
  [("date", [VStr "2024-01-15 10:00:00"; VStr "2024-01-15 11:00:00";
             VStr "2024-01-16 10:00:00"; VStr "2024-01-16 12:00:00"]);
   ("energyOutput", [VFloat (Fin 500); VFloat (Fin 500); VFloat (Fin 500);
                     VFloat (Fin 150)])].

Definition week_frame : frame :=
  [("energyOutput",
    map (fun z => VFloat (Fin (inject_Z z))) [500; 510; 490; 505; 150; 495; 500]%Z)].

Definition day_100_200_300 : frame :=
  [("energyOutput", [VFloat (Fin 100); VFloat (Fin 200); VFloat (Fin 300)])].

Definition day_negative : frame :=
  [("energyOutput", [VFloat (Fin (-100)); VFloat (Fin (-300))])].

Definition day_single_zero : frame :=
  [("energyOutput", [VFloat (Fin 0)])].

Definition parsed_frame : frame :=
  [("date", [VTime (mkTime 19737 36000); VTime (mkTime 19738 43200)]);
   ("energyOutput", [VFloat (Fin 500); VFloat (Fin 150)])].

Definition sample_env : env :=
  mkEnv (mkTime 19738 3600)
        (fun path =>
           if String.eqb path "./exports/alerts_20240114.csv"
           then Some "[Errno 28] No space left on device"
           else None).

(* ================================================================== *)
(** * Further predicates *)
(* ================================================================== *)

(** The names of the columns [detect_anomalies] assigns. *)
Definition score_columns : list string :=
  ["anomaly_score"; "isolation_score"; "z_score"; "spc_score"; "anomaly_flag";
   "severity"; "recommended_action"].

(** The number of features [_extract_features] gives each reading of a
    frame. *)
Definition feature_width (df : frame) : nat :=
  1 + (if (7 <=? DF.len df)%nat then 2 else 0)
    + match DF.col "date" df with
      | Some c => match DF.to_datetime c with Ok _ => 2 | Raise _ => 0 end
      | None => 0
      end
    + (if (1 <? DF.len df)%nat then 1 else 0).

Definition week_frame_bad_date : frame :=
  [("date", [VStr "2024-01-15"; VStr "yesterday"; VStr "2024-01-17"]);
   ("energyOutput", [VFloat (Fin 500); VFloat (Fin 510); VFloat (Fin 150)])].

(** The estimators answer row by row: a transformed matrix has the rows of
    its input, and there is one isolation score per row. *)
Definition one_score_per_row (sk : Sklearn) : Prop :=
  (forall sc X X', scaler_transform sc X = Ok X' -> List.length X' = List.length X)
  /\ (forall forest X iso,
        decision_function forest X = Ok iso -> List.length iso = List.length X).

Definition empty_scored_frame : frame := [("energyOutput", [])].

(* ================================================================== *)
(** * The summary of a scored frame and the one-call pipeline
      ([get_anomaly_summary], [process_energy_data]) *)
(* ================================================================== *)

(** How a call ends: it returns, raises one of the exceptions of [exn], or
    raises [ZeroDivisionError]. *)
Inductive completion (A : Type) : Type :=
| Returns (a : A)
| Raises (e : exn)
| ZeroDivisionError.
Arguments Returns {A} a.
Arguments Raises {A} e.
Arguments ZeroDivisionError {A}.

Definition cbind {A B} (o : outcome A) (k : A -> completion B) : completion B :=
  match o with
  | Ok a => k a
  | Raise e => Raises e
  end.

(** A boolean mask read off a column; with cells that are not booleans
    pandas looks the values up as column labels and raises [KeyError]. *)
Definition as_mask (c : list value) : outcome (list bool) :=
  omap (fun v => match v with
                 | VBool b => Ok b
                 | _ => Raise (KeyError "not in index")
                 end) c.

(** [Series.idxmax()]: the position of the first largest cell, NaN cells
    skipped; no cell left raises. *)
Fixpoint idxmax_from (i : nat) (best : option (nat * float64)) (xs : list float64)
  : option nat :=
  match xs with
  | [] => option_map fst best
  | x :: xs' =>
      let best' :=
        if F.is_nan x then best
        else match best with
             | None => Some (i, x)
             | Some (_, b) => if F.gtb x b then Some (i, x) else best
             end in
      idxmax_from (S i) best' xs'
  end.

Definition idxmax (xs : list float64) : outcome nat :=
  match idxmax_from 0 None xs with
  | Some i => Ok i
  | None => Raise (ValueError "attempt to get argmax of an empty sequence")
  end.

Record anomaly_summary : Type := mkAnomalySummary {
  total_data_points : nat;
  total_anomalies : nat;
  anomaly_rate : float64;
  critical_anomalies : nat;
  warning_anomalies : nat;
  info_anomalies : nat;
  avg_anomaly_score : value;
  max_anomaly_score : value;
  most_severe_date : option value
}.

(** [anomalies.loc[anomalies['anomaly_score'].idxmax(), 'date']]. *)
Definition date_of_most_severe (anomalies : frame) : outcome value :=
  obind (float_col "anomaly_score" anomalies) (fun scores =>
  obind (idxmax scores) (fun i =>
  obind (DF.getitem "date" anomalies) (fun dates =>
  match nth_error dates i with
  | Some d => Ok d
  | None => Raise (KeyError "date")
  end))).

(** [EnhancedAnomalyDetector.get_anomaly_summary]; the entries of the
    dictionary are evaluated in the order they are written. *)
Definition get_anomaly_summary (results : frame) : completion anomaly_summary :=
  let total_points := DF.len results in
  cbind (obind (DF.getitem "anomaly_flag" results) as_mask) (fun mask =>
  let anomalies := DF.filter_rows mask results in
  let n := DF.len anomalies in
  if (total_points =? 0)%nat then ZeroDivisionError
  else
    let rate := F.mul (F.div (F.of_nat n) (F.of_nat total_points)) (Fin 100) in
    cbind (DF.getitem "severity" anomalies) (fun sev =>
    cbind (if (0 <? n)%nat
           then obind (float_col "anomaly_score" anomalies)
                      (fun s => Ok (VFloat (Series.mean s)))
           else Ok (VInt 0)) (fun avg =>
    cbind (if (0 <? n)%nat
           then obind (float_col "anomaly_score" anomalies)
                      (fun s => Ok (VFloat (series_max s)))
           else Ok (VInt 0)) (fun mx =>
    cbind (if (0 <? n)%nat
           then obind (date_of_most_severe anomalies) (fun d => Ok (Some d))
           else Ok None) (fun date =>
    Returns
      {| total_data_points := total_points;
         total_anomalies := n;
         anomaly_rate := rate;
         critical_anomalies := count_str "Critical" sev;
         warning_anomalies := count_str "Warning" sev;
         info_anomalies := count_str "Info" sev;
         avg_anomaly_score := avg;
         max_anomaly_score := mx;
         most_severe_date := date |}))))).

(** What [process_energy_data] is given: a path to a CSV file or a
    frame. *)
Inductive source : Type :=
| FromPath (path : string)
| FromFrame (df : frame).

(** [process_energy_data]: load (or copy) the data, build a detector with
    the default seed, fit it on the data, score the same data, summarise.
    Reading a CSV file is left to [read_csv]. *)
Definition process_energy_data {sk : Sklearn} (read_csv : string -> outcome frame)
    (file_path_or_data : source) (contamination : float64)
  : completion (frame * anomaly_summary) :=
  cbind (match file_path_or_data with
         | FromPath path => read_csv path
         | FromFrame df => Ok df
         end) (fun df =>
  let detector := init contamination 42 in
  match fit (mkDstore detector df) with
  | (Raise e, _) => Raises e
  | (Ok _, s1) =>
      match detect_anomalies s1 with
      | (Raise e, _) => Raises e
      | (Ok results, _) =>
          match get_anomaly_summary results with
          | Returns summ => Returns (results, summ)
          | Raises e => Raises e
          | ZeroDivisionError => ZeroDivisionError
          end
      end
  end).

(** All columns of a frame have the same number of cells. *)
Definition well_formed (df : frame) : Prop :=
  Forall (fun nc => List.length (snd nc) = DF.len df) df.

Definition no_csv (path : string) : outcome frame :=
  Raise (OSError ("No such file or directory: " ++ path)).
(** The three severities of a flagged row. *)
Definition is_alert_severity (v : value) : Prop :=
  v = VStr "Critical" \/ v = VStr "Warning" \/ v = VStr "Info".

(** The frame [detect_anomalies] builds from a copy of [df]: the seven
    assignments in their order. *)
Definition assign_scores (th : thresholds_t) (df : frame)
    (iso energy combined : list float64) : frame :=
  let sevs := map (fun x => VStr (severity_name (classify th x))) combined in
  DF.setitem "recommended_action"
    (map VStr (zip2 (recommend (Series.mean energy)) sevs energy))
    (DF.setitem "severity" sevs
       (DF.setitem "anomaly_flag" (map (fun x => VBool (F.gtb x (th_info th))) combined)
          (DF.setitem "spc_score" (DF.of_floats (_spc_analysis energy))
             (DF.setitem "z_score" (DF.of_floats (map F.abs (Series.zscore energy)))
                (DF.setitem "isolation_score" (DF.of_floats iso)
                   (DF.setitem "anomaly_score" (DF.of_floats combined) df)))))).

Definition no_date_frame : frame :=
  [("energyOutput", [VFloat (Fin 500); VFloat (Fin 510); VFloat (Fin 150)])].

(* ================================================================== *)
(** * Predicates of the export statements *)
(* ================================================================== *)

(** The reading at [x] falls on the calendar day of [t]. *)
Definition on_day (t x : timestamp) : bool := (ts_day x =? ts_day t)%Z.

(** A frame whose dates cannot all be read. *)
Definition bad_date_frame : frame :=
  [("date", [VStr "2024-01-15 10:00:00"; VStr "yesterday"]);
   ("energyOutput", [VFloat (Fin 500); VFloat (Fin 150)])].

(** No reading exceeds the one before it. *)
Definition non_increasing (kwh : list Q) : Prop :=
  forall i a b, nth_error kwh i = Some a -> nth_error kwh (S i) = Some b -> b <= a.

(** A field of a daily summary. *)
Fixpoint summary_get (key : string) (s : summary) : option json :=
  match s with
  | [] => None
  | (k, v) :: s' => if String.eqb k key then Some v else summary_get key s'
  end.

(** A day of two equal readings, and a day of alerts without readings. *)
Definition flat_day : frame :=
  [("energyOutput", [VFloat (Fin 500); VFloat (Fin 500)])].

Definition no_energy_day : frame :=
  [("date", [VTime (mkTime 19737 36000); VTime (mkTime 19737 39600)]);
   ("severity", [VStr "Warning"; VStr "Info"])].

(** A formatted day of two warnings. *)
Definition two_warnings : frame :=
  [("severity", [VStr "Warning"; VStr "Warning"]);
   ("energy_kwh", [VFloat (Fin 480); VFloat (Fin 520)]);
   ("deviation_percentage", [VFloat (Fin 4); VFloat (Fin 4)]);
   ("trend_direction", [VStr "Variable"; VStr "Variable"])].

(** The files once [path] was written with [content]. *)
Definition put_file (path : string) (content : file) (fs : list (string * file))
  : list (string * file) :=
  (path, content) :: filter (fun f => negb (String.eqb (fst f) path)) fs.

(** The alert file of a formatted day. *)
Definition csv_of (formatted : frame) : file :=
  if negb (DF.empty formatted)
  then Csv (DF.columns formatted) (rows_of formatted)
  else Csv headers (rows_of []).

(** No file of [fs] is missing from [fs']. *)
Definition files_kept (fs fs' : list (string * file)) : Prop :=
  forall path f, read_file path fs = Some f -> exists f', read_file path fs' = Some f'.

(** Alerts of 16 January 2024 scored without their readings. *)
Definition alerts_without_energy : frame :=
  [("date", [VStr "2024-01-16 10:00:00"; VStr "2024-01-16 12:00:00"]);
   ("severity", [VStr "Warning"; VStr "Critical"])].

(** The four statuses the exporter derives from a severity it knows. *)
Definition known_status (v : value) : Prop :=
  v = VStr "Requires Immediate Attention" \/ v = VStr "Monitoring Required"
  \/ v = VStr "Normal Operation" \/ v = VStr "Operating Normally".

(** The detector fitted on a frame with the default settings. *)
Definition fitted_on {sk : Sklearn} (train : frame) : detector :=
  self (snd (fit (mkDstore init_default train))).

(** The scored frame of [sample_frame], as the toy estimators score it. *)
Definition scored_sample : frame :=
  match fst (detect_anomalies (sk := toy_sklearn)
               (mkDstore (fitted_on (sk := toy_sklearn) sample_frame) sample_frame)) with
  | Ok result => result
  | Raise _ => []
  end.

(** Its readings of 16 January 2024, as the date filter returns them. *)
Definition scored_day : frame :=
  match fst (filter_anomalies_by_date sample_env (Some "2024-01-16")
               (mkEstore scored_sample [] [])) with
  | Ok daily => daily
  | Raise _ => []
  end.

(** A scored frame with two flagged readings. *)
Definition scored_two_alerts : frame :=
  [("date", [VStr "2024-01-15 10:00:00"; VStr "2024-01-15 11:00:00";
             VStr "2024-01-16 10:00:00"]);
   ("anomaly_score", [VFloat (Fin 0.9); VFloat (Fin 0.4); VFloat (Fin 0.6)]);
   ("anomaly_flag", [VBool false; VBool true; VBool true]);
   ("severity", [VStr "Critical"; VStr "Info"; VStr "Warning"])].

(* ================================================================== *)
(** * Double precision *)
(* ================================================================== *)

(** The operations of [F] are exact.  What NumPy computes is the IEEE 754
    binary64 result: the exact result rounded to the nearest double, ties
    to even (significands of 53 bits, exponents down to [2^-1074], an
    infinity from [2^1024 - 2^970] on).  [B64] rounds after every
    operation, and [D] holds the parts of the source whose values the
    specification states, computed in this way.  Zero stays unsigned: in
    the functions of [D] the sign of a zero reaches no result. *)

Module B64.

Definition pow2 (e : Z) : Q := 2 ^ e.

(** [floor (log2 |q|)] for [q] other than 0. *)
Definition ilog2 (q : Q) : Z :=
  let l := (Z.log2 (Z.abs (Qnum q)) - Z.log2 (Z.pos (Qden q)))%Z in
  if Qle_bool (pow2 l) (Qabs q) then l else (l - 1)%Z.

(** The doubles around [q] are the multiples of [2 ^ exponent q]: 53
    significant bits, and multiples of [2^-1074] below [2^-1022]. *)
Definition exponent (q : Q) : Z :=
  if Qeq_bool q 0 then (-1074)%Z else Z.max (ilog2 q - 52) (-1074).

(** The double nearest to [q >= 0], ties to the even significand. *)
Definition round_pos (q : Q) : float64 :=
  let e := exponent q in
  let r := inject_Z (F.Qrint (q / pow2 e)) * pow2 e in
  if Qle_bool (pow2 1024) r then PInf else Fin (Qred r).

Definition round (q : Q) : float64 :=
  let q := Qred q in
  if Qle_bool 0 q then round_pos q else F.neg (round_pos (- q)).

(** The result of an operation: its exact value, rounded. *)
Definition fl (x : float64) : float64 :=
  match x with Fin q => round q | _ => x end.

Definition add (x y : float64) : float64 := fl (F.add x y).
Definition sub (x y : float64) : float64 := fl (F.sub x y).
Definition mul (x y : float64) : float64 := fl (F.mul x y).
Definition div (x y : float64) : float64 := fl (F.div x y).

(** [np.rint]: the nearest integer, ties to even. *)
Definition rint (x : float64) : float64 :=
  match x with Fin q => Fin (inject_Z (F.Qrint q)) | _ => x end.

(** [round(2)] as NumPy computes it: scale by 100, round to an integer,
    scale back. *)
Definition round2 (x : float64) : float64 :=
  div (rint (mul x (Fin 100))) (Fin 100).

(** The double a decimal literal of the source denotes. *)
Definition lit (q : Q) : float64 := round q.

End B64.

(** The pandas reductions the source calls on a column of readings.  Their
    code is not part of the repository, and the order in which they add
    the cells is not specified: they are an interface here. *)
Class Pandas : Type := {
  series_mean : list float64 -> float64;
  series_std : list float64 -> float64
}.

Module D.

(** [_combine_scores], operation by operation. *)
Definition iso_normalize (lo hi x : float64) : float64 :=
  let iso_normalized :=
    B64.div (B64.sub x lo) (B64.add (B64.sub hi lo) (B64.lit epsilon)) in
  B64.sub (Fin 1) iso_normalized.

Definition z_normalize (z : float64) : float64 :=
  F.clip (B64.div z (Fin 4)) (Fin 0) (Fin 1).

Definition spc_normalize (s : float64) : float64 :=
  F.clip (B64.div s (Fin 3)) (Fin 0) (Fin 1).

Definition weighted (iso_normalized z_normalized spc_normalized : float64)
  : float64 :=
  B64.add (B64.add (B64.mul (B64.lit 0.5) iso_normalized)
                   (B64.mul (B64.lit 0.3) z_normalized))
          (B64.mul (B64.lit 0.2) spc_normalized).

Definition _combine_scores (isolation_scores z_scores spc_scores : list float64)
  : outcome (list float64) :=
  obind (Series.amin isolation_scores) (fun lo =>
  obind (Series.amax isolation_scores) (fun hi =>
  if ((List.length z_scores =? List.length isolation_scores)
      && (List.length spc_scores =? List.length isolation_scores))%nat
  then
    Ok (zip3 weighted
          (map (iso_normalize lo hi) isolation_scores)
          (map z_normalize z_scores)
          (map spc_normalize spc_scores))
  else Raise (ValueError "operands could not be broadcast together"))).

Section Detector64.

Context {pd : Pandas}.

(** [_spc_analysis]; [values] is a pandas column, its mean and standard
    deviation are those pandas returns. *)
Definition _spc_analysis (values : list float64) : list float64 :=
  let mean_val := series_mean values in
  let std_val := series_std values in
  let ucl := B64.add mean_val (B64.mul (Fin 3) std_val) in
  let lcl := B64.sub mean_val (B64.mul (Fin 3) std_val) in
  map (fun v =>
         let upper_deviation :=
           B64.div (F.maximum (Fin 0) (B64.sub v ucl)) std_val in
         let lower_deviation :=
           B64.div (F.maximum (Fin 0) (B64.sub lcl v)) std_val in
         B64.add upper_deviation lower_deviation)
      values.

End Detector64.

(** [abs((energy_kwh - mean_output) / mean_output * 100).round(2)] on one
    cell. *)
Definition deviation_percentage (mean_output x : float64) : float64 :=
  B64.round2 (F.abs (B64.mul (B64.div (B64.sub x mean_output) mean_output) (Fin 100))).

Section Exporter64.

Context {pd : Pandas}.
Variable world : env.

(** [format_alert_data]: the fields derived from the day's readings. *)
Definition additional_fields (df formatted_data : frame) : outcome frame :=
  if DF.has_col "energyOutput" df then
    obind (energy_of df) (fun energy =>
    let mean_output := series_mean energy in
    let std_output := series_std energy in
    let n := DF.len formatted_data in
    let formatted_data :=
      DF.setitem "expected_min"
        (DF.broadcast n (py_max0 (B64.sub mean_output (B64.mul (Fin 2) std_output))))
        formatted_data in
    let formatted_data :=
      DF.setitem "expected_max"
        (DF.broadcast n (VFloat (B64.add mean_output (B64.mul (Fin 2) std_output))))
        formatted_data in
    obind (obind (DF.getitem "energy_kwh" formatted_data) DF.as_floats) (fun kwh =>
    Ok (DF.setitem "deviation_percentage"
          (DF.of_floats (map (deviation_percentage mean_output) kwh))
          formatted_data)))
  else Ok formatted_data.

Definition format_alert_data (df : frame) : outcome frame :=
  if DF.empty df then Ok []
  else
    obind (additional_fields df (export_columns world df)) (fun formatted_data =>
    obind (DF.getitem "severity" formatted_data) (fun sev =>
    let formatted_data :=
      DF.setitem "system_status" (map system_status_of sev) formatted_data in
    obind (trend_direction formatted_data) (fun trend =>
    Ok (DF.setitem "trend_direction"
          (DF.broadcast (DF.len formatted_data) trend) formatted_data)))).

End Exporter64.

End D.

(** The deviation percentage as the specification words it,
    [round(|value - dayMean| / dayMean * 100, 2)], in doubles. *)
Definition deviation_percentage_spec64 (mean_output x : float64) : float64 :=
  B64.round2 (B64.mul (B64.div (F.abs (B64.sub x mean_output)) mean_output) (Fin 100)).

(** A stand-in for the pandas reductions, to run the exporter on examples:
    the exact mean and sample standard deviation of the cells, rounded to a
    double. *)
Definition toy_pandas : Pandas := {|
  series_mean := fun xs => B64.fl (Series.mean xs);
  series_std := fun xs => B64.fl (Series.std xs)
|}.

(** A day whose deviations lie just below a rounding tie. *)
Definition day_near_tie : frame :=
  [("energyOutput", [VFloat (Fin 10003.5); VFloat (Fin 9996.5)])].

(** The largest magnitude of an isolation score for which the range of a
    batch cannot overflow. *)
Definition iso_bound : Q := B64.pow2 1022.

(** The thresholds of [__init__] as the doubles their literals denote. *)
Definition thresholds64 : thresholds_t :=
  mkThresholds (B64.lit 0.8) (B64.lit 0.5) (B64.lit 0.3).

(** What scikit-learn guarantees on training data: [fit_transform] is [fit]
    followed by [transform], so a fitted scaler transforms the matrix it was
    fitted on to the matrix [fit_transform] returned; and a forest scores
    and labels the matrix it was fitted on, one score per row.  Nothing is
    said of any other matrix. *)
Definition scores_training_matrix (sk : Sklearn) : Prop :=
  forall df X sc X' c seed forest,
    _extract_features df = Ok X ->
    scaler_fit_transform X = Ok (sc, X') ->
    forest_fit c seed X' = Ok forest ->
    scaler_transform sc X = Ok X'
    /\ exists iso labels,
         decision_function forest X' = Ok iso
         /\ predict forest X' = Ok labels
         /\ List.length iso = List.length X.

(** A frame without the [energyOutput] column. *)
Definition dates_only_frame : frame :=
  [("date", [VStr "2024-01-15 10:00:00"; VStr "2024-01-15 11:00:00"])].

(* ================================================================== *)
(** * Facts about floats *)
(* ================================================================== *)

Lemma Qltb_lt (a b : Q) : F.Qltb a b = true <-> a < b.
Proof.
  unfold F.Qltb. rewrite negb_true_iff.
  split; intro H.
  - apply Qnot_le_lt. intro Hle. apply Qle_bool_iff in Hle. congruence.
  - apply not_true_is_false. intro Hle. apply Qle_bool_iff in Hle. lra.
Qed.

Lemma Qltb_ge (a b : Q) : F.Qltb a b = false <-> b <= a.
Proof.
  unfold F.Qltb. rewrite negb_false_iff. apply Qle_bool_iff.
Qed.

Lemma Qle_bool_false (a b : Q) : Qle_bool a b = false <-> b < a.
Proof.
  rewrite <- Qltb_lt. unfold F.Qltb. rewrite negb_true_iff. reflexivity.
Qed.

Lemma geb_Fin (a b : Q) : F.geb (Fin a) (Fin b) = Qle_bool b a.
Proof. reflexivity. Qed.


(* ================================================================== *)
(** * Severity classification *)
(* ================================================================== *)

Section SeverityFacts.

Context {sk : Sklearn}.

(** The thresholds are those [__init__] installs; [fit] keeps them. *)
Lemma fit_keeps_thresholds (s : dstore) :
  thresholds (self (snd (fit s))) = thresholds (self s).
Proof.
  unfold fit, bind, gets, lift, modify, set_self. simpl.
  destruct (_extract_features (data s)) as [features|e]; simpl; [|reflexivity].
  destruct (scaler_fit_transform features) as [fs|e]; simpl; [|reflexivity].
  destruct (forest_fit _ _ _) as [forest|e]; reflexivity.
Qed.



End SeverityFacts.



(* ================================================================== *)
(** * The score combiner *)
(* ================================================================== *)

Section CombinerFacts.

Lemma minimum_Fin (a b : Q) :
  exists m, F.minimum (Fin a) (Fin b) = Fin m /\ m <= a /\ m <= b /\ (m = a \/ m = b).
Proof.
  unfold F.minimum, F.ltb. destruct (F.Qltb b a) eqn:E.
  - apply Qltb_lt in E. exists b. repeat split; auto; lra.
  - apply Qltb_ge in E. exists a. repeat split; auto; lra.
Qed.

Lemma maximum_Fin (a b : Q) :
  exists m, F.maximum (Fin a) (Fin b) = Fin m /\ a <= m /\ b <= m /\ (m = a \/ m = b).
Proof.
  unfold F.maximum, F.ltb. destruct (F.Qltb a b) eqn:E.
  - apply Qltb_lt in E. exists b. repeat split; auto; lra.
  - apply Qltb_ge in E. exists a. repeat split; auto; lra.
Qed.

(** The minimum of a non-empty array of finite scores is one of them and is
    below all of them. *)
Lemma fold_minimum_Fin (xs : list Q) (x : Q) :
  exists lo, fold_left F.minimum (map Fin xs) (Fin x) = Fin lo
             /\ In lo (x :: xs) /\ forall y, In y (x :: xs) -> lo <= y.
Proof.
  revert x. induction xs as [|a xs IH]; intro x; cbn [fold_left map].
  - exists x. split; [reflexivity|]. split; [now left|].
    intros y [<-|[]]. lra.
  - destruct (minimum_Fin x a) as (m & Hm & Hx & Ha & Hor). rewrite Hm.
    destruct (IH m) as (lo & Hlo & Hin & Hle). exists lo.
    split; [exact Hlo|]. split.
    + simpl in Hin |- *. intuition congruence.
    + assert (lo <= m) by (apply Hle; now left).
      intros y [<-|[<-|Hy]]; [lra|lra|apply Hle; now right].
Qed.

Lemma fold_maximum_Fin (xs : list Q) (x : Q) :
  exists hi, fold_left F.maximum (map Fin xs) (Fin x) = Fin hi
             /\ In hi (x :: xs) /\ forall y, In y (x :: xs) -> y <= hi.
Proof.
  revert x. induction xs as [|a xs IH]; intro x; cbn [fold_left map].
  - exists x. split; [reflexivity|]. split; [now left|].
    intros y [<-|[]]. lra.
  - destruct (maximum_Fin x a) as (m & Hm & Hx & Ha & Hor). rewrite Hm.
    destruct (IH m) as (hi & Hhi & Hin & Hle). exists hi.
    split; [exact Hhi|]. split.
    + simpl in Hin |- *. intuition congruence.
    + assert (m <= hi) by (apply Hle; now left).
      intros y [<-|[<-|Hy]]; [lra|lra|apply Hle; now right].
Qed.

Lemma zip3_length {A B C D} (f : A -> B -> C -> D) xs ys zs :
  List.length ys = List.length xs -> List.length zs = List.length xs ->
  List.length (zip3 f xs ys zs) = List.length xs.
Proof.
  revert ys zs. induction xs as [|x xs IH]; intros [|y ys] [|z zs]; simpl;
    try discriminate; auto.
Qed.

Lemma nth_error_zip3 {A B C D} (f : A -> B -> C -> D) xs ys zs i a b c :
  nth_error xs i = Some a -> nth_error ys i = Some b -> nth_error zs i = Some c ->
  nth_error (zip3 f xs ys zs) i = Some (f a b c).
Proof.
  revert xs ys zs.
  induction i as [|i IH]; intros [|x xs] [|y ys] [|z zs]; simpl; try discriminate.
  - now intros [= ->] [= ->] [= ->].
  - apply IH.
Qed.

(** The inverted min-max rescaling stays finite and within [0,1]: the
    epsilon keeps the divisor positive. *)
Lemma iso_normalize_Fin (lo hi x : Q) :
  lo <= x -> x <= hi ->
  exists r, iso_normalize (Fin lo) (Fin hi) (Fin x) = Fin r
            /\ r == iso_normalized_spec lo hi x /\ 0 <= r <= 1.
Proof.
  intros Hlo Hhi. unfold iso_normalize, F.sub, F.add, F.neg, F.div.
  assert (He : epsilon == 1 # 100000000) by reflexivity.
  assert (Hd : 0 < hi + - lo + epsilon) by lra.
  destruct (Qeq_bool (hi + - lo + epsilon) 0) eqn:E.
  - apply Qeq_bool_iff in E. lra.
  - eexists. split; [reflexivity|]. unfold iso_normalized_spec.
    split; [unfold Qminus; reflexivity|].
    assert (H0 : 0 <= (x + - lo) / (hi + - lo + epsilon))
      by (apply Qle_shift_div_l; lra).
    assert (H1 : (x + - lo) / (hi + - lo + epsilon) <= 1)
      by (apply Qle_shift_div_r; lra).
    lra.
Qed.

(** [np.clip(s / k, 0, 1)] of a finite score, for a positive divisor. *)
Lemma clip_div_Fin (s k : Q) :
  0 < k ->
  exists r, F.clip (F.div (Fin s) (Fin k)) (Fin 0) (Fin 1) = Fin r
            /\ r == clip01_spec (s / k) /\ 0 <= r <= 1.
Proof.
  intro Hk. unfold F.div.
  destruct (Qeq_bool k 0) eqn:E; [apply Qeq_bool_iff in E; lra|].
  unfold F.clip, clip01_spec.
  destruct (maximum_Fin (s / k) 0) as (m & -> & Hm1 & Hm2 & Hm).
  destruct (minimum_Fin m 1) as (r & -> & Hr1 & Hr2 & Hr).
  exists r. split; [reflexivity|].
  assert (Emax : Qmax (s / k) 0 == m).
  { destruct (Q.max_spec (s / k) 0) as [[? ->]|[? ->]];
      destruct Hm as [->| ->]; lra. }
  assert (Emin : Qmin (Qmax (s / k) 0) 1 == r).
  { destruct (Q.min_spec (Qmax (s / k) 0) 1) as [[? ->]|[? ->]];
      destruct Hr as [->| ->]; lra. }
  split; [symmetry; exact Emin|].
  destruct Hr as [->| ->]; lra.
Qed.

Lemma weighted_Fin (a b c : Q) :
  weighted (Fin a) (Fin b) (Fin c) = Fin (0.5 * a + 0.3 * b + 0.2 * c).
Proof. reflexivity. Qed.

(** On finite score arrays of one non-zero length the combiner succeeds
    with the weighted sum of the three normalised components, each of them
    and the sum within [0,1]. *)
Lemma combine_scores_finite (iso z spc : list Q)
    (Hne : iso <> [])
    (Hz : List.length z = List.length iso)
    (Hs : List.length spc = List.length iso) :
  exists combined lo hi,
    _combine_scores (map Fin iso) (map Fin z) (map Fin spc) = Ok combined
    /\ List.length combined = List.length iso
    /\ In lo iso /\ In hi iso /\ (forall x, In x iso -> lo <= x <= hi)
    /\ forall i a b c,
         nth_error iso i = Some a -> nth_error z i = Some b ->
         nth_error spc i = Some c ->
         let iso_n := iso_normalized_spec lo hi a in
         let z_n := clip01_spec (b / 4) in
         let spc_n := clip01_spec (c / 3) in
         exists r,
           nth_error combined i = Some (Fin r)
           /\ r == combined_spec iso_n z_n spc_n
           /\ 0 <= iso_n <= 1 /\ 0 <= z_n <= 1 /\ 0 <= spc_n <= 1
           /\ 0 <= r <= 1.
Proof.
  destruct iso as [|x xs]; [congruence|].
  destruct (fold_minimum_Fin xs x) as (lo & Elo & Ilo & Hlo).
  destruct (fold_maximum_Fin xs x) as (hi & Ehi & Ihi & Hhi).
  assert (Emin : Series.amin (map Fin (x :: xs)) = Ok (Fin lo))
    by (cbn [map Series.amin]; now rewrite Elo).
  assert (Emax : Series.amax (map Fin (x :: xs)) = Ok (Fin hi))
    by (cbn [map Series.amax]; now rewrite Ehi).
  unfold _combine_scores. rewrite Emin, Emax. cbn [obind].
  rewrite !length_map, Hz, Hs, !Nat.eqb_refl. cbn [andb].
  eexists; exists lo, hi.
  split; [reflexivity|].
  split; [rewrite zip3_length; rewrite !length_map; auto|].
  split; [exact Ilo|]. split; [exact Ihi|].
  split; [intros y Hy; split; [apply Hlo|apply Hhi]; exact Hy|].
  intros i a b c Ha Hb Hc.
  assert (Hin : In a (x :: xs)) by (eapply nth_error_In; exact Ha).
  destruct (iso_normalize_Fin lo hi a (Hlo a Hin) (Hhi a Hin)) as (ra & Era & Eqa & Ba).
  destruct (clip_div_Fin b 4) as (rb & Erb & Eqb & Bb); [lra|].
  destruct (clip_div_Fin c 3) as (rc & Erc & Eqc & Bc); [lra|].
  exists (0.5 * ra + 0.3 * rb + 0.2 * rc).
  split.
  - rewrite <- weighted_Fin, <- Era.
    change (F.clip (F.div (Fin b) (Fin 4)) (Fin 0) (Fin 1)) with (z_normalize (Fin b)) in Erb.
    change (F.clip (F.div (Fin c) (Fin 3)) (Fin 0) (Fin 1)) with (spc_normalize (Fin c)) in Erc.
    rewrite <- Erb, <- Erc.
    apply nth_error_zip3; repeat (apply map_nth_error); assumption.
  - unfold combined_spec.
    rewrite <- Eqa, <- Eqb, <- Eqc.
    split; [reflexivity|]. repeat split; lra.
Qed.

Lemma sum_from_Fin (xs : list Q) (a : Q) :
  exists t, fold_left F.add (map Fin xs) (Fin a) = Fin t.
Proof.
  revert a. induction xs as [|x xs IH]; intro a; cbn [map fold_left].
  - now exists a.
  - apply IH.
Qed.

Lemma sum_Fin (xs : list Q) : exists t, F.sum (map Fin xs) = Fin t.
Proof. apply sum_from_Fin. Qed.

Lemma notna_Fin (xs : list Q) : Series.notna (map Fin xs) = map Fin xs.
Proof.
  unfold Series.notna. induction xs as [|x xs IH]; simpl; [reflexivity|].
  now f_equal.
Qed.

(** An elementwise operation that keeps finite values finite maps a finite
    array to a finite array. *)
Lemma map_keeps_Fin (g : float64 -> float64) (xs : list Q) :
  (forall x, exists r, g (Fin x) = Fin r) ->
  exists rs, map g (map Fin xs) = map Fin rs.
Proof.
  intro Hg. induction xs as [|x xs (rs & IH)].
  - now exists [].
  - destruct (Hg x) as (r & Hr). exists (r :: rs). simpl. now rewrite Hr, IH.
Qed.

Lemma div_Fin (a b : Q) : ~ b == 0 -> F.div (Fin a) (Fin b) = Fin (a / b).
Proof.
  intro Hb. unfold F.div. destruct (Qeq_bool b 0) eqn:E; [|reflexivity].
  apply Qeq_bool_iff in E. contradiction.
Qed.

Lemma of_nat_nonzero (n : nat) : n <> O -> ~ inject_Z (Z.of_nat n) == 0.
Proof.
  intros Hn E. unfold Qeq in E. simpl in E. lia.
Qed.

Lemma nonzero_finite_inv (x : float64) :
  nonzero_finite x = true -> exists s, x = Fin s /\ ~ s == 0.
Proof.
  destruct x as [s| | |]; simpl; try discriminate.
  intro H. exists s. split; [reflexivity|].
  apply negb_true_iff, Qeq_bool_neq in H. exact H.
Qed.

(** The z-scores and the SPC scores of a finite batch whose standard
    deviations are finite and non-zero are finite. *)
Lemma zscores_finite (energy : list Q) :
  energy <> [] -> non_degenerate (map Fin energy) = true ->
  exists zs, map F.abs (Series.zscore (map Fin energy)) = map Fin zs.
Proof.
  intros Hne Hnd. apply andb_true_iff in Hnd. destruct Hnd as [Hnp _].
  destruct (nonzero_finite_inv _ Hnp) as (s & Es & Hs).
  unfold Series.zscore. rewrite Es. unfold Series.np_mean.
  destruct (sum_Fin energy) as (t & ->).
  unfold F.of_nat. rewrite div_Fin.
  2:{ apply of_nat_nonzero. rewrite length_map. destruct energy; [congruence|discriminate]. }
  rewrite map_map. apply map_keeps_Fin. intro x.
  unfold F.sub, F.neg, F.add. rewrite div_Fin by exact Hs. simpl. eauto.
Qed.

Lemma spc_scores_finite (energy : list Q) :
  energy <> [] -> non_degenerate (map Fin energy) = true ->
  exists ss, _spc_analysis (map Fin energy) = map Fin ss.
Proof.
  intros Hne Hnd. apply andb_true_iff in Hnd. destruct Hnd as [_ Hsd].
  destruct (nonzero_finite_inv _ Hsd) as (s & Es & Hs).
  unfold _spc_analysis. rewrite Es. unfold Series.mean. rewrite notna_Fin.
  destruct (sum_Fin energy) as (t & ->).
  unfold F.of_nat. rewrite div_Fin.
  2:{ apply of_nat_nonzero. rewrite length_map. destruct energy; [congruence|discriminate]. }
  apply map_keeps_Fin. intro x.
  unfold F.sub, F.neg, F.add, F.mul.
  destruct (maximum_Fin 0 (x + - (t / inject_Z (Z.of_nat (Datatypes.length (map Fin energy))) + 3 * s)))
    as (u & -> & _).
  destruct (maximum_Fin 0 (t / inject_Z (Z.of_nat (Datatypes.length (map Fin energy))) + - (3 * s) + - x))
    as (l & -> & _).
  rewrite !div_Fin by exact Hs. eauto.
Qed.

End CombinerFacts.


(* ================================================================== *)
(** * Constant batches *)
(* ================================================================== *)

Section ConstantBatch.

Lemma all_about_repeat (v : Q) (n : nat) : all_about v (repeat (Fin v) n).
Proof.
  apply Forall_forall. intros x Hx. apply repeat_spec in Hx. subst x.
  exists v. split; reflexivity.
Qed.

Lemma all_about_notna (c : Q) (xs : list float64) :
  all_about c xs -> Series.notna xs = xs.
Proof.
  unfold Series.notna. induction 1 as [|x xs (q & -> & _) _ IH]; simpl; [reflexivity|].
  now rewrite IH.
Qed.

Lemma sum_from_all_about (c : Q) (xs : list float64) (a : Q) :
  all_about c xs ->
  exists t, fold_left F.add xs (Fin a) = Fin t
            /\ t == a + inject_Z (Z.of_nat (List.length xs)) * c.
Proof.
  intro H. revert a. induction H as [|x xs (q & -> & Hq) _ IH]; intro a.
  - exists a. split; [reflexivity|].
    change (inject_Z (Z.of_nat (List.length (@nil float64)))) with 0. ring.
  - cbn [fold_left F.add]. destruct (IH (a + q)) as (t & Et & Ht).
    exists t. split; [exact Et|]. rewrite Ht.
    cbn [List.length]. rewrite Nat2Z.inj_succ, <- Z.add_1_r, inject_Z_plus.
    rewrite Hq. change (inject_Z 1) with 1. ring.
Qed.

Lemma mean_all_about (c : Q) (xs : list float64) :
  xs <> [] -> all_about c xs ->
  exists m, F.div (F.sum xs) (F.of_nat (List.length xs)) = Fin m /\ m == c.
Proof.
  intros Hne H. unfold F.sum.
  destruct (sum_from_all_about c xs 0 H) as (t & -> & Ht).
  assert (Hn : ~ inject_Z (Z.of_nat (List.length xs)) == 0)
    by (apply of_nat_nonzero; destruct xs; [congruence|discriminate]).
  unfold F.of_nat. rewrite div_Fin by exact Hn.
  eexists. split; [reflexivity|]. rewrite Ht. field. exact Hn.
Qed.

Lemma sq_dev_all_about (c m : Q) (xs : list float64) :
  m == c -> all_about c xs ->
  exists t, Series.sq_dev (Fin m) xs = Fin t /\ t == 0.
Proof.
  intros Hm H. unfold Series.sq_dev, F.sum.
  assert (H0 : all_about 0 (map (fun x => F.mul (F.sub x (Fin m)) (F.sub x (Fin m))) xs)).
  { induction H as [|x xs (q & -> & Hq) _ IH]; constructor; [|exact IH].
    eexists. split; [reflexivity|]. rewrite Hq, Hm. ring. }
  destruct (sum_from_all_about 0 _ 0 H0) as (t & -> & Ht).
  exists t. split; [reflexivity|]. rewrite Ht. ring.
Qed.

Lemma Qnum_zero (q : Q) : q == 0 -> Qnum q = 0%Z.
Proof. unfold Qeq. simpl. lia. Qed.

Lemma sqrt_zero (q : Q) : q == 0 -> exists s, F.sqrt (Fin q) = Fin s /\ s == 0.
Proof.
  intro Hq. unfold F.sqrt.
  destruct (F.Qltb q 0) eqn:E; [apply Qltb_lt in E; lra|].
  eexists. split; [reflexivity|]. unfold F.Qsqrt.
  assert (Hr : Qnum (Qred q) = 0%Z) by (apply Qnum_zero; rewrite Qred_correct; exact Hq).
  rewrite Hr, Qred_correct. reflexivity.
Qed.

(** Zero over zero is NaN. *)
Lemma div_zero_zero (a b : Q) : a == 0 -> b == 0 -> F.div (Fin a) (Fin b) = NaN.
Proof.
  intros Ha Hb. unfold F.div.
  destruct (Qeq_bool b 0) eqn:E; [|apply Qeq_bool_neq in E; contradiction].
  simpl. now rewrite (Qnum_zero a Ha).
Qed.

Lemma map_all_NaN (g : float64 -> float64) (c : Q) (xs : list float64) :
  all_about c xs -> (forall q, q == c -> g (Fin q) = NaN) ->
  map g xs = repeat NaN (List.length xs).
Proof.
  intros H Hg. induction H as [|x xs (q & -> & Hq) _ IH]; simpl; [reflexivity|].
  now rewrite Hg, IH.
Qed.

Lemma zscore_constant (c : Q) (xs : list float64) :
  xs <> [] -> all_about c xs ->
  map F.abs (Series.zscore xs) = repeat NaN (List.length xs).
Proof.
  intros Hne H. unfold Series.zscore, Series.np_std, Series.np_mean.
  destruct (mean_all_about c xs Hne H) as (m & -> & Hm).
  destruct (sq_dev_all_about c m xs Hm H) as (t & -> & Ht).
  assert (Hn : ~ inject_Z (Z.of_nat (List.length xs)) == 0)
    by (apply of_nat_nonzero; destruct xs; [congruence|discriminate]).
  unfold F.of_nat. rewrite div_Fin by exact Hn.
  destruct (sqrt_zero (t / inject_Z (Z.of_nat (List.length xs)))) as (s & -> & Hs).
  { rewrite Ht. field. exact Hn. }
  rewrite map_map. apply (map_all_NaN _ c); [exact H|].
  intros q Hq. unfold F.sub, F.neg, F.add.
  rewrite div_zero_zero; [reflexivity| |exact Hs]. rewrite Hq, Hm. ring.
Qed.

Lemma maximum_zero (d : Q) :
  d == 0 -> exists u, F.maximum (Fin 0) (Fin d) = Fin u /\ u == 0.
Proof.
  intro Hd. destruct (maximum_Fin 0 d) as (u & -> & _ & _ & [->| ->]);
    eexists; split; try reflexivity; exact Hd.
Qed.

Lemma spc_constant (c : Q) (xs : list float64) :
  xs <> [] -> all_about c xs ->
  _spc_analysis xs = repeat NaN (List.length xs).
Proof.
  intros Hne H. unfold _spc_analysis, Series.std, Series.mean.
  rewrite (all_about_notna c xs H).
  destruct (mean_all_about c xs Hne H) as (m & Em & Hm). rewrite Em.
  rewrite (all_about_notna c xs H), Em.
  destruct (List.length xs <=? 1)%nat eqn:En.
  - (* a single reading: the sample standard deviation is NaN *)
    apply (map_all_NaN _ c); [exact H|]. intros q _. reflexivity.
  - apply Nat.leb_gt in En.
    destruct (sq_dev_all_about c m xs Hm H) as (t & -> & Ht).
    assert (Hn : ~ inject_Z (Z.of_nat (List.length xs - 1)) == 0)
      by (apply of_nat_nonzero; lia).
    unfold F.of_nat. rewrite div_Fin by exact Hn.
    destruct (sqrt_zero (t / inject_Z (Z.of_nat (List.length xs - 1)))) as (s & -> & Hs).
    { rewrite Ht. field. exact Hn. }
    apply (map_all_NaN _ c); [exact H|]. intros q Hq.
    unfold F.sub, F.neg, F.add, F.mul.
    destruct (maximum_zero (q + - (m + 3 * s))) as (u & -> & Hu);
      [rewrite Hq, Hm, Hs; ring|].
    destruct (maximum_zero (m + - (3 * s) + - q)) as (l & -> & Hl);
      [rewrite Hq, Hm, Hs; ring|].
    now rewrite !div_zero_zero.
Qed.

Lemma weighted_NaN (x : float64) : weighted x NaN NaN = NaN.
Proof. unfold weighted. destruct x; reflexivity. Qed.

Lemma combine_all_NaN (iso : list float64) :
  iso <> [] ->
  _combine_scores iso (repeat NaN (List.length iso)) (repeat NaN (List.length iso))
    = Ok (repeat NaN (List.length iso)).
Proof.
  intro Hne. unfold _combine_scores.
  destruct iso as [|x xs]; [congruence|].
  cbn [Series.amin Series.amax obind].
  rewrite !repeat_length, Nat.eqb_refl. cbn [andb]. f_equal.
  generalize (fold_left F.minimum xs x) as lo, (fold_left F.maximum xs x) as hi.
  intros lo hi. generalize (x :: xs) as l. clear.
  induction l as [|a l IH]; [reflexivity|].
  cbn [map List.length repeat zip3]. rewrite IH. f_equal.
  change (z_normalize NaN) with NaN. change (spc_normalize NaN) with NaN.
  apply weighted_NaN.
Qed.

(** C4 (evaluation of the code).  On a batch whose [n >= 1] finite readings
    all coincide, the z-scores are NaN (not 0), the SPC scores are NaN, and
    the combined scores are NaN whatever the isolation scores are: the
    divisions by the batch standard deviation are not guarded. *)
Theorem constant_batch_scores_nan (v : Q) (n : nat) (iso : list float64)
    (Hn : n <> O) (Hiso : List.length iso = n) :
  let batch := repeat (Fin v) n in
  map F.abs (Series.zscore batch) = repeat NaN n
  /\ _spc_analysis batch = repeat NaN n
  /\ _combine_scores iso (map F.abs (Series.zscore batch)) (_spc_analysis batch)
     = Ok (repeat NaN n).
Proof.
  intro batch.
  assert (Hne : batch <> []) by (subst batch; destruct n; [congruence|discriminate]).
  assert (Hall : all_about v batch) by apply all_about_repeat.
  assert (Hlen : List.length batch = n) by apply repeat_length.
  assert (Ez := zscore_constant v batch Hne Hall).
  assert (Es := spc_constant v batch Hne Hall).
  rewrite Hlen in Ez, Es. rewrite Ez, Es.
  split; [reflexivity|]. split; [reflexivity|].
  rewrite <- Hiso. apply combine_all_NaN.
  destruct iso; [simpl in Hiso; congruence|discriminate].
Qed.

Lemma constant_batch_scores_nan_witness :
  map F.abs (Series.zscore [Fin 500; Fin 500; Fin 500]) = [NaN; NaN; NaN]
  /\ _spc_analysis [Fin 500; Fin 500; Fin 500] = [NaN; NaN; NaN].
Proof.
  destruct (constant_batch_scores_nan 500 3 [Fin (-0.1); Fin (-0.1); Fin (-0.1)])
    as (Hz & Hs & _).
  - discriminate.
  - reflexivity.
  - split; [exact Hz|exact Hs].
Defined.

End ConstantBatch.


(* ================================================================== *)
(** * Frames *)
(* ================================================================== *)

Lemma col_setitem_eq (name : string) (c : list value) (df : frame) :
  DF.col name (DF.setitem name c df) = Some c.
Proof.
  induction df as [|[n c0] df IH]; simpl.
  - now rewrite String.eqb_refl.
  - destruct (String.eqb n name) eqn:E; simpl; rewrite E; [reflexivity|exact IH].
Qed.

Lemma col_setitem_neq (name other : string) (c : list value) (df : frame) :
  name <> other -> DF.col name (DF.setitem other c df) = DF.col name df.
Proof.
  intro Hne. induction df as [|[n c0] df IH]; simpl.
  - destruct (String.eqb other name) eqn:E; [|reflexivity].
    apply String.eqb_eq in E. congruence.
  - destruct (String.eqb n other) eqn:E; simpl.
    + apply String.eqb_eq in E. subst n.
      destruct (String.eqb other name) eqn:E'; [|reflexivity].
      apply String.eqb_eq in E'. congruence.
    + destruct (String.eqb n name); [reflexivity|exact IH].
Qed.

Lemma columns_setitem_in (name : string) (c : list value) (df : frame) :
  In name (DF.columns df) -> DF.columns (DF.setitem name c df) = DF.columns df.
Proof.
  induction df as [|[n c0] df IH]; simpl; [tauto|].
  intro H. destruct (String.eqb n name) eqn:E; simpl; [reflexivity|].
  f_equal. apply IH. destruct H as [H|H]; [|exact H].
  subst n. rewrite String.eqb_refl in E. discriminate.
Qed.

Lemma getitem_col (name : string) (df : frame) (c : list value) :
  DF.col name df = Some c -> DF.getitem name df = Ok c.
Proof. unfold DF.getitem. now intros ->. Qed.

(** Reading a column back after assignments to columns of other names. *)
Ltac col_simpl :=
  repeat first
    [ rewrite col_setitem_eq
    | rewrite col_setitem_neq by (intro; discriminate) ].

(* ================================================================== *)
(** * The two phases of the detector *)
(* ================================================================== *)

Section FitThenScore.

Context {sk : Sklearn}.

Lemma detect_unfitted (d : detector) (df : frame) :
  fitted d = false ->
  detect_anomalies (mkDstore d df) = (Raise not_fitted_error, mkDstore d df).
Proof.
  intro H. unfold detect_anomalies, bind, gets. simpl. now rewrite H.
Qed.

(** What a call of [fit] leaves in the detector. *)
Lemma fit_outcome (s : dstore) :
  match fit s with
  | (Ok _, s') =>
      fitted (self s') = true /\ data s' = data s
      /\ exists sc forest, scaler (self s') = Some sc
                           /\ isolation_forest (self s') = Some forest
  | (Raise _, s') => fitted (self s') = fitted (self s) /\ data s' = data s
  end.
Proof.
  unfold fit, bind, gets, lift, modify, set_self. simpl.
  destruct (_extract_features (data s)) as [X|e]; simpl; [|auto].
  destruct (scaler_fit_transform X) as [[sc X']|e]; simpl; [|auto].
  destruct (forest_fit _ _ X') as [forest|e]; simpl; eauto 6.
Qed.

Lemma energy_of_setitem (name : string) (c : list value) (df : frame) :
  name <> "energyOutput" -> energy_of (DF.setitem name c df) = energy_of df.
Proof.
  intro H. unfold energy_of, DF.getitem. rewrite col_setitem_neq; auto.
Qed.

Lemma extract_features_energy (df : frame) (X : matrix) :
  _extract_features df = Ok X -> exists energy, energy_of df = Ok energy.
Proof.
  unfold _extract_features. destruct (energy_of df) as [energy|e]; simpl.
  - eauto.
  - discriminate.
Qed.

Lemma as_floats_length (c : list value) (xs : list float64) :
  DF.as_floats c = Ok xs -> List.length xs = List.length c.
Proof.
  revert xs. unfold DF.as_floats.
  induction c as [|v c IH]; simpl; intros xs H.
  - now inversion H.
  - destruct (DF.to_float v); simpl in H; [|discriminate].
    destruct (omap DF.to_float c); simpl in H; [|discriminate].
    inversion H. simpl. f_equal. now apply IH.
Qed.

Lemma zip2_length {A B C} (f : A -> B -> C) (xs : list A) (ys : list B) :
  List.length xs = List.length ys -> List.length (zip2 f xs ys) = List.length ys.
Proof.
  revert ys. induction xs as [|x xs IH]; intros [|y ys]; simpl; try discriminate; auto.
Qed.

(** Scoring with a fitted detector returns whenever the library calls do,
    and leaves the detector and the caller's frame as they were. *)
Lemma detect_fitted (d : detector) (df : frame) (iso energy : list float64) :
  fitted d = true ->
  library_scores d df iso ->
  energy_of df = Ok energy -> energy <> [] ->
  List.length iso = List.length energy ->
  exists result,
    detect_anomalies (mkDstore d df) = (Ok result, mkDstore d df)
    /\ DF.col "isolation_score" result = Some (DF.of_floats iso)
    /\ DF.col "z_score" result = Some (DF.of_floats (map F.abs (Series.zscore energy)))
    /\ DF.col "spc_score" result = Some (DF.of_floats (_spc_analysis energy))
    /\ exists combined,
         _combine_scores iso (map F.abs (Series.zscore energy)) (_spc_analysis energy)
           = Ok combined
         /\ DF.col "anomaly_score" result = Some (DF.of_floats combined).
Proof.
  intros Hfit (sc & forest & X & X' & labels & Hsc & Hfo & HX & HX' & Hiso & Hlab)
         Hen Hne Hlen.
  unfold detect_anomalies, bind, gets, lift, ret, fitted_parts. simpl.
  rewrite Hfit. simpl. rewrite HX, Hsc, Hfo. simpl.
  rewrite HX'. simpl. rewrite Hiso, Hlab, Hen. simpl.
  destruct (_combine_scores iso (map F.abs (Series.zscore energy)) (_spc_analysis energy))
    as [combined|e] eqn:Ec.
  2:{ exfalso. unfold _combine_scores in Ec.
      destruct iso as [|i0 iso']; [destruct energy; simpl in Hlen; congruence|].
      cbn [Series.amin Series.amax obind] in Ec.
      unfold Series.zscore, _spc_analysis in Ec.
      rewrite !length_map, Hlen, Nat.eqb_refl in Ec. discriminate. }
  simpl.
  unfold _get_recommendations, DF.getitem.
  rewrite !energy_of_setitem by (intro; discriminate).
  col_simpl. rewrite Hen. simpl.
  eexists. split; [reflexivity|].
  split; [col_simpl; reflexivity|]. split; [col_simpl; reflexivity|].
  split; [col_simpl; reflexivity|].
  exists combined. split; [reflexivity|]. col_simpl. reflexivity.
Qed.

End FitThenScore.



(* ================================================================== *)
(** * Feature extraction *)
(* ================================================================== *)

Section FeatureFacts.

Lemma omap_length {A B} (f : A -> outcome B) (xs : list A) (ys : list B) :
  omap f xs = Ok ys -> List.length ys = List.length xs.
Proof.
  revert ys. induction xs as [|x xs IH]; simpl; intros ys H.
  - now inversion H.
  - destruct (f x); simpl in H; [|discriminate].
    destruct (omap f xs); simpl in H; [|discriminate].
    inversion H. simpl. f_equal. now apply IH.
Qed.

Lemma rolling_length (w : nat) (agg : list float64 -> float64) (xs : list float64) :
  List.length (Series.rolling w agg xs) = List.length xs.
Proof. unfold Series.rolling. now rewrite length_map, length_seq. Qed.

Lemma nth_error_rolling (w : nat) (agg : list float64 -> float64)
    (xs : list float64) (i : nat) :
  (i < List.length xs)%nat ->
  nth_error (Series.rolling w agg xs) i = Some (agg (Series.window w i xs)).
Proof.
  intro Hi. unfold Series.rolling.
  rewrite nth_error_map, nth_error_seq.
  destruct (Nat.ltb_spec i (List.length xs)); [reflexivity|lia].
Qed.

Lemma diff_from_length (prev : float64) (xs : list float64) :
  List.length (Series.diff_from prev xs) = List.length xs.
Proof. revert prev. induction xs; simpl; auto. Qed.

(** A trailing window holds at most [w] readings, fewer at the start. *)
Lemma window_length (w i : nat) (xs : list float64) :
  (i < List.length xs)%nat ->
  List.length (Series.window w i xs) = Nat.min w (S i).
Proof.
  intro Hi. unfold Series.window. rewrite length_skipn, length_firstn. lia.
Qed.

Lemma window_first (w : nat) (x : float64) (xs : list float64) :
  (0 < w)%nat -> Series.window w 0 (x :: xs) = [x].
Proof.
  intro Hw. unfold Series.window.
  replace (1 - w)%nat with O by lia. reflexivity.
Qed.

(** The mean of a window of one reading is that reading, its sample
    standard deviation is undefined. *)
Lemma mean_singleton (x : float64) : same_float (Series.mean [x]) x.
Proof.
  destruct x as [q| | |]; try exact I.
  unfold Series.mean, F.sum, F.of_nat. cbn [Series.notna filter F.is_nan negb
    List.length fold_left F.add Z.of_nat].
  rewrite div_Fin by (intro E; discriminate E).
  simpl. field.
Qed.

Lemma std_singleton (x : float64) : Series.std [x] = NaN.
Proof.
  unfold Series.std, Series.notna. simpl. destruct (negb (F.is_nan x)); reflexivity.
Qed.

Lemma time_features_length (df : frame) (n : nat) :
  (forall c, DF.col "date" df = Some c -> List.length c = n) ->
  Forall (fun col => List.length col = n) (time_features df).
Proof.
  intro H. unfold time_features.
  destruct (DF.col "date" df) as [c|]; [|constructor].
  destruct (DF.to_datetime c) as [dates|e] eqn:E; [|constructor].
  apply omap_length in E.
  repeat constructor; rewrite length_map, E; now apply H.
Qed.

Lemma feature_columns_length (df : frame) (energy : list float64) :
  (forall c, DF.col "date" df = Some c -> List.length c = List.length energy) ->
  Forall (fun col => List.length col = List.length energy) (feature_columns df energy).
Proof.
  intro Hd. unfold feature_columns.
  apply Forall_app. split; [repeat constructor|].
  apply Forall_app. split.
  { unfold rolling_features. destruct (7 <=? DF.len df)%nat; repeat constructor.
    - apply rolling_length.
    - unfold Series.fillna0. rewrite length_map. apply rolling_length. }
  apply Forall_app. split; [now apply time_features_length|].
  unfold rate_features. destruct (1 <? DF.len df)%nat; repeat constructor.
  unfold Series.fillna0, Series.diff. rewrite length_map. apply diff_from_length.
Qed.

Lemma column_stack_ok (cols : list (list float64)) (c : list float64) :
  Forall (fun col => List.length col = List.length c) (c :: cols) ->
  column_stack (c :: cols)
  = Ok (map (fun i => map (fun col => nth i col NaN) (c :: cols))
            (seq 0 (List.length c))).
Proof.
  intro H. unfold column_stack.
  replace (forallb _ (c :: cols)) with true; [reflexivity|].
  symmetry. apply forallb_forall. intros col Hin.
  rewrite Forall_forall in H. apply Nat.eqb_eq. now apply H.
Qed.

Lemma nth_nth_error {A} (l : list A) (i : nat) (d x : A) :
  nth_error l i = Some x -> nth i l d = x.
Proof. intro H. now apply nth_error_nth. Qed.

(** C7 (amended).  Feature extraction succeeds on every well-formed frame
    and yields one feature vector per reading.  The rolling mean and the
    rolling standard deviation (trailing window of 3, minimum period 1)
    are part of the vectors exactly when the frame has at least 7 readings;
    then they sit after the raw value, and on the first reading they are
    the value itself and 0. *)
Theorem extract_features_rolling (df : frame) (energy : list float64)
    (Hen : energy_of df = Ok energy)
    (Hrows : DF.len df = List.length energy)
    (Hdate : forall c, DF.col "date" df = Some c -> List.length c = List.length energy) :
  exists X,
    _extract_features df = Ok X
    /\ List.length X = DF.len df
    /\ ((7 <= DF.len df)%nat ->
        forall i x, nth_error energy i = Some x ->
          let w := Series.window 3 i energy in
          List.length w = Nat.min 3 (S i)
          /\ (i = O -> w = [x])
          /\ exists rest,
               nth_error X i
               = Some (x :: Series.mean w :: nan_to_zero (Series.std w) :: rest)
               /\ (i = O -> same_float (Series.mean w) x
                            /\ nan_to_zero (Series.std w) = Fin 0))
    /\ ((DF.len df < 7)%nat ->
        feature_columns df energy
        = energy :: time_features df ++ rate_features (DF.len df) energy).
Proof.
  unfold _extract_features. rewrite Hen. cbn [obind].
  assert (Hcols := feature_columns_length df energy Hdate).
  unfold feature_columns in *. cbn [app] in *.
  rewrite (column_stack_ok _ energy Hcols).
  eexists. split; [reflexivity|].
  split; [now rewrite length_map, length_seq|].
  split.
  - intros H7 i x Hx.
    assert (Hi : (i < List.length energy)%nat) by (apply nth_error_Some; congruence).
    split; [now apply window_length|].
    assert (Hw0 : i = O -> Series.window 3 i energy = [x]).
    { intros ->. destruct energy as [|x0 rest]; [discriminate|].
      inversion Hx. subst. apply window_first. lia. }
    split; [exact Hw0|].
    unfold rolling_features.
    destruct (Nat.leb_spec 7 (DF.len df)) as [_|Hlt]; [|lia].
    cbn [app map].
    eexists. split.
    + rewrite nth_error_map, nth_error_seq.
      destruct (Nat.ltb_spec i (List.length energy)) as [_|Hge]; [|lia].
      cbn [option_map map Nat.add]. f_equal. f_equal; [now apply nth_nth_error|].
      f_equal; [apply nth_nth_error; now apply nth_error_rolling|].
      f_equal. apply nth_nth_error. unfold Series.fillna0.
      rewrite nth_error_map, nth_error_rolling by exact Hi. reflexivity.
    + intro H0. rewrite (Hw0 H0). split; [apply mean_singleton|].
      now rewrite std_singleton.
  - intro Hlt. unfold rolling_features.
    destruct (Nat.leb_spec 7 (DF.len df)) as [Hge|_]; [lia|reflexivity].
Qed.

Lemma extract_features_rolling_witness :
  exists X, _extract_features week_frame = Ok X /\ List.length X = 7%nat.
Proof.
  destruct (extract_features_rolling week_frame
              (map (fun z => Fin (inject_Z z)) [500; 510; 490; 505; 150; 495; 500]%Z))
    as (X & HX & Hlen & _).
  - reflexivity.
  - reflexivity.
  - intros c Hc. discriminate Hc.
  - exists X. split; [exact HX|exact Hlen].
Defined.

(** C7 (as stated) fails: the feature vector of a one-reading frame holds
    the raw value alone, without rolling mean or rolling standard
    deviation, and so does that of any frame of fewer than 7 readings. *)
Lemma extract_features_short_counterexample :
  _extract_features [("energyOutput", [VFloat (Fin 500)])] = Ok [[Fin 500]]
  /\ rolling_features 1 [Fin 500] = [].
Proof. split; reflexivity. Qed.

End FeatureFacts.


(* ================================================================== *)
(** * Alert formatting *)
(* ================================================================== *)

(** Evaluation of frame operations on frames whose column names are
    literals. *)
Ltac frame_simpl :=
  cbn [DF.setitem DF.col DF.len DF.getitem DF.columns DF.empty
       String.eqb Ascii.eqb Bool.eqb obind map fst snd].

Section FormatFacts.

Variable world : env.

Lemma get_present (name : string) (default : value) (n : nat) (df : frame)
    (c : list value) :
  DF.col name df = Some c -> DF.get name default n df = c.
Proof. unfold DF.get. now intros ->. Qed.

(** The derived columns of a formatted day, in terms of the day's own
    energy readings. *)
Lemma format_alert_data_fields (df : frame) (cells : list value)
    (kwh : list float64) :
  DF.empty df = false ->
  DF.col "energyOutput" df = Some cells ->
  DF.as_floats cells = Ok kwh ->
  let n := DF.len df in
  let mean_output := Series.mean kwh in
  let std_output := Series.std kwh in
  exists out,
    format_alert_data world df = Ok out
    /\ DF.columns out = headers
    /\ DF.len out = n
    /\ DF.col "alert_id" out = Some (map (fun i => VInt (Z.of_nat i)) (seq 1 n))
    /\ DF.col "energy_kwh" out = Some cells
    /\ DF.col "expected_min" out
       = Some (DF.broadcast n (py_max0 (F.sub mean_output (F.mul (Fin 2) std_output))))
    /\ DF.col "expected_max" out
       = Some (DF.broadcast n (VFloat (F.add mean_output (F.mul (Fin 2) std_output))))
    /\ DF.col "deviation_percentage" out
       = Some (DF.of_floats (map (deviation_percentage mean_output) kwh))
    /\ DF.col "trend_direction" out
       = Some (DF.broadcast n (VStr (trend_label n kwh))).
Proof.
  intros Hne Hcol Hfl n mean_output std_output.
  unfold format_alert_data. rewrite Hne.
  unfold additional_fields, DF.has_col, energy_of, DF.getitem.
  rewrite Hcol. cbn [obind]. rewrite Hfl. cbn [obind].
  unfold export_columns. rewrite (get_present _ _ _ _ _ Hcol).
  fold n. frame_simpl. rewrite !length_map, !length_seq. frame_simpl.
  rewrite Hfl. frame_simpl.
  unfold trend_direction, DF.getitem. frame_simpl.
  rewrite !length_map, !length_seq.
  rewrite Hfl. cbn [obind].
  replace (if (1 <? n)%nat
           then Ok (VStr (if Series.is_monotonic_decreasing kwh
                          then "Declining" else "Variable"))
           else Ok (VStr "Single Point"))
    with (Ok (A := value) (VStr (trend_label n kwh)))
    by (unfold trend_label; destruct (1 <? n)%nat; reflexivity).
  cbn [obind].
  eexists. split; [reflexivity|].
  frame_simpl. rewrite !length_map, !length_seq.
  repeat split; reflexivity.
Qed.

Lemma Qrint_comp (p q : Q) : p == q -> F.Qrint p = F.Qrint q.
Proof.
  intro H. unfold F.Qrint. rewrite (Qfloor_comp _ _ H).
  assert (E : p - inject_Z (Qfloor q) == q - inject_Z (Qfloor q)) by (rewrite H; reflexivity).
  now rewrite (Qcompare_comp _ _ E (1 # 2) (1 # 2) (Qeq_refl _)).
Qed.

Lemma sgn_Qabs (q : Q) : Z.sgn (Qnum (Qabs q)) = Z.abs (Z.sgn (Qnum q)).
Proof. destruct q as [[|n|n] d]; reflexivity. Qed.

Lemma sgn_positive (m : Q) : 0 <= m -> ~ m == 0 -> Z.sgn (Qnum m) = 1%Z.
Proof.
  intros Hm E. destruct m as [[|n|n] d]; try reflexivity.
  - exfalso. apply E. reflexivity.
  - exfalso. unfold Qle in Hm. simpl in Hm. lia.
Qed.

End FormatFacts.



(* ================================================================== *)
(** * A day with a single alert *)
(* ================================================================== *)

Section SingleAlert.

Variable world : env.

Lemma mean_single_Fin (q : Q) : exists m, Series.mean [Fin q] = Fin m /\ m == q.
Proof.
  assert (H := mean_singleton (Fin q)).
  destruct (Series.mean [Fin q]) as [m| | |]; simpl in H; try contradiction.
  now exists m.
Qed.

Lemma deviation_of_the_mean (m q : Q) :
  m == q -> ~ q == 0 ->
  exists d, deviation_percentage (Fin m) (Fin q) = Fin d /\ d == 0.
Proof.
  intros Hm Hq. unfold deviation_percentage.
  cbn [F.sub F.neg F.add]. rewrite div_Fin by (rewrite Hm; exact Hq).
  cbn [F.mul F.abs F.round2]. eexists. split; [reflexivity|].
  rewrite (Qrint_comp _ 0).
  - reflexivity.
  - assert (E : (q + - m) / m == 0) by (rewrite Hm; field; exact Hq).
    rewrite E. reflexivity.
Qed.

Lemma deviation_of_zero (m q : Q) :
  m == q -> q == 0 -> deviation_percentage (Fin m) (Fin q) = NaN.
Proof.
  intros Hm Hq. unfold deviation_percentage.
  cbn [F.sub F.neg F.add]. rewrite div_zero_zero; [reflexivity| |].
  - rewrite Hm, Hq. reflexivity.
  - rewrite Hm. exact Hq.
Qed.

(** C10 (amended).  On an export day with exactly one alert, of finite
    energy value, [trend_direction] is 'Single Point', the sample standard
    deviation is NaN, hence [expected_max] is NaN while [expected_min]
    evaluates to 0; [deviation_percentage] is 0.0 when the value is not
    zero, and NaN when it is. *)
Theorem single_alert_day (df : frame) (cell : value) (q : Q)
    (Hlen : DF.len df = 1%nat)
    (Hcol : DF.col "energyOutput" df = Some [cell])
    (Hval : DF.to_float cell = Ok (Fin q)) :
  Series.std [Fin q] = NaN
  /\ exists out,
       format_alert_data world df = Ok out
       /\ DF.col "trend_direction" out = Some [VStr "Single Point"]
       /\ DF.col "expected_max" out = Some [VFloat NaN]
       /\ DF.col "expected_min" out = Some [VInt 0]
       /\ (~ q == 0 ->
           exists d, DF.col "deviation_percentage" out = Some [VFloat (Fin d)] /\ d == 0)
       /\ (q == 0 -> DF.col "deviation_percentage" out = Some [VFloat NaN]).
Proof.
  split; [apply std_singleton|].
  assert (Hfl : DF.as_floats [cell] = Ok [Fin q])
    by (unfold DF.as_floats; cbn [omap]; rewrite Hval; reflexivity).
  assert (Hne : DF.empty df = false) by (unfold DF.empty; now rewrite Hlen).
  destruct (format_alert_data_fields world df [cell] [Fin q] Hne Hcol Hfl)
    as (out & Ho & _ & _ & _ & _ & Hmin & Hmax & Hdev & Htrend).
  rewrite Hlen in Hmin, Hmax, Htrend.
  rewrite std_singleton in Hmin, Hmax.
  destruct (mean_single_Fin q) as (m & Em & Hm). rewrite Em in Hmin, Hmax, Hdev.
  exists out. split; [exact Ho|].
  split; [exact Htrend|]. split; [exact Hmax|]. split; [exact Hmin|].
  rewrite Hdev. cbn [map DF.of_floats]. split.
  - intro Hq. destruct (deviation_of_the_mean m q Hm Hq) as (d & -> & Hd).
    now exists d.
  - intro Hq. now rewrite deviation_of_zero.
Qed.

End SingleAlert.

Lemma single_alert_day_witness :
  exists out,
    format_alert_data sample_env [("energyOutput", [VFloat (Fin 300)])] = Ok out
    /\ DF.col "expected_max" out = Some [VFloat NaN]
    /\ DF.col "expected_min" out = Some [VInt 0].
Proof.
  destruct (single_alert_day sample_env [("energyOutput", [VFloat (Fin 300)])]
              (VFloat (Fin 300)) 300)
    as (_ & out & Ho & _ & Hmax & Hmin & _).
  - reflexivity.
  - reflexivity.
  - reflexivity.
  - exists out. repeat split; assumption.
Defined.

(** C10 (as stated) fails when the single alert has the energy value 0:
    the deviation is 0/0, NaN and not 0.0. *)
Lemma single_alert_zero_counterexample :
  exists out,
    format_alert_data sample_env day_single_zero = Ok out
    /\ DF.col "trend_direction" out = Some [VStr "Single Point"]
    /\ DF.col "deviation_percentage" out = Some [VFloat NaN]
    /\ values_are [VFloat NaN] [0] = false.
Proof.
  eexists. split; [vm_compute; reflexivity|].
  repeat split; reflexivity.
Qed.


(* ================================================================== *)
(** * Daily export *)
(* ================================================================== *)

Lemma str_length_app (a b : string) :
  String.length (a ++ b) = (String.length a + String.length b)%nat.
Proof. induction a as [|c a IH]; simpl; [reflexivity|now rewrite IH]. Qed.

Lemma str_app_assoc (a b c : string) : (a ++ b) ++ c = a ++ (b ++ c).
Proof. induction a as [|x a IH]; simpl; [reflexivity|now rewrite IH]. Qed.

(** Replacing [.csv] never shortens a string beyond the characters being
    skipped, and lengthens one that ends in [.csv]. *)
Lemma replace_csv_length_ge (s : string) (k : nat) :
  (String.length s
   <= String.length (Str.replace_from k ".csv" "_summary.json" s) + k)%nat.
Proof.
  revert k. induction s as [|c s IH]; intro k; [simpl; lia|].
  cbn [Str.replace_from]. destruct k as [|k].
  - destruct (prefix ".csv" (String c s)).
    + rewrite str_length_app. specialize (IH (String.length ".csv" - 1)%nat).
      simpl in *. lia.
    + specialize (IH O). simpl in *. lia.
  - specialize (IH k). simpl in *. lia.
Qed.

Lemma replace_csv_longer (p : string) :
  (String.length (p ++ ".csv")
   < String.length (Str.replace ".csv" "_summary.json" (p ++ ".csv")))%nat.
Proof.
  unfold Str.replace. induction p as [|c p IH]; [simpl; lia|].
  change (String c p ++ ".csv") with (String c (p ++ ".csv")).
  cbn [Str.replace_from]. destruct (prefix ".csv" (String c (p ++ ".csv"))).
  - rewrite str_length_app.
    assert (H := replace_csv_length_ge (p ++ ".csv") (String.length ".csv" - 1)).
    simpl in *. lia.
  - simpl in *. lia.
Qed.

Lemma csv_path_ends (dir prefix d : string) :
  exists p, csv_path dir prefix d = p ++ ".csv".
Proof.
  unfold csv_path, path_join.
  pose (name := prefix ++ "_" ++ Str.replace "-" "" d).
  destruct (String.eqb dir ""); [|destruct (String.eqb (substring _ 1 dir) "/")].
  - exists name. unfold name. now rewrite !str_app_assoc.
  - exists (dir ++ name). unfold name. now rewrite !str_app_assoc.
  - exists (dir ++ "/" ++ name). unfold name. now rewrite !str_app_assoc.
Qed.

(** The summary never lands on the alert file. *)
Lemma summary_path_differs (dir prefix d : string) :
  summary_path dir prefix d <> csv_path dir prefix d.
Proof.
  unfold summary_path. destruct (csv_path_ends dir prefix d) as (p & ->).
  intro E. assert (H := replace_csv_longer p). rewrite E in H. lia.
Qed.

Lemma select_none {A} (mask : list bool) (xs : list A) :
  Forall (fun b => b = false) mask -> DF.select mask xs = [].
Proof.
  intro H. revert xs. induction H as [|b mask -> _ IH]; intros [|x xs]; simpl; auto.
Qed.

Lemma filter_rows_none (mask : list bool) (df : frame) :
  Forall (fun b => b = false) mask -> DF.empty (DF.filter_rows mask df) = true.
Proof.
  intro H. destruct df as [|[n c] df]; [reflexivity|].
  unfold DF.empty, DF.filter_rows. cbn [map DF.len fst snd].
  now rewrite select_none.
Qed.

Section ExportFacts.

Variable world : env.
Variable output_dir : string.

Lemma bind_ok {S A B} (m : M S A) (k : A -> M S B) (s s' : S) (b : B) :
  bind m k s = (Ok b, s') ->
  exists a s1, m s = (Ok a, s1) /\ k a s1 = (Ok b, s').
Proof.
  unfold bind. destruct (m s) as [[a|e] s1]; [eauto|discriminate].
Qed.

Lemma bind_run {S A B} (m : M S A) (k : A -> M S B) (s : S) (a : A) (s1 : S) :
  m s = (Ok a, s1) -> bind m k s = k a s1.
Proof. unfold bind. now intros ->. Qed.

(** Filtering writes no file. *)
Lemma filter_keeps_files (d : option string) (s : estore) :
  files (snd (filter_anomalies_by_date world d s)) = files s.
Proof.
  unfold filter_anomalies_by_date, bind, gets, lift, modify, logger, ret. simpl.
  destruct (DF.col "date" (anomaly_data s)) as [c|]; simpl; [|reflexivity].
  destruct (DF.to_datetime c) as [dates|e]; simpl; [|reflexivity].
  destruct (Cal.parse _) as [t|]; reflexivity.
Qed.

(** On a day without readings the filter returns an empty frame. *)
Lemma filter_empty_day (d : string) (s : estore) :
  empty_day (anomaly_data s) d ->
  exists daily s1,
    filter_anomalies_by_date world (Some d) s = (Ok daily, s1)
    /\ DF.empty daily = true.
Proof.
  unfold empty_day, filter_anomalies_by_date, bind, gets, lift, modify, logger, ret.
  simpl. destruct (DF.col "date" (anomaly_data s)) as [c|]; simpl.
  - intros (dates & t & -> & Ht & Hall). simpl.
    unfold DF.to_datetime1 in Ht.
    destruct (Cal.parse d) as [t'|]; [|discriminate]. inversion Ht. subst t'. simpl.
    do 2 eexists. split; [reflexivity|].
    apply filter_rows_none. apply Forall_map.
    eapply Forall_impl; [|exact Hall]. intros x Hx. now apply Z.eqb_neq.
  - intros _. do 2 eexists. split; reflexivity.
Qed.

(** The columns of a formatted day are the fixed header, in order. *)
Lemma format_alert_data_columns (df out : frame) :
  format_alert_data world df = Ok out ->
  (DF.empty df = true /\ out = [])
  \/ (DF.empty df = false /\ DF.columns out = headers /\ DF.len out = DF.len df).
Proof.
  unfold format_alert_data. destruct (DF.empty df) eqn:Ee.
  - intro H. inversion H. now left.
  - intro H. right. split; [reflexivity|]. revert H.
    unfold additional_fields, export_columns.
    destruct (DF.has_col "energyOutput" df).
    + destruct (energy_of df) as [energy|e]; cbn [obind]; [|discriminate].
      frame_simpl.
      destruct (DF.as_floats (DF.get "energyOutput" (VInt 0) (DF.len df) df))
        as [kwh|e]; cbn [obind]; [|discriminate].
      frame_simpl. unfold trend_direction. frame_simpl.
      destruct (1 <? _)%nat; [destruct (DF.as_floats _); cbn [obind]|cbn [obind]];
        try discriminate;
        intro H; inversion H; frame_simpl;
        rewrite ?length_map, ?length_seq; split; reflexivity.
    + cbn [obind]. frame_simpl. unfold trend_direction. frame_simpl.
      destruct (1 <? _)%nat; [destruct (DF.as_floats _); cbn [obind]|cbn [obind]];
        try discriminate;
        intro H; inversion H; frame_simpl;
        rewrite ?length_map, ?length_seq; split; reflexivity.
Qed.

Lemma rows_of_length (df : frame) : List.length (rows_of df) = DF.len df.
Proof. unfold rows_of. now rewrite length_map, length_seq. Qed.

(** Reading the alert file back after the summary was written next to
    it. *)
Lemma read_csv_after_summary (p q : string) (c j : file) (fs : list (string * file)) :
  q <> p ->
  read_file p ((q, j) :: filter (fun f => negb (String.eqb (fst f) q))
                           ((p, c) :: filter (fun f => negb (String.eqb (fst f) p)) fs))
  = Some c.
Proof.
  intro Hne. unfold read_file. cbn [find filter fst snd].
  assert (E1 : String.eqb q p = false) by now apply String.eqb_neq.
  assert (E2 : String.eqb p q = false) by (apply String.eqb_neq; congruence).
  rewrite E1, E2. cbn [negb find fst snd]. now rewrite String.eqb_refl.
Qed.

Lemma write_file_ok (path : string) (content : file) (s s' : estore) :
  write_file world path content s = (Ok tt, s') ->
  io_error world path = None
  /\ s' = mkEstore (anomaly_data s)
            ((path, content) :: filter (fun f => negb (String.eqb (fst f) path)) (files s))
            (log s).
Proof.
  unfold write_file. destruct (io_error world path); [discriminate|].
  unfold modify. intro H. inversion H. auto.
Qed.

(** What a successful daily export leaves on disk. *)
Lemma export_daily_alerts_ok (d prefix : string) (s s' : estore)
    (r : string * nat * summary) :
  export_daily_alerts world output_dir (Some d) prefix s = (Ok r, s') ->
  exists daily formatted rows,
    fst (filter_anomalies_by_date world (Some d)
           (snd (logger "INFO" ("Starting export for date: " ++ d) s)))
      = Ok daily
    /\ format_alert_data world daily = Ok formatted
    /\ fst (fst r) = csv_path output_dir prefix d
    /\ snd (fst r) = DF.len formatted
    /\ read_file (csv_path output_dir prefix d) (files s') = Some (Csv headers rows)
    /\ rows = rows_of formatted
    /\ read_file (summary_path output_dir prefix d) (files s') = Some (Json (snd r)).
Proof.
  unfold export_daily_alerts. intro H.
  apply bind_ok in H. destruct H as ([] & s1 & Hlog & H).
  unfold logger, modify in Hlog. inversion Hlog. subst s1. clear Hlog.
  apply bind_ok in H. destruct H as (daily & s2 & Hfilter & H).
  apply bind_ok in H. destruct H as (formatted & s3 & Hformat & H).
  unfold lift in Hformat. inversion Hformat. subst s3. clear Hformat.
  rename H1 into Hformat.
  apply bind_ok in H. destruct H as ([] & s4 & Hwrite & H).
  apply bind_ok in H. destruct H as (stats & s5 & Hstats & H).
  unfold lift in Hstats. inversion Hstats. subst s5. clear Hstats.
  apply bind_ok in H. destruct H as ([] & s6 & Hsum & H).
  unfold ret in H. inversion H. subst r s'. clear H.
  fold (csv_path output_dir prefix d) in *.
  fold (summary_path output_dir prefix d) in *.
  apply write_file_ok in Hsum. destruct Hsum as (_ & ->).
  exists daily, formatted.
  assert (Hcsv : exists rows,
            rows = rows_of formatted
            /\ files s4 = (csv_path output_dir prefix d, Csv headers rows)
                          :: filter (fun f => negb (String.eqb (fst f)
                                                     (csv_path output_dir prefix d)))
                                    (files s2)).
  { destruct (format_alert_data_columns daily formatted Hformat)
      as [(_ & ->)|(_ & Hcols & _)].
    - cbn [DF.empty DF.len Nat.eqb negb] in Hwrite.
      apply bind_ok in Hwrite. destruct Hwrite as ([] & s7 & Hw & Hl).
      apply write_file_ok in Hw. destruct Hw as (_ & ->).
      unfold logger, modify in Hl. inversion Hl. subst s4. cbn [files].
      eexists. split; reflexivity.
    - destruct (DF.empty formatted) eqn:Ee; cbn [negb] in Hwrite.
      + apply bind_ok in Hwrite. destruct Hwrite as ([] & s7 & Hw & Hl).
        apply write_file_ok in Hw. destruct Hw as (_ & ->).
        unfold logger, modify in Hl. inversion Hl. subst s4. cbn [files].
        exists (rows_of formatted). split; [reflexivity|].
        unfold rows_of at 2. unfold DF.empty in Ee. apply Nat.eqb_eq in Ee.
        unfold rows_of. rewrite Ee. reflexivity.
      + apply bind_ok in Hwrite. destruct Hwrite as ([] & s7 & Hw & Hl).
        apply write_file_ok in Hw. destruct Hw as (_ & ->).
        unfold logger, modify in Hl. inversion Hl. subst s4. cbn [files].
        rewrite Hcols. eexists. split; reflexivity. }
  destruct Hcsv as (rows & Hrows & Hfiles). exists rows.
  split; [exact (f_equal fst Hfilter)|]. split; [exact Hformat|].
  split; [reflexivity|]. split; [reflexivity|].
  cbn [files fst snd]. split.
  - rewrite Hfiles. apply read_csv_after_summary. apply summary_path_differs.
  - split; [exact Hrows|].
    unfold read_file. cbn [find fst snd]. now rewrite String.eqb_refl.
Qed.

(** C6.  When no reading falls on the export day, the daily export still
    writes its artifact: no alert row under the fixed header of 13 columns.
    The header of the file of any exported day is that same list, so the
    schema does not differ between empty and non-empty days. *)
Theorem export_empty_day_schema (d prefix : string) (s : estore)
    (Hempty : empty_day (anomaly_data s) d)
    (Hcsv : io_error world (csv_path output_dir prefix d) = None)
    (Hjson : io_error world (summary_path output_dir prefix d) = None) :
  headers = ["alert_id"; "timestamp"; "energy_kwh"; "severity"; "anomaly_score";
             "deviation_percentage"; "expected_min"; "expected_max";
             "system_status"; "recommended_action"; "units_affected";
             "trend_direction"; "created_at"]
  /\ (exists stats s',
        export_daily_alerts world output_dir (Some d) prefix s
          = (Ok (csv_path output_dir prefix d, O, stats), s')
        /\ read_file (csv_path output_dir prefix d) (files s') = Some (Csv headers []))
  /\ (forall d2 s2 r s2',
        export_daily_alerts world output_dir (Some d2) prefix s2 = (Ok r, s2') ->
        exists rows,
          read_file (csv_path output_dir prefix d2) (files s2') = Some (Csv headers rows)
          /\ List.length rows = snd (fst r)).
Proof.
  split; [reflexivity|]. split.
  - destruct (filter_empty_day d
                (snd (logger "INFO" ("Starting export for date: " ++ d) s)) Hempty)
      as (daily & s1 & Hf & He).
    assert (Hfmt : format_alert_data world daily = Ok [])
      by (unfold format_alert_data; now rewrite He).
    destruct (export_daily_alerts world output_dir (Some d) prefix s)
      as [[r|e] s'] eqn:E.
    + destruct (export_daily_alerts_ok d prefix s s' r E)
        as (daily' & formatted & rows & Hf' & Hfmt' & Hp & Hc & Hread & Hrows & _).
      assert (Hd : Ok daily' = Ok daily) by (rewrite <- Hf'; exact (f_equal fst Hf)).
      inversion Hd. subst daily'.
      rewrite Hfmt in Hfmt'. inversion Hfmt'. subst formatted.
      destruct r as [[p c] stats]. cbn [fst snd] in *. subst p c rows.
      exists stats, s'. split; [reflexivity|exact Hread].
    + exfalso. revert E. unfold export_daily_alerts. cbv beta iota zeta.
      rewrite (bind_run (logger "INFO" ("Starting export for date: " ++ d)) _ s tt _ eq_refl).
      cbv beta.
      rewrite (bind_run _ _ (snd (logger "INFO" ("Starting export for date: " ++ d) s))
                 _ _ Hf). cbv beta.
      unfold lift at 1. unfold bind at 1. rewrite Hfmt.
      cbn [DF.empty DF.len Nat.eqb negb].
      fold (csv_path output_dir prefix d). fold (summary_path output_dir prefix d).
      unfold bind, write_file, lift, generate_summary_stats, logger, modify, ret.
      rewrite Hcsv, Hjson. cbn [DF.empty DF.len Nat.eqb]. discriminate.
  - intros d2 s2 r s2' E.
    destruct (export_daily_alerts_ok d2 prefix s2 s2' r E)
      as (daily & formatted & rows & _ & _ & _ & Hc & Hread & Hrows & _).
    exists rows. split; [exact Hread|]. rewrite Hrows, Hc. apply rows_of_length.
Qed.

End ExportFacts.

Lemma export_empty_day_schema_witness :
  exists stats s',
    export_daily_alerts sample_env "./exports" (Some "2024-01-13") "alerts"
      (mkEstore sample_frame [] [])
    = (Ok ("./exports/alerts_20240113.csv", O, stats), s')
    /\ read_file "./exports/alerts_20240113.csv" (files s') = Some (Csv headers []).
Proof.
  destruct (export_empty_day_schema sample_env "./exports" "2024-01-13" "alerts"
              (mkEstore sample_frame [] []))
    as (_ & (stats & s' & H & Hr) & _).
  - unfold empty_day. cbn [anomaly_data]. do 2 eexists.
    split; [vm_compute; reflexivity|]. split; [vm_compute; reflexivity|].
    repeat constructor; vm_compute; discriminate.
  - reflexivity.
  - reflexivity.
  - exists stats, s'. split; [exact H|exact Hr].
Defined.


(* ================================================================== *)
(** * Batch export *)
(* ================================================================== *)

Section BatchFacts.

Variable world : env.
Variable output_dir : string.

(** One day of the batch never raises: its record is that of the outcome
    of the day's export, whatever it is. *)
Lemma export_day_total (i : nat) (s : estore) :
  exists s',
    export_day world output_dir i s
    = (Ok (record_of (day_back world i)
             (fst (export_daily_alerts world output_dir
                     (Some (day_back world i)) "alerts" s))), s').
Proof.
  unfold export_day, try_except, bind, ret, logger, modify.
  fold (day_back world i).
  destruct (export_daily_alerts world output_dir (Some (day_back world i)) "alerts" s)
    as [[r|e] s1]; cbn [fst record_of]; eauto.
Qed.




End BatchFacts.



(* ================================================================== *)
(** * Effects on the caller's frame *)
(* ================================================================== *)

Lemma setitem_same (name : string) (c : list value) (df : frame) :
  DF.col name df = Some c -> DF.setitem name c df = df.
Proof.
  induction df as [|[n c0] df IH]; simpl; [discriminate|].
  destruct (String.eqb n name) eqn:E.
  - intro H. inversion H. reflexivity.
  - intro H. f_equal. now apply IH.
Qed.

Lemma col_in_columns (name : string) (c : list value) (df : frame) :
  DF.col name df = Some c -> In name (DF.columns df).
Proof.
  induction df as [|[n c0] df IH]; simpl; [discriminate|].
  destruct (String.eqb n name) eqn:E.
  - apply String.eqb_eq in E. now left.
  - intro H. right. now apply IH.
Qed.

Lemma to_datetime_timestamps (ts : list timestamp) :
  DF.to_datetime (map VTime ts) = Ok ts.
Proof.
  unfold DF.to_datetime. induction ts as [|t ts IH]; simpl; [reflexivity|].
  now rewrite IH.
Qed.

Section FrameEffects.

Context {sk : Sklearn}.
Variable world : env.
Variable output_dir : string.

(** Scoring changes neither the detector nor the caller's frame: the
    columns are assigned to a copy. *)
Lemma detect_anomalies_pure (s : dstore) : snd (detect_anomalies s) = s.
Proof.
  unfold detect_anomalies, bind, gets, lift, raise, ret. cbn [fst snd].
  destruct (negb (fitted (self s))); [reflexivity|].
  destruct (_extract_features (data s)); [|reflexivity].
  destruct (fitted_parts (self s)); [|reflexivity].
  destruct (scaler_transform _ _); [|reflexivity].
  destruct (decision_function _ _); [|reflexivity].
  destruct (predict _ _); [|reflexivity].
  destruct (energy_of (data s)); [|reflexivity].
  destruct (_combine_scores _ _ _); [|reflexivity].
  destruct (_get_recommendations _); reflexivity.
Qed.

(** The only write of the date filter to the caller's frame. *)
Lemma filter_data (d : option string) (s : estore) :
  dates_parsed_in_place (anomaly_data s)
    (anomaly_data (snd (filter_anomalies_by_date world d s))).
Proof.
  unfold filter_anomalies_by_date, bind, gets, lift, modify, logger, ret.
  cbn [fst snd anomaly_data].
  destruct (DF.col "date" (anomaly_data s)) as [c|] eqn:Ec; [|now left].
  destruct (DF.to_datetime c) as [dates|e] eqn:Ed; [|now left].
  cbn [fst snd anomaly_data].
  assert (R : dates_parsed_in_place (anomaly_data s)
                (DF.setitem "date" (map VTime dates) (anomaly_data s)))
    by (right; exists c, dates; auto).
  destruct (DF.to_datetime1 _); exact R.
Qed.

(** Once the dates are filtered, a daily export reads the frame and writes files and
    log lines only. *)
Lemma export_data (d : option string) (prefix : string) (s : estore) :
  exists s0,
    anomaly_data s0 = anomaly_data s
    /\ anomaly_data (snd (export_daily_alerts world output_dir d prefix s))
       = anomaly_data (snd (filter_anomalies_by_date world
                              (Some (match d with Some x => x | None => today world end))
                              s0)).
Proof.
  unfold export_daily_alerts. cbv beta zeta.
  set (date := match d with Some x => x | None => today world end).
  exists (snd (logger "INFO" ("Starting export for date: " ++ date) s)).
  split; [reflexivity|].
  unfold bind at 1. cbn [logger modify].
  unfold logger at 1, modify at 1. cbv beta iota.
  unfold bind at 1.
  destruct (filter_anomalies_by_date world (Some date) _) as [[daily|e] s1];
    [|reflexivity].
  cbn [snd].
  unfold bind, lift, write_file, logger, modify, ret.
  destruct (format_alert_data world daily) as [formatted|e]; [|reflexivity].
  destruct (negb (DF.empty formatted));
    destruct (io_error world _); cbn [fst snd anomaly_data]; try reflexivity;
    destruct (generate_summary_stats world formatted date); cbn [fst snd anomaly_data];
    try reflexivity;
    destruct (io_error world _); reflexivity.
Qed.

(** C9 (amended).  Scoring leaves the caller's frame (and the detector)
    unchanged and returns an augmented copy.  A daily export leaves the
    caller's rows and every column other than [date] unchanged; the [date]
    column it parses to timestamps in place, so the frame is unchanged
    exactly when the dates were timestamps already (or there is no [date]
    column). *)
Theorem pipeline_frame_effect (ds : dstore) (d : option string) (prefix : string)
    (es : estore) :
  let frame_after := anomaly_data (snd (export_daily_alerts world output_dir d prefix es)) in
  snd (detect_anomalies ds) = ds
  /\ dates_parsed_in_place (anomaly_data es) frame_after
  /\ DF.columns frame_after = DF.columns (anomaly_data es)
  /\ (forall name, name <> "date" -> DF.col name frame_after = DF.col name (anomaly_data es))
  /\ (forall c, DF.col "date" (anomaly_data es) = Some c ->
        exists c', DF.col "date" frame_after = Some c' /\ List.length c' = List.length c)
  /\ (DF.col "date" (anomaly_data es) = None -> frame_after = anomaly_data es)
  /\ (forall ts, DF.col "date" (anomaly_data es) = Some (map VTime ts) ->
        frame_after = anomaly_data es).
Proof.
  intro frame_after.
  assert (Hp : dates_parsed_in_place (anomaly_data es) frame_after).
  { subst frame_after. destruct (export_data d prefix es) as (s0 & H0 & ->).
    rewrite <- H0. apply filter_data. }
  split; [apply detect_anomalies_pure|]. split; [exact Hp|].
  destruct Hp as [->|(c & dates & Hc & Hd & ->)].
  - repeat split; auto. intros c Hc. eauto.
  - split; [apply columns_setitem_in; eapply col_in_columns; exact Hc|].
    split; [intros name Hn; now apply col_setitem_neq|].
    split.
    { intros c0 Hc0. rewrite col_setitem_eq. eexists. split; [reflexivity|].
      rewrite length_map. rewrite Hc in Hc0. inversion Hc0. subst c0.
      unfold DF.to_datetime in Hd. now apply omap_length in Hd. }
    split; [intro Hn; congruence|].
    intros ts Hts. rewrite Hc in Hts. inversion Hts. subst c.
    rewrite to_datetime_timestamps in Hd. inversion Hd. subst dates.
    now apply setitem_same.
Qed.

End FrameEffects.

Lemma pipeline_frame_effect_witness :
  anomaly_data (snd (export_daily_alerts sample_env "./exports" (Some "2024-01-15")
                       "alerts" (mkEstore parsed_frame [] [])))
  = parsed_frame.
Proof.
  destruct (@pipeline_frame_effect toy_sklearn sample_env "./exports"
              (mkDstore init_default parsed_frame) (Some "2024-01-15") "alerts"
              (mkEstore parsed_frame [] []))
    as (_ & _ & _ & _ & _ & _ & H).
  apply (H [mkTime 19737 36000; mkTime 19738 43200]). reflexivity.
Defined.

(** C9 (as stated) fails for the daily export: a frame whose dates are
    strings comes back with its [date] column replaced by timestamps. *)
Lemma export_mutates_dates_counterexample :
  let frame_before := mkEstore sample_frame [] [] in
  let frame_after := snd (export_daily_alerts sample_env "./exports" (Some "2024-01-15")
                      "alerts" frame_before) in
  DF.col "date" (anomaly_data frame_before)
    = Some [VStr "2024-01-15 10:00:00"; VStr "2024-01-15 11:00:00";
            VStr "2024-01-16 10:00:00"; VStr "2024-01-16 12:00:00"]
  /\ DF.col "date" (anomaly_data frame_after)
     = Some [VTime (mkTime 19737 36000); VTime (mkTime 19737 39600);
             VTime (mkTime 19738 36000); VTime (mkTime 19738 43200)]
  /\ anomaly_data frame_after <> anomaly_data frame_before.
Proof.
  split; [reflexivity|]. split; [vm_compute; reflexivity|].
  vm_compute. discriminate.
Qed.


(* ================================================================== *)
(** * Scoring a constant batch *)
(* ================================================================== *)

(** Scoring a batch of equal readings with a fitted detector returns (when
    the estimators do), and the frame it returns carries NaN in the
    [z_score], [spc_score] and [anomaly_score] columns. *)
Lemma detect_constant_batch {sk : Sklearn} (d : detector) (df : frame)
    (iso : list float64) (v : Q) (n : nat) :
  fitted d = true ->
  library_scores d df iso ->
  energy_of df = Ok (repeat (Fin v) n) -> n <> O ->
  List.length iso = n ->
  exists result,
    detect_anomalies (mkDstore d df) = (Ok result, mkDstore d df)
    /\ DF.col "z_score" result = Some (DF.of_floats (repeat NaN n))
    /\ DF.col "spc_score" result = Some (DF.of_floats (repeat NaN n))
    /\ DF.col "anomaly_score" result = Some (DF.of_floats (repeat NaN n)).
Proof.
  intros Hfit Hlib Hen Hn Hlen.
  assert (Hne : repeat (Fin v) n <> []) by (destruct n; [congruence|discriminate]).
  assert (Hl : List.length iso = List.length (repeat (Fin v) n))
    by now rewrite repeat_length.
  destruct (detect_fitted d df iso (repeat (Fin v) n) Hfit Hlib Hen Hne Hl)
    as (result & Hr & _ & Hz & Hs & combined & Hc & Ha).
  assert (Hall := all_about_repeat v n).
  rewrite (zscore_constant v _ Hne Hall) in Hz, Hc.
  rewrite (spc_constant v _ Hne Hall) in Hs, Hc.
  rewrite repeat_length in Hz, Hs, Hc.
  assert (Hiso : iso <> []) by (destruct iso; [simpl in Hlen; congruence|discriminate]).
  assert (Hc' := combine_all_NaN iso Hiso). rewrite Hlen in Hc'.
  rewrite Hc' in Hc. inversion Hc. subst combined.
  exists result. repeat split; assumption.
Qed.


(* ================================================================== *)
(** * More on the scorers *)
(* ================================================================== *)

Lemma mean_Fin (e : list Q) :
  e <> [] -> exists m, Series.mean (map Fin e) = Fin m.
Proof.
  intro Hne. unfold Series.mean. rewrite notna_Fin.
  destruct (sum_Fin e) as (t & ->). unfold F.of_nat.
  rewrite div_Fin; [eauto|].
  apply of_nat_nonzero. rewrite length_map. destruct e; [congruence|discriminate].
Qed.

(* ================================================================== *)
(** * What every scored batch contains *)
(* ================================================================== *)

Lemma clip01_spec_bounds (q : Q) : 0 <= clip01_spec q <= 1.
Proof.
  unfold clip01_spec.
  destruct (Q.max_spec q 0) as [[? E]|[? E]];
    destruct (Q.min_spec (Qmax q 0) 1) as [[? E']|[? E']]; rewrite E'; lra.
Qed.

(* ================================================================== *)
(** * The frame returned by scoring *)
(* ================================================================== *)

Section ScoredFrame.

Context {sk : Sklearn}.

Lemma combine_scores_length (iso z spc combined : list float64) :
  _combine_scores iso z spc = Ok combined ->
  List.length combined = List.length iso /\ List.length z = List.length iso
  /\ List.length spc = List.length iso.
Proof.
  unfold _combine_scores.
  destruct (Series.amin iso); cbn [obind]; [|discriminate].
  destruct (Series.amax iso); cbn [obind]; [|discriminate].
  destruct (Nat.eqb_spec (List.length z) (List.length iso)) as [Ez|]; [|discriminate].
  destruct (Nat.eqb_spec (List.length spc) (List.length iso)) as [Es|]; [|discriminate].
  cbn [andb]. intro H. inversion H.
  split; [|auto]. rewrite zip3_length; rewrite !length_map; auto.
Qed.

(** The seven columns of a scored frame, and the columns it keeps. *)
Lemma detect_columns (d : detector) (df : frame) (iso energy : list float64) :
  fitted d = true ->
  library_scores d df iso ->
  energy_of df = Ok energy -> energy <> [] ->
  List.length iso = List.length energy ->
  exists result combined,
    detect_anomalies (mkDstore d df) = (Ok result, mkDstore d df)
    /\ _combine_scores iso (map F.abs (Series.zscore energy)) (_spc_analysis energy)
       = Ok combined
    /\ List.length combined = List.length energy
    /\ DF.col "anomaly_score" result = Some (DF.of_floats combined)
    /\ DF.col "anomaly_flag" result
       = Some (map (fun x => VBool (F.gtb x (th_info (thresholds d)))) combined)
    /\ DF.col "severity" result
       = Some (map (fun x => VStr (severity_name (classify (thresholds d) x))) combined)
    /\ DF.col "recommended_action" result
       = Some (map VStr
                 (zip2 (recommend (Series.mean energy))
                       (map (fun x => VStr (severity_name (classify (thresholds d) x)))
                            combined)
                       energy))
    /\ (forall name, ~ In name score_columns -> DF.col name result = DF.col name df).
Proof.
  intros Hfit (sc & forest & X & X' & labels & Hsc & Hfo & HX & HX' & Hiso & Hlab)
         Hen Hne Hlen.
  unfold detect_anomalies, bind, gets, lift, ret, fitted_parts. simpl.
  rewrite Hfit. simpl. rewrite HX, Hsc, Hfo. simpl.
  rewrite HX'. simpl. rewrite Hiso, Hlab, Hen. simpl.
  destruct (_combine_scores iso (map F.abs (Series.zscore energy)) (_spc_analysis energy))
    as [combined|e] eqn:Ec.
  2:{ exfalso. unfold _combine_scores in Ec.
      destruct iso as [|i0 iso']; [destruct energy; simpl in Hlen; congruence|].
      cbn [Series.amin Series.amax obind] in Ec.
      unfold Series.zscore, _spc_analysis in Ec.
      rewrite !length_map, Hlen, Nat.eqb_refl in Ec. discriminate. }
  simpl.
  unfold _get_recommendations, DF.getitem.
  rewrite !energy_of_setitem by (intro; discriminate).
  col_simpl. rewrite Hen. simpl.
  do 2 eexists. split; [reflexivity|]. split; [reflexivity|].
  split.
  { apply combine_scores_length in Ec. destruct Ec as (-> & _). exact Hlen. }
  unfold _classify_severity. rewrite !map_map.
  split; [col_simpl; reflexivity|]. split; [col_simpl; reflexivity|].
  split; [col_simpl; reflexivity|]. split; [col_simpl; reflexivity|].
  intros name Hn. unfold score_columns in Hn. cbn [In] in Hn.
  repeat (rewrite col_setitem_neq; [|intro E; apply Hn; rewrite E; tauto]).
  reflexivity.
Qed.

Lemma flagged_not_normal (th : thresholds_t) (x : float64) :
  F.gtb x (th_info th) = true -> classify th x <> Normal.
Proof.
  intro H. unfold classify.
  destruct (F.geb x (th_critical th)); [discriminate|].
  destruct (F.geb x (th_warning th)); [discriminate|].
  replace (F.geb x (th_info th)) with true; [discriminate|].
  symmetry. unfold F.gtb in H. unfold F.geb.
  destruct x as [q| | |], (th_info th) as [t| | |]; simpl in *; try congruence.
  apply Qltb_lt in H. apply Qle_bool_iff. lra.
Qed.

(** X3.  In the frame scoring returns, every row whose [anomaly_flag] is
    set has a severity other than 'Normal' (a row classified 'Normal' is
    never flagged).  The converse fails on the threshold: a score of
    exactly 0.3 is classified 'Info' but is not flagged, since the flag
    uses [>] and the classification [>=]. *)
Theorem flagged_rows_have_severity (d : detector) (df : frame)
    (iso energy : list float64)
    (Hfit : fitted d = true)
    (Hlib : library_scores d df iso)
    (Hen : energy_of df = Ok energy) (Hne : energy <> [])
    (Hlen : List.length iso = List.length energy) :
  exists result flags sevs,
    fst (detect_anomalies (mkDstore d df)) = Ok result
    /\ DF.col "anomaly_flag" result = Some flags
    /\ DF.col "severity" result = Some sevs
    /\ List.length flags = List.length energy
    /\ List.length sevs = List.length energy
    /\ (forall i, nth_error flags i = Some (VBool true) ->
          exists sev, nth_error sevs i = Some (VStr (severity_name sev))
                      /\ sev <> Normal)
    /\ (forall c seed,
          classify (thresholds (init c seed)) (Fin 0.3) = Info
          /\ F.gtb (Fin 0.3) (th_info (thresholds (init c seed))) = false).
Proof.
  destruct (detect_columns d df iso energy Hfit Hlib Hen Hne Hlen)
    as (result & combined & Hr & _ & Hl & _ & Hf & Hs & _).
  exists result. do 2 eexists. rewrite Hr.
  split; [reflexivity|]. split; [exact Hf|]. split; [exact Hs|].
  split; [now rewrite length_map|]. split; [now rewrite length_map|].
  split.
  - intros i Hi. rewrite nth_error_map in Hi |- *.
    destruct (nth_error combined i) as [x|]; [|discriminate].
    cbn [option_map] in *. inversion Hi as [Hg].
    eexists. split; [reflexivity|]. now apply flagged_not_normal.
  - intros c seed. split; reflexivity.
Qed.

(** X4.  Scoring returns the caller's columns with their cells, apart from
    the seven columns it assigns; each assigned column has one cell per
    reading. *)
Theorem scored_frame_columns (d : detector) (df : frame)
    (iso energy : list float64)
    (Hfit : fitted d = true)
    (Hlib : library_scores d df iso)
    (Hen : energy_of df = Ok energy) (Hne : energy <> [])
    (Hlen : List.length iso = List.length energy) :
  exists result,
    fst (detect_anomalies (mkDstore d df)) = Ok result
    /\ (forall name, ~ In name score_columns -> DF.col name result = DF.col name df)
    /\ (forall name, In name score_columns ->
          exists cells, DF.col name result = Some cells
                        /\ List.length cells = List.length energy).
Proof.
  destruct (detect_columns d df iso energy Hfit Hlib Hen Hne Hlen)
    as (result & combined & Hr & Hc & Hl & Ha & Hf & Hs & Hrec & Hkeep).
  destruct (detect_fitted d df iso energy Hfit Hlib Hen Hne Hlen)
    as (result' & Hr' & Hi & Hz & Hspc & _).
  rewrite Hr in Hr'. inversion Hr'. subst result'.
  exists result. rewrite Hr. split; [reflexivity|]. split; [exact Hkeep|].
  intros name Hin. unfold score_columns in Hin. cbn [In] in Hin.
  assert (Hrl : List.length
                  (zip2 (recommend (Series.mean energy))
                     (map (fun x => VStr (severity_name (classify (thresholds d) x)))
                        combined) energy) = List.length energy).
  { apply zip2_length. now rewrite length_map. }
  destruct Hin as [<-|[<-|[<-|[<-|[<-|[<-|[<-|[]]]]]]]]; eexists;
    (split; [eassumption|]);
    unfold DF.of_floats, Series.zscore, _spc_analysis;
    rewrite ?length_map; congruence.
Qed.

(** X5.  Scoring a frame without readings never returns a result: with
    estimators that answer row by row, the call raises, fitted or not. *)
Theorem detect_empty_batch_raises (d : detector) (df : frame)
    (Hrow : one_score_per_row sk)
    (Hen : energy_of df = Ok []) :
  exists e, fst (detect_anomalies (mkDstore d df)) = Raise e.
Proof.
  destruct Hrow as (Htr & Hdf).
  unfold detect_anomalies, bind, gets, lift, raise, ret. cbn [fst snd self data].
  destruct (negb (fitted d)); cbn [fst snd self data]; [eauto|].
  rewrite Hen.
  destruct (_extract_features df) as [X|e] eqn:EX; cbn [fst]; [|eauto].
  destruct (fitted_parts d) as [parts|e]; cbn [fst]; [|eauto].
  destruct (scaler_transform (fst parts) X) as [X'|e] eqn:EX'; cbn [fst]; [|eauto].
  destruct (decision_function (snd parts) X') as [iso|e] eqn:Ei; cbn [fst]; [|eauto].
  destruct (predict (snd parts) X') as [labels|e]; cbn [fst]; [|eauto].
  cbn [fst].
  assert (HX : List.length X = O).
  { unfold _extract_features in EX. rewrite Hen in EX. cbn [obind] in EX.
    unfold column_stack, feature_columns in EX. cbn [app List.length] in EX.
    destruct (forallb _ _); [|discriminate]. inversion EX. reflexivity. }
  apply Htr in EX'. apply Hdf in Ei. rewrite EX', HX in Ei.
  destruct iso; [|discriminate]. cbn. eauto.
Qed.

(** X6.  Fitting forgets an earlier fit: after a successful [fit] the
    detector depends on the training frame, the contamination, the seed and
    the thresholds only, not on the estimators it held before. *)
Theorem refit_overrides (d1 d2 : detector) (train : frame)
    (Hc : contamination d1 = contamination d2)
    (Hr : random_state d1 = random_state d2)
    (Ht : thresholds d1 = thresholds d2)
    (Hok : fst (fit (mkDstore d1 train)) = Ok tt) :
  fst (fit (mkDstore d2 train)) = Ok tt
  /\ self (snd (fit (mkDstore d1 train))) = self (snd (fit (mkDstore d2 train))).
Proof.
  destruct d1 as [c1 r1 f1 s1 b1 t1], d2 as [c2 r2 f2 s2 b2 t2].
  cbn in Hc, Hr, Ht. subst c2 r2 t2. revert Hok.
  unfold fit, bind, gets, lift, modify, set_self. cbn.
  destruct (_extract_features train) as [X|e]; cbn; [|discriminate].
  destruct (scaler_fit_transform X) as [[sc X']|e]; cbn; [|discriminate].
  destruct (forest_fit c1 r1 X') as [forest|e]; cbn; [|discriminate].
  intros _. split; reflexivity.
Qed.

End ScoredFrame.

Lemma toy_one_score_per_row : one_score_per_row toy_sklearn.
Proof.
  split.
  - intros sc X X'. cbn. destruct (forallb _ X); [|discriminate].
    intro H. now inversion H.
  - intros forest X iso. cbn. intro H. inversion H. now rewrite length_map.
Qed.

Lemma sample_library_scores :
  library_scores (self (snd (@fit toy_sklearn (mkDstore init_default sample_frame))))
    sample_frame [Fin (-350 # 4); Fin (-350 # 4); Fin (-350 # 4); Fin (-1050 # 4)].
Proof.
  unfold library_scores. do 5 eexists. repeat split; vm_compute; reflexivity.
Qed.

Lemma flagged_rows_have_severity_witness :
  exists result flags,
    fst (@detect_anomalies toy_sklearn
           (mkDstore (self (snd (@fit toy_sklearn (mkDstore init_default sample_frame))))
                     sample_frame)) = Ok result
    /\ DF.col "anomaly_flag" result = Some flags.
Proof.
  destruct (@flagged_rows_have_severity toy_sklearn
              (self (snd (@fit toy_sklearn (mkDstore init_default sample_frame))))
              sample_frame
              [Fin (-350 # 4); Fin (-350 # 4); Fin (-350 # 4); Fin (-1050 # 4)]
              [Fin 500; Fin 500; Fin 500; Fin 150])
    as (result & flags & sevs & Hr & Hf & _).
  - reflexivity.
  - exact sample_library_scores.
  - reflexivity.
  - discriminate.
  - reflexivity.
  - exists result, flags. split; [exact Hr|exact Hf].
Defined.

Lemma scored_frame_columns_witness :
  exists result,
    fst (@detect_anomalies toy_sklearn
           (mkDstore (self (snd (@fit toy_sklearn (mkDstore init_default sample_frame))))
                     sample_frame)) = Ok result
    /\ DF.col "date" result = DF.col "date" sample_frame.
Proof.
  destruct (@scored_frame_columns toy_sklearn
              (self (snd (@fit toy_sklearn (mkDstore init_default sample_frame))))
              sample_frame
              [Fin (-350 # 4); Fin (-350 # 4); Fin (-350 # 4); Fin (-1050 # 4)]
              [Fin 500; Fin 500; Fin 500; Fin 150])
    as (result & Hr & Hkeep & _).
  - reflexivity.
  - exact sample_library_scores.
  - reflexivity.
  - discriminate.
  - reflexivity.
  - exists result. split; [exact Hr|]. apply Hkeep.
    cbn. intros [H|[H|[H|[H|[H|[H|[H|[]]]]]]]]; discriminate H.
Defined.

Lemma detect_empty_batch_raises_witness :
  exists e,
    fst (@detect_anomalies toy_sklearn
           (mkDstore (self (snd (@fit toy_sklearn (mkDstore init_default sample_frame))))
                     empty_scored_frame)) = Raise e.
Proof.
  apply (@detect_empty_batch_raises toy_sklearn).
  - exact toy_one_score_per_row.
  - reflexivity.
Defined.

Lemma refit_overrides_witness :
  self (snd (@fit toy_sklearn
               (mkDstore (self (snd (@fit toy_sklearn (mkDstore init_default week_frame))))
                         sample_frame)))
  = self (snd (@fit toy_sklearn (mkDstore init_default sample_frame))).
Proof.
  apply (@refit_overrides toy_sklearn); reflexivity.
Defined.


(* ================================================================== *)
(** * How a constant batch is reported, and the width of the features *)
(* ================================================================== *)

Lemma zip2_repeat {A B C} (f : A -> B -> C) (a : A) (b : B) (n : nat) :
  zip2 f (repeat a n) (repeat b n) = repeat (f a b) n.
Proof. induction n as [|n IH]; simpl; [reflexivity|now rewrite IH]. Qed.

Lemma map_repeat {A B} (f : A -> B) (a : A) (n : nat) :
  map f (repeat a n) = repeat (f a) n.
Proof. induction n as [|n IH]; simpl; [reflexivity|now rewrite IH]. Qed.

Lemma classify_NaN (th : thresholds_t) : classify th NaN = Normal.
Proof. unfold classify, F.geb, F.leb. now destruct (th_critical th), (th_warning th), (th_info th). Qed.

Lemma gtb_NaN (t : float64) : F.gtb NaN t = false.
Proof. unfold F.gtb, F.ltb. now destruct t. Qed.

(** X7.  A batch of equal readings is reported as entirely normal: with a
    fitted detector, every row of the scored frame is unflagged, has
    severity 'Normal' and the action 'No action required' (its scores being
    NaN), whatever the isolation scores are. *)
Theorem constant_batch_reported_normal {sk : Sklearn} (d : detector) (df : frame)
    (iso : list float64) (v : Q) (n : nat)
    (Hfit : fitted d = true)
    (Hlib : library_scores d df iso)
    (Hen : energy_of df = Ok (repeat (Fin v) n)) (Hn : n <> O)
    (Hlen : List.length iso = n) :
  exists result,
    fst (detect_anomalies (mkDstore d df)) = Ok result
    /\ DF.col "anomaly_flag" result = Some (repeat (VBool false) n)
    /\ DF.col "severity" result = Some (repeat (VStr "Normal") n)
    /\ DF.col "recommended_action" result = Some (repeat (VStr "No action required") n).
Proof.
  assert (Hne : repeat (Fin v) n <> []) by (destruct n; [congruence|discriminate]).
  assert (Hl : List.length iso = List.length (repeat (Fin v) n))
    by now rewrite repeat_length.
  destruct (detect_columns d df iso (repeat (Fin v) n) Hfit Hlib Hen Hne Hl)
    as (result & combined & Hr & Hc & _ & _ & Hf & Hs & Hrec & _).
  assert (Hall := all_about_repeat v n).
  rewrite (zscore_constant v _ Hne Hall), (spc_constant v _ Hne Hall) in Hc.
  rewrite repeat_length in Hc.
  assert (Hiso : iso <> []) by (destruct iso; [simpl in Hlen; congruence|discriminate]).
  assert (Hc' := combine_all_NaN iso Hiso). rewrite Hlen in Hc'.
  rewrite Hc' in Hc. inversion Hc. subst combined.
  exists result. rewrite Hr. split; [reflexivity|].
  rewrite map_repeat in Hf, Hs, Hrec.
  rewrite classify_NaN in Hs, Hrec. rewrite gtb_NaN in Hf.
  rewrite zip2_repeat, map_repeat in Hrec.
  repeat split; assumption.
Qed.

Lemma constant_batch_reported_normal_witness :
  let train := [("energyOutput", [VFloat (Fin 500); VFloat (Fin 150)])] in
  let batch := [("energyOutput", [VFloat (Fin 500); VFloat (Fin 500)])] in
  exists result,
    fst (@detect_anomalies toy_sklearn
           (mkDstore (self (snd (@fit toy_sklearn (mkDstore init_default train)))) batch))
      = Ok result
    /\ DF.col "severity" result = Some [VStr "Normal"; VStr "Normal"].
Proof.
  intros train batch.
  destruct (@constant_batch_reported_normal toy_sklearn
              (self (snd (@fit toy_sklearn (mkDstore init_default train)))) batch
              [Fin (-350 # 2); Fin (-350 # 2)] 500 2)
    as (result & Hr & _ & Hs & _).
  - reflexivity.
  - unfold library_scores. do 5 eexists. repeat split; vm_compute; reflexivity.
  - reflexivity.
  - discriminate.
  - reflexivity.
  - exists result. split; [exact Hr|exact Hs].
Defined.

(** X8.  All feature vectors of a batch have one width, decided once for
    the batch: the raw value, two rolling features when the batch has at
    least 7 readings, two calendar features when there is a [date] column
    and every date parses (one unparseable date drops them for the whole
    batch, without an error), and the rate of change when the batch has
    more than one reading. *)
Theorem extract_features_width (df : frame) (X : matrix)
    (HX : _extract_features df = Ok X) :
  (forall row, In row X -> List.length row = feature_width df)
  /\ (1 <= feature_width df <= 6)%nat
  /\ (forall c e, DF.col "date" df = Some c -> DF.to_datetime c = Raise e ->
        time_features df = []).
Proof.
  split; [|split].
  - revert HX. unfold _extract_features.
    destruct (energy_of df) as [energy|e]; cbn [obind]; [|discriminate].
    unfold column_stack, feature_columns. cbn [app].
    destruct (forallb _ _); [|discriminate].
    intro H. inversion H. subst X. clear H.
    intros row Hin. apply in_map_iff in Hin. destruct Hin as (i & <- & _).
    cbn [map List.length]. rewrite length_map, !length_app.
    unfold feature_width, rolling_features, time_features, rate_features.
    destruct (7 <=? DF.len df)%nat, (1 <? DF.len df)%nat,
      (DF.col "date" df) as [c|]; try destruct (DF.to_datetime c);
      cbn [List.length]; lia.
  - unfold feature_width.
    destruct (7 <=? DF.len df)%nat, (1 <? DF.len df)%nat,
      (DF.col "date" df) as [c|]; try destruct (DF.to_datetime c); lia.
  - intros c e Hc He. unfold time_features. now rewrite Hc, He.
Qed.

Lemma extract_features_width_witness :
  exists X, _extract_features week_frame_bad_date = Ok X
            /\ forall row, In row X -> List.length row = 2%nat.
Proof.
  destruct (_extract_features week_frame_bad_date) as [X|e] eqn:E.
  - exists X. split; [reflexivity|].
    apply (extract_features_width week_frame_bad_date X E).
  - vm_compute in E. discriminate E.
Defined.


(* ================================================================== *)
(** * The summary of a scored frame *)
(* ================================================================== *)

Lemma col_filter_rows (name : string) (mask : list bool) (df : frame) :
  DF.col name (DF.filter_rows mask df) = option_map (DF.select mask) (DF.col name df).
Proof.
  unfold DF.filter_rows. induction df as [|[n c] df IH]; [reflexivity|].
  cbn [map DF.col fst snd]. destruct (String.eqb n name); [reflexivity|exact IH].
Qed.

Lemma select_length {A} (mask : list bool) (xs : list A) :
  List.length mask = List.length xs ->
  List.length (DF.select mask xs) = count_occ Bool.bool_dec mask true.
Proof.
  revert xs. induction mask as [|b mask IH]; intros [|x xs]; simpl; try discriminate;
    [reflexivity|].
  intro H. destruct b; simpl; [f_equal|]; apply IH; lia.
Qed.

Lemma count_true_le (mask : list bool) :
  (count_occ Bool.bool_dec mask true <= List.length mask)%nat.
Proof. apply count_occ_bound. Qed.

Lemma len_filter_rows (mask : list bool) (df : frame) :
  well_formed df -> df <> [] -> List.length mask = DF.len df ->
  DF.len (DF.filter_rows mask df) = count_occ Bool.bool_dec mask true.
Proof.
  intros Hwf Hne Hlen. destruct df as [|[n c] df]; [congruence|].
  cbn [DF.filter_rows map DF.len fst snd]. apply select_length.
  rewrite Hlen. reflexivity.
Qed.

Lemma col_In (name : string) (c : list value) (df : frame) :
  DF.col name df = Some c -> exists n, In (n, c) df.
Proof.
  induction df as [|[k c0] df IH]; simpl; [discriminate|].
  destruct (String.eqb k name).
  - intro H. inversion H. subst. eauto.
  - intro H. destruct (IH H) as (n & Hn). eauto.
Qed.

Lemma col_length (name : string) (c : list value) (df : frame) :
  well_formed df -> DF.col name df = Some c -> List.length c = DF.len df.
Proof.
  intros Hwf Hc. destruct (col_In name c df Hc) as (n & Hn).
  unfold well_formed in Hwf. rewrite Forall_forall in Hwf.
  exact (Hwf (n, c) Hn).
Qed.

Lemma as_mask_length (c : list value) (mask : list bool) :
  as_mask c = Ok mask -> List.length mask = List.length c.
Proof. apply omap_length. Qed.

Lemma count_alert_severities (mask : list bool) (sevs : list value) :
  Forall2 (fun b v => b = true -> is_alert_severity v) mask sevs ->
  (count_str "Critical" (DF.select mask sevs)
   + count_str "Warning" (DF.select mask sevs)
   + count_str "Info" (DF.select mask sevs)
   = List.length (DF.select mask sevs))%nat.
Proof.
  induction 1 as [|b v mask sevs Hb _ IH]; [reflexivity|].
  cbn [DF.select]. destruct b; [|exact IH].
  unfold count_str in *. cbn [filter List.length].
  destruct (Hb eq_refl) as [->|[->| ->]]; cbn [String.eqb Ascii.eqb Bool.eqb List.length];
    lia.
Qed.

(** X9.  The summary needs the [anomaly_flag] and [severity] columns and
    at least one row: without the flag column it raises [KeyError], on a
    frame without rows [ZeroDivisionError] (the anomaly rate divides by the
    number of rows), without the severity column [KeyError] even when no
    row is flagged.  When no row is flagged the score and date columns are
    not read: the average and maximum scores are 0 and there is no most
    severe date. *)
Theorem anomaly_summary_edge_cases (results : frame) :
  (DF.col "anomaly_flag" results = None ->
     get_anomaly_summary results = Raises (KeyError "anomaly_flag"))
  /\ (DF.col "anomaly_flag" results = Some [] -> DF.len results = O ->
        get_anomaly_summary results = ZeroDivisionError)
  /\ (forall flags mask,
        DF.col "anomaly_flag" results = Some flags -> as_mask flags = Ok mask ->
        DF.len results <> O -> DF.col "severity" results = None ->
        get_anomaly_summary results = Raises (KeyError "severity"))
  /\ (forall flags sevs,
        DF.col "anomaly_flag" results = Some flags ->
        as_mask flags = Ok (repeat false (List.length flags)) ->
        DF.len results <> O -> DF.col "severity" results = Some sevs ->
        exists summ,
          get_anomaly_summary results = Returns summ
          /\ total_data_points summ = DF.len results
          /\ total_anomalies summ = O
          /\ critical_anomalies summ = O /\ warning_anomalies summ = O
          /\ info_anomalies summ = O
          /\ avg_anomaly_score summ = VInt 0 /\ max_anomaly_score summ = VInt 0
          /\ most_severe_date summ = None).
Proof.
  unfold get_anomaly_summary, DF.getitem.
  split; [intros ->; reflexivity|].
  split; [intros -> ->; reflexivity|].
  split.
  - intros flags mask -> Hm Hn Hs. cbn [obind]. rewrite Hm. cbn [cbind].
    destruct (Nat.eqb_spec (DF.len results) 0) as [|_]; [contradiction|].
    rewrite col_filter_rows, Hs. reflexivity.
  - intros flags sevs -> Hm Hn Hs. cbn [obind]. rewrite Hm. cbn [cbind].
    destruct (Nat.eqb_spec (DF.len results) 0) as [|_]; [contradiction|].
    rewrite col_filter_rows, Hs. cbn [option_map cbind].
    assert (Hnone : Forall (fun b => b = false) (repeat false (List.length flags)))
      by (apply Forall_forall; intros b Hb; now apply repeat_spec in Hb).
    assert (He : DF.len (DF.filter_rows (repeat false (List.length flags)) results) = O).
    { assert (H := filter_rows_none _ results Hnone).
      unfold DF.empty in H. now apply Nat.eqb_eq in H. }
    rewrite He. cbn [Nat.ltb Nat.leb cbind].
    eexists. split; [reflexivity|]. cbn.
    rewrite (select_none _ sevs Hnone). repeat split; reflexivity.
Qed.

Lemma anomaly_summary_edge_cases_witness :
  get_anomaly_summary [("anomaly_flag", []); ("severity", [])] = ZeroDivisionError.
Proof.
  destruct (anomaly_summary_edge_cases [("anomaly_flag", []); ("severity", [])])
    as (_ & H & _).
  apply H; reflexivity.
Defined.

Lemma rate_bounds (n total : nat) :
  (n <= total)%nat -> total <> O ->
  exists r, F.mul (F.div (F.of_nat n) (F.of_nat total)) (Fin 100) = Fin r
            /\ 0 <= r <= 100.
Proof.
  intros Hle Hne. unfold F.of_nat.
  rewrite div_Fin by now apply of_nat_nonzero.
  cbn [F.mul]. eexists. split; [reflexivity|].
  assert (Ht : 0 < inject_Z (Z.of_nat total)).
  { unfold Qlt. simpl. lia. }
  assert (Hn0 : 0 <= inject_Z (Z.of_nat n)) by (unfold Qle; simpl; lia).
  assert (Hnt : inject_Z (Z.of_nat n) <= inject_Z (Z.of_nat total))
    by (unfold Qle; simpl; lia).
  assert (H0 : 0 <= inject_Z (Z.of_nat n) / inject_Z (Z.of_nat total))
    by (apply Qle_shift_div_l; lra).
  assert (H1 : inject_Z (Z.of_nat n) / inject_Z (Z.of_nat total) <= 1)
    by (apply Qle_shift_div_r; lra).
  lra.
Qed.

(** X10.  On a well-formed scored frame the summary counts rows: the total
    is the number of rows, the anomalies are the flagged rows (never more
    than the total), the anomaly rate lies between 0 and 100, and when
    every flagged row has one of the severities Critical, Warning, Info,
    the three severity counts add up to the number of anomalies. *)
Theorem anomaly_summary_counts (results : frame) (flags sevs : list value)
    (mask : list bool) (summ : anomaly_summary)
    (Hwf : well_formed results)
    (Hf : DF.col "anomaly_flag" results = Some flags)
    (Hm : as_mask flags = Ok mask)
    (Hs : DF.col "severity" results = Some sevs)
    (Hsum : get_anomaly_summary results = Returns summ) :
  total_data_points summ = DF.len results
  /\ total_anomalies summ = count_occ Bool.bool_dec mask true
  /\ (total_anomalies summ <= total_data_points summ)%nat
  /\ (exists r, anomaly_rate summ = Fin r /\ 0 <= r <= 100)
  /\ (Forall2 (fun b v => b = true -> is_alert_severity v) mask sevs ->
      (critical_anomalies summ + warning_anomalies summ + info_anomalies summ
       = total_anomalies summ)%nat).
Proof.
  assert (Hne : results <> []) by (intro E; subst; discriminate).
  assert (Hlm : List.length mask = DF.len results).
  { rewrite (as_mask_length _ _ Hm). now apply (col_length "anomaly_flag"). }
  assert (Hn := len_filter_rows mask results Hwf Hne Hlm).
  assert (Hle : (count_occ Bool.bool_dec mask true <= DF.len results)%nat)
    by (rewrite <- Hlm; apply count_true_le).
  revert Hsum. unfold get_anomaly_summary, DF.getitem.
  rewrite Hf. cbn [obind]. rewrite Hm. cbn [cbind].
  destruct (Nat.eqb_spec (DF.len results) 0) as [|Hn0]; [discriminate|].
  rewrite col_filter_rows, Hs. cbn [option_map cbind]. rewrite Hn.
  destruct (if (0 <? _)%nat then _ else _) as [avg|e]; cbn [cbind]; [|discriminate].
  destruct (if (0 <? _)%nat then _ else _) as [mx|e]; cbn [cbind]; [|discriminate].
  destruct (if (0 <? _)%nat then _ else _) as [date|e]; cbn [cbind]; [|discriminate].
  intro H. inversion H. subst summ. clear H. cbn.
  split; [reflexivity|]. split; [reflexivity|]. split; [exact Hle|].
  split; [now apply rate_bounds|].
  intro Hall. rewrite (count_alert_severities mask sevs Hall).
  apply select_length.
  rewrite Hlm. symmetry. now apply (col_length "severity").
Qed.

Lemma anomaly_summary_counts_witness :
  let results :=
    [("anomaly_flag", [VBool false; VBool true; VBool true]);
     ("severity", [VStr "Normal"; VStr "Info"; VStr "Critical"]);
     ("anomaly_score", [VFloat (Fin 0.1); VFloat (Fin 0.4); VFloat (Fin 0.9)]);
     ("date", [VStr "2024-01-15"; VStr "2024-01-16"; VStr "2024-01-17"])] in
  exists summ,
    get_anomaly_summary results = Returns summ
    /\ total_anomalies summ = 2%nat
    /\ most_severe_date summ = Some (VStr "2024-01-17").
Proof.
  intro results.
  destruct (get_anomaly_summary results) as [summ| |] eqn:E;
    [|vm_compute in E; discriminate E|vm_compute in E; discriminate E].
  exists summ. split; [reflexivity|].
  destruct (anomaly_summary_counts results
              [VBool false; VBool true; VBool true]
              [VStr "Normal"; VStr "Info"; VStr "Critical"]
              [false; true; true] summ) as (_ & Hn & _).
  - repeat constructor.
  - reflexivity.
  - reflexivity.
  - reflexivity.
  - exact E.
  - split; [exact Hn|]. vm_compute in E. inversion E. reflexivity.
Defined.


(* ================================================================== *)
(** * The one-call pipeline *)
(* ================================================================== *)

Lemma len_setitem (name : string) (c : list value) (df : frame) :
  df <> [] -> List.length c = DF.len df -> DF.len (DF.setitem name c df) = DF.len df.
Proof.
  destruct df as [|[n c0] df]; [congruence|]. intros _ Hc.
  cbn [DF.setitem]. destruct (String.eqb n name); cbn [DF.len]; [exact Hc|reflexivity].
Qed.

Lemma setitem_nonempty (name : string) (c : list value) (df : frame) :
  DF.setitem name c df <> [].
Proof.
  destruct df as [|[n c0] df]; cbn [DF.setitem]; [discriminate|].
  destruct (String.eqb n name); discriminate.
Qed.

Lemma forall_setitem (P : string * list value -> Prop) (name : string)
    (c : list value) (df : frame) :
  Forall P df -> (forall n, P (n, c)) -> Forall P (DF.setitem name c df).
Proof.
  intros H Hc. induction H as [|[n c0] df Hx Ht IH]; cbn [DF.setitem].
  - constructor; [apply Hc|constructor].
  - destruct (String.eqb n name); constructor; auto.
Qed.

Lemma wf_setitem (name : string) (c : list value) (df : frame) :
  well_formed df -> df <> [] -> List.length c = DF.len df ->
  well_formed (DF.setitem name c df).
Proof.
  intros Hwf Hne Hc. unfold well_formed. rewrite (len_setitem name c df Hne Hc).
  apply forall_setitem; [exact Hwf|]. intro n. exact Hc.
Qed.

(** The scored frame has the rows of the frame it was copied from. *)
Lemma assign_scores_shape (th : thresholds_t) (df : frame)
    (iso energy combined : list float64) :
  well_formed df -> df <> [] ->
  List.length energy = DF.len df -> List.length iso = DF.len df ->
  List.length combined = DF.len df ->
  well_formed (assign_scores th df iso energy combined)
  /\ DF.len (assign_scores th df iso energy combined) = DF.len df.
Proof.
  intros Hwf Hne He Hi Hc. unfold assign_scores.
  assert (step : forall name c f,
            (well_formed f /\ DF.len f = DF.len df) -> f <> [] ->
            List.length c = DF.len df ->
            (well_formed (DF.setitem name c f)
             /\ DF.len (DF.setitem name c f) = DF.len df)).
  { intros name c f (Hw & Hl) Hf Hlc. rewrite <- Hl in Hlc. split.
    - now apply wf_setitem.
    - rewrite len_setitem; auto. }
  repeat (apply step; [|apply setitem_nonempty|]);
    try (unfold DF.of_floats, Series.zscore, _spc_analysis; rewrite ?length_map;
         assumption).
  - apply step; [auto|exact Hne|]. unfold DF.of_floats. now rewrite length_map.
  - rewrite length_map. rewrite zip2_length; [exact He|]. rewrite length_map. congruence.
Qed.

Section Pipeline.

Context {sk : Sklearn}.

(** What a call of [detect_anomalies] that returns has computed. *)
Lemma detect_ok_inv (s s' : dstore) (result : frame) :
  detect_anomalies s = (Ok result, s') ->
  exists iso energy combined,
    energy_of (data s) = Ok energy
    /\ _combine_scores iso (map F.abs (Series.zscore energy)) (_spc_analysis energy)
       = Ok combined
    /\ result = assign_scores (thresholds (self s)) (data s) iso energy combined.
Proof.
  unfold detect_anomalies, bind, gets, lift, raise, ret. cbn [fst snd].
  destruct (negb (fitted (self s))); [discriminate|].
  destruct (_extract_features (data s)); [|discriminate].
  destruct (fitted_parts (self s)); [|discriminate].
  destruct (scaler_transform _ _); [|discriminate].
  destruct (decision_function _ _) as [iso|]; [|discriminate].
  destruct (predict _ _); [|discriminate].
  destruct (energy_of (data s)) as [energy|] eqn:Een; [|discriminate].
  destruct (_combine_scores _ _ _) as [combined|] eqn:Ec; [|discriminate].
  destruct (_get_recommendations _) as [recs|] eqn:Er; [|discriminate].
  intro H. inversion H. subst result s'. clear H.
  exists iso, energy, combined. split; [reflexivity|]. split; [exact Ec|].
  assert (Hrecs : recs = zip2 (recommend (Series.mean energy))
                           (map (fun x => VStr (severity_name
                                                  (classify (thresholds (self s)) x)))
                                combined) energy).
  { revert Er. unfold _get_recommendations, DF.getitem.
    rewrite !energy_of_setitem by (intro; discriminate).
    col_simpl. rewrite Een. cbn [obind].
    unfold _classify_severity. rewrite map_map.
    intro H. now inversion H. }
  subst recs. unfold assign_scores, _classify_severity. rewrite !map_map. reflexivity.
Qed.

Lemma energy_length (df : frame) (energy : list float64) :
  well_formed df -> energy_of df = Ok energy -> List.length energy = DF.len df.
Proof.
  intros Hwf. unfold energy_of, DF.getitem.
  destruct (DF.col "energyOutput" df) as [cells|] eqn:Ec; cbn [obind]; [|discriminate].
  intro H. rewrite (as_floats_length _ _ H). now apply (col_length "energyOutput").
Qed.

Lemma as_mask_flags (th : float64) (combined : list float64) :
  as_mask (map (fun x => VBool (F.gtb x th)) combined)
  = Ok (map (fun x => F.gtb x th) combined).
Proof.
  unfold as_mask. induction combined as [|x l IH]; [reflexivity|].
  cbn [map omap obind]. now rewrite IH.
Qed.

Lemma flagged_alert_severity (th : thresholds_t) (combined : list float64) :
  Forall2 (fun b v => b = true -> is_alert_severity v)
    (map (fun x => F.gtb x (th_info th)) combined)
    (map (fun x => VStr (severity_name (classify th x))) combined).
Proof.
  induction combined as [|x l IH]; [constructor|].
  cbn [map]. constructor; [|exact IH].
  intro H. apply flagged_not_normal in H. unfold is_alert_severity.
  destruct (classify th x); cbn; tauto.
Qed.

(** What a summary that is returned was computed from. *)
Lemma summary_returns_inv (results : frame) (flags sevs : list value)
    (mask : list bool) (summ : anomaly_summary) :
  DF.col "anomaly_flag" results = Some flags -> as_mask flags = Ok mask ->
  DF.col "severity" results = Some sevs ->
  get_anomaly_summary results = Returns summ ->
  total_data_points summ = DF.len results
  /\ total_anomalies summ = DF.len (DF.filter_rows mask results)
  /\ critical_anomalies summ = count_str "Critical" (DF.select mask sevs)
  /\ warning_anomalies summ = count_str "Warning" (DF.select mask sevs)
  /\ info_anomalies summ = count_str "Info" (DF.select mask sevs).
Proof.
  intros Hf Hm Hs. unfold get_anomaly_summary, DF.getitem.
  rewrite Hf. cbn [obind]. rewrite Hm. cbn [cbind].
  destruct (DF.len results =? 0)%nat; [discriminate|].
  rewrite col_filter_rows, Hs. cbn [option_map cbind].
  destruct (if (0 <? _)%nat then _ else _) as [avg|e]; cbn [cbind]; [|discriminate].
  destruct (if (0 <? _)%nat then _ else _) as [mx|e]; cbn [cbind]; [|discriminate].
  destruct (if (0 <? _)%nat then _ else _) as [date|e]; cbn [cbind]; [|discriminate].
  intro H. inversion H. cbn. repeat split; reflexivity.
Qed.

Lemma assign_scores_col (th : thresholds_t) (df : frame)
    (iso energy combined : list float64) :
  DF.col "anomaly_flag" (assign_scores th df iso energy combined)
    = Some (map (fun x => VBool (F.gtb x (th_info th))) combined)
  /\ DF.col "severity" (assign_scores th df iso energy combined)
     = Some (map (fun x => VStr (severity_name (classify th x))) combined)
  /\ DF.col "anomaly_score" (assign_scores th df iso energy combined)
     = Some (DF.of_floats combined)
  /\ (forall name, ~ In name score_columns ->
        DF.col name (assign_scores th df iso energy combined) = DF.col name df).
Proof.
  unfold assign_scores. repeat split; try (col_simpl; reflexivity).
  intros name Hn. unfold score_columns in Hn. cbn [In] in Hn.
  repeat (rewrite col_setitem_neq; [|intro E; apply Hn; rewrite E; tauto]).
  reflexivity.
Qed.

(** X11.  When the one-call pipeline returns for a well-formed frame, the
    scored frame has the rows and the columns of the input (apart from the
    seven assigned ones) and the summary agrees with it: the total is the
    number of readings, the anomalies are at most that many, and the
    Critical, Warning and Info counts add up to the number of anomalies. *)
Theorem process_energy_data_consistent (read_csv : string -> outcome frame)
    (df results : frame) (c : float64) (summ : anomaly_summary)
    (Hwf : well_formed df)
    (Hret : process_energy_data read_csv (FromFrame df) c = Returns (results, summ)) :
  well_formed results
  /\ DF.len results = DF.len df
  /\ (forall name, ~ In name score_columns -> DF.col name results = DF.col name df)
  /\ total_data_points summ = DF.len df
  /\ (total_anomalies summ <= total_data_points summ)%nat
  /\ (critical_anomalies summ + warning_anomalies summ + info_anomalies summ
      = total_anomalies summ)%nat.
Proof.
  revert Hret. unfold process_energy_data. cbn [cbind].
  assert (Hfit := fit_outcome (mkDstore (init c 42) df)).
  destruct (fit (mkDstore (init c 42) df)) as [[[]|e] s1]; [|discriminate].
  destruct Hfit as (_ & Hdata & _). cbn [data] in Hdata.
  destruct (detect_anomalies s1) as [[res|e] s2] eqn:Ed; [|discriminate].
  destruct (get_anomaly_summary res) as [sm| |] eqn:Es; try discriminate.
  intro H. inversion H. subst res sm. clear H.
  destruct (detect_ok_inv _ _ _ Ed) as (iso & energy & combined & Hen & Hc & ->).
  rewrite Hdata in *.
  assert (Hne : df <> []) by (intro E; rewrite E in Hen; discriminate Hen).
  assert (Hel := energy_length df energy Hwf Hen).
  destruct (combine_scores_length _ _ _ _ Hc) as (Hlc & Hlz & _).
  unfold Series.zscore in Hlz. rewrite !length_map in Hlz.
  assert (Hli : List.length iso = DF.len df) by congruence.
  assert (Hlc' : List.length combined = DF.len df) by congruence.
  destruct (assign_scores_shape (thresholds (self s1)) df iso energy combined
              Hwf Hne Hel Hli Hlc') as (Hwr & Hlr).
  destruct (assign_scores_col (thresholds (self s1)) df iso energy combined)
    as (Hf & Hs & _ & Hkeep).
  destruct (summary_returns_inv _ _ _ _ summ Hf (as_mask_flags _ combined) Hs Es)
    as (Ht & Hn & Hcr & Hwa & Hin).
  assert (Hlm : List.length (map (fun x => F.gtb x (th_info (thresholds (self s1))))
                               combined)
                = DF.len (assign_scores (thresholds (self s1)) df iso energy combined))
    by (rewrite length_map; congruence).
  rewrite (len_filter_rows _ _ Hwr (setitem_nonempty _ _ _) Hlm) in Hn.
  split; [exact Hwr|]. split; [exact Hlr|]. split; [exact Hkeep|].
  split; [congruence|]. split.
  - rewrite Hn, Ht, <- Hlm. apply count_true_le.
  - rewrite Hcr, Hwa, Hin, Hn.
    rewrite (count_alert_severities _ _ (flagged_alert_severity _ combined)).
    apply select_length. now rewrite !length_map.
Qed.

(** The frame scoring returns, as an equation. *)
Lemma detect_result_eq (d : detector) (df : frame) (iso energy : list float64) :
  fitted d = true ->
  library_scores d df iso ->
  energy_of df = Ok energy -> energy <> [] ->
  List.length iso = List.length energy ->
  exists combined,
    _combine_scores iso (map F.abs (Series.zscore energy)) (_spc_analysis energy)
      = Ok combined
    /\ detect_anomalies (mkDstore d df)
       = (Ok (assign_scores (thresholds d) df iso energy combined), mkDstore d df).
Proof.
  intros Hfit Hlib Hen Hne Hlen.
  destruct (detect_columns d df iso energy Hfit Hlib Hen Hne Hlen)
    as (result & combined & Hr & Hc & _).
  exists combined. split; [exact Hc|].
  destruct (detect_ok_inv _ _ _ Hr) as (iso' & energy' & combined' & Hen' & Hc' & Hres).
  cbn [data self] in *. rewrite Hen in Hen'. inversion Hen'. subst energy'.
  destruct (detect_fitted d df iso energy Hfit Hlib Hen Hne Hlen)
    as (result' & Hr' & Hi & _).
  rewrite Hr in Hr'. inversion Hr'. subst result'.
  assert (Eiso : iso' = iso).
  { rewrite Hres in Hi. unfold assign_scores in Hi. revert Hi. col_simpl.
    intro Hi. inversion Hi as [Hm]. unfold DF.of_floats in Hm.
    revert Hm. clear. revert iso.
    induction iso' as [|a l IH]; intros [|b m]; simpl; intro H; try discriminate;
      [reflexivity|]. inversion H. f_equal. now apply IH. }
  subst iso'. rewrite Hc in Hc'. inversion Hc'. subst combined'.
  rewrite Hr, Hres. reflexivity.
Qed.

Lemma select_In {A} (mask : list bool) (xs : list A) (i : nat) (x : A) :
  nth_error mask i = Some true -> nth_error xs i = Some x -> In x (DF.select mask xs).
Proof.
  revert xs i. induction mask as [|b mask IH]; intros [|y ys] [|i]; simpl;
    try discriminate.
  - intros [= ->] [= ->]. now left.
  - intros Hm Hx. destruct b; [right|]; eapply IH; eassumption.
Qed.

Lemma as_floats_select (mask : list bool) (xs : list float64) :
  DF.as_floats (DF.select mask (DF.of_floats xs)) = Ok (DF.select mask xs).
Proof.
  unfold DF.as_floats, DF.of_floats. revert xs.
  induction mask as [|b mask IH]; intros [|x xs]; try reflexivity.
  cbn [map DF.select]. destruct b; [|apply IH].
  cbn [omap DF.to_float obind]. now rewrite IH.
Qed.

Lemma idxmax_from_some (i : nat) (b : nat * float64) (xs : list float64) :
  exists j, idxmax_from i (Some b) xs = Some j.
Proof.
  revert i b. induction xs as [|x xs IH]; intros i [j v]; cbn [idxmax_from].
  - now exists j.
  - destruct (F.is_nan x); [apply IH|]. destruct (F.gtb x v); apply IH.
Qed.

(** [idxmax] answers as soon as one cell is not NaN. *)
Lemma idxmax_ok (xs : list float64) (x : float64) :
  In x xs -> F.is_nan x = false -> exists j, idxmax xs = Ok j.
Proof.
  intros Hin Hx. unfold idxmax.
  assert (H : forall i, exists j, idxmax_from i None xs = Some j).
  { clear - Hin Hx. induction xs as [|y ys IH]; [contradiction|].
    intro i. cbn [idxmax_from]. destruct (F.is_nan y) eqn:Ey.
    - destruct Hin as [->|Hin]; [congruence|]. now apply IH.
    - apply idxmax_from_some. }
  destruct (H O) as (j & ->). now exists j.
Qed.

(** X12.  The one-call pipeline needs a [date] column although feature
    extraction does not: on a finite, non-degenerate, well-formed frame
    without a [date] column, fitting and scoring succeed (with estimators
    that return finite scores), the reading with the lowest isolation score
    is flagged, and the summary then raises [KeyError('date')] when it
    looks up the date of the most severe anomaly. *)
Theorem process_energy_data_needs_date (read_csv : string -> outcome frame)
    (df : frame) (c : float64) (e isoq : list Q) (s1 : dstore)
    (Hwf : well_formed df)
    (Hdate : DF.col "date" df = None)
    (Hen : energy_of df = Ok (map Fin e)) (Hne : e <> [])
    (Hnd : non_degenerate (map Fin e) = true)
    (Hfit : fit (mkDstore (init c 42) df) = (Ok tt, s1))
    (Hlib : library_scores (self s1) df (map Fin isoq))
    (Hlen : List.length isoq = List.length e) :
  (exists result, fst (detect_anomalies s1) = Ok result)
  /\ process_energy_data read_csv (FromFrame df) c = Raises (KeyError "date").
Proof.
  assert (Hout := fit_outcome (mkDstore (init c 42) df)). rewrite Hfit in Hout.
  destruct Hout as (Hfitted & Hdata & _). cbn [data] in Hdata.
  assert (Hth := fit_keeps_thresholds (mkDstore (init c 42) df)).
  rewrite Hfit in Hth. cbn [snd self] in Hth.
  destruct s1 as [d1 df1]. cbn [self data] in *. subst df1.
  assert (Hne' : map Fin e <> []) by (destruct e; [congruence|discriminate]).
  assert (Hlen' : List.length (map Fin isoq) = List.length (map Fin e))
    by now rewrite !length_map.
  destruct (detect_result_eq d1 df (map Fin isoq) (map Fin e) Hfitted Hlib Hen Hne' Hlen')
    as (combined & Hc & Hdet).
  split; [rewrite Hdet; eexists; reflexivity|].
  unfold process_energy_data. cbn [cbind]. cbv zeta. rewrite Hfit, Hdet.
  (* one combined score is at least 0.5 *)
  destruct (zscores_finite e Hne Hnd) as (zs & Ez).
  destruct (spc_scores_finite e Hne Hnd) as (ss & Es).
  rewrite Ez, Es in Hc.
  destruct (combine_scores_length _ _ _ _ Hc) as (Hlc & Hlz & Hls).
  repeat rewrite length_map in Hlz. repeat rewrite length_map in Hls.
  repeat rewrite length_map in Hlc.
  assert (Hiso : isoq <> []) by (destruct isoq, e; simpl in *; congruence).
  destruct (combine_scores_finite isoq zs ss Hiso Hlz Hls)
    as (combined' & lo & hi & Hc' & _ & Hlo & _ & Hb & Hall).
  rewrite Hc in Hc'. inversion Hc'. subst combined'. clear Hc'.
  destruct (In_nth_error _ _ Hlo) as (i & Hi).
  assert (Hi_lt : (i < List.length isoq)%nat) by (apply nth_error_Some; congruence).
  destruct (nth_error zs i) as [b|] eqn:Hzb;
    [|apply nth_error_None in Hzb; lia].
  destruct (nth_error ss i) as [c'|] eqn:Hsc;
    [|apply nth_error_None in Hsc; lia].
  destruct (Hall i lo b c' Hi Hzb Hsc) as (r & Hr & Er & _ & _ & _ & _).
  assert (Hr5 : 0.5 <= r).
  { assert (E1 : iso_normalized_spec lo hi lo == 1).
    { unfold iso_normalized_spec.
      assert (He : epsilon == 1 # 100000000) by reflexivity.
      assert (Hd : ~ hi - lo + epsilon == 0) by (specialize (Hb lo Hlo); lra).
      field. exact Hd. }
    assert (B1 := clip01_spec_bounds (b / 4)).
    assert (B2 := clip01_spec_bounds (c' / 3)).
    rewrite Er. unfold combined_spec. rewrite E1. lra. }
  (* the summary of the scored frame *)
  set (results := assign_scores (thresholds d1) df (map Fin isoq) (map Fin e) combined).
  assert (Hdf : df <> []) by (intro E; rewrite E in Hen; discriminate Hen).
  assert (Hel := energy_length df _ Hwf Hen).
  assert (Hli : List.length (map Fin isoq) = DF.len df) by congruence.
  assert (Hlc' : List.length combined = DF.len df)
    by (rewrite Hlc, <- Hel, length_map; exact Hlen).
  destruct (assign_scores_shape (thresholds d1) df _ _ combined Hwf Hdf Hel Hli Hlc')
    as (Hwr & Hlr). fold results in Hwr, Hlr.
  destruct (assign_scores_col (thresholds d1) df (map Fin isoq) (map Fin e) combined)
    as (Hf & Hs & Ha & Hkeep). fold results in Hf, Hs, Ha, Hkeep.
  set (mask := map (fun x => F.gtb x (th_info (thresholds d1))) combined).
  assert (Hmi : nth_error mask i = Some true).
  { unfold mask. rewrite nth_error_map, Hr. cbn [option_map]. f_equal.
    rewrite Hth. cbn. apply Qltb_lt. lra. }
  assert (Hlm : List.length mask = DF.len results)
    by (unfold mask; rewrite length_map; congruence).
  assert (Hn := len_filter_rows mask results Hwr (setitem_nonempty _ _ _) Hlm).
  assert (Hpos : (0 < count_occ Bool.bool_dec mask true)%nat).
  { apply count_occ_In. eapply nth_error_In. exact Hmi. }
  assert (Hin : In (Fin r) (DF.select mask combined)) by (eapply select_In; eassumption).
  destruct (idxmax_ok _ _ Hin eq_refl) as (j & Hj).
  assert (Hd : DF.col "date" results = None).
  { rewrite Hkeep; [exact Hdate|].
    cbn. intros [H|[H|[H|[H|[H|[H|[H|[]]]]]]]]; discriminate H. }
  assert (Hsum : get_anomaly_summary results = Raises (KeyError "date")).
  { unfold get_anomaly_summary, DF.getitem. rewrite Hf. cbn [obind].
    rewrite as_mask_flags. fold mask. cbn [cbind].
    destruct (Nat.eqb_spec (DF.len results) 0) as [E0|_].
    { exfalso. rewrite Hlr, <- Hel, length_map in E0. destruct e; [congruence|discriminate]. }
    rewrite col_filter_rows, Hs. cbn [option_map cbind]. rewrite Hn.
    destruct (Nat.ltb_spec 0 (count_occ Bool.bool_dec mask true)) as [_|]; [|lia].
    unfold float_col, date_of_most_severe, float_col, DF.getitem.
    rewrite !col_filter_rows, Ha, Hd. cbn [option_map obind].
    rewrite as_floats_select. cbn [obind cbind]. rewrite Hj. reflexivity. }
  rewrite Hsum. reflexivity.
Qed.

End Pipeline.

Lemma process_energy_data_consistent_witness :
  exists results summ,
    @process_energy_data toy_sklearn no_csv (FromFrame sample_frame) (Fin 0.1)
      = Returns (results, summ)
    /\ total_data_points summ = 4%nat.
Proof.
  destruct (@process_energy_data toy_sklearn no_csv (FromFrame sample_frame) (Fin 0.1))
    as [[results summ]| |] eqn:E;
    [|vm_compute in E; discriminate E|vm_compute in E; discriminate E].
  exists results, summ. split; [reflexivity|].
  destruct (@process_energy_data_consistent toy_sklearn no_csv sample_frame results
              (Fin 0.1) summ) as (_ & _ & _ & Ht & _).
  - repeat constructor.
  - exact E.
  - exact Ht.
Defined.

Lemma process_energy_data_needs_date_witness :
  @process_energy_data toy_sklearn no_csv (FromFrame no_date_frame) (Fin 0.1)
  = Raises (KeyError "date").
Proof.
  apply (@process_energy_data_needs_date toy_sklearn no_csv no_date_frame (Fin 0.1)
           [500; 510; 150] [-340 # 3; -370 # 3; -710 # 3]
           (snd (@fit toy_sklearn (mkDstore (init (Fin 0.1) 42) no_date_frame)))).
  - repeat constructor.
  - reflexivity.
  - reflexivity.
  - discriminate.
  - vm_compute. reflexivity.
  - reflexivity.
  - unfold library_scores. do 5 eexists. repeat split; vm_compute; reflexivity.
  - reflexivity.
Defined.

(* ================================================================== *)
(** * The date filter *)
(* ================================================================== *)

Lemma select_map_filter {A B} (p : A -> bool) (f : A -> B) (xs : list A) :
  DF.select (map p xs) (map f xs) = map f (filter p xs).
Proof.
  induction xs as [|x xs IH]; [reflexivity|]. cbn [map DF.select filter].
  destruct (p x); cbn [map]; now rewrite IH.
Qed.

Lemma count_true_filter {A} (p : A -> bool) (xs : list A) :
  count_occ Bool.bool_dec (map p xs) true = List.length (filter p xs).
Proof.
  induction xs as [|x xs IH]; [reflexivity|]. cbn [map filter].
  destruct (p x) eqn:E.
  - rewrite count_occ_cons_eq by reflexivity. cbn [List.length]. now rewrite IH.
  - rewrite count_occ_cons_neq by discriminate. exact IH.
Qed.

Lemma columns_filter_rows (mask : list bool) (df : frame) :
  DF.columns (DF.filter_rows mask df) = DF.columns df.
Proof.
  unfold DF.columns, DF.filter_rows. rewrite map_map. reflexivity.
Qed.

Section DateFilter.

Variable world : env.

(** The frame the date filter returns, with the log line it writes. *)
Lemma filter_rows_of_day (d : string) (s : estore) (c : list value)
    (dates : list timestamp) (t : timestamp)
    (Hwf : well_formed (anomaly_data s))
    (Hc : DF.col "date" (anomaly_data s) = Some c)
    (Hd : DF.to_datetime c = Ok dates)
    (Ht : DF.to_datetime1 (VStr d) = Ok t) :
  exists daily s',
    filter_anomalies_by_date world (Some d) s = (Ok daily, s')
    /\ DF.columns daily = DF.columns (anomaly_data s)
    /\ DF.col "date" daily = Some (map VTime (filter (on_day t) dates))
    /\ (forall name cells, name <> "date" ->
          DF.col name (anomaly_data s) = Some cells ->
          DF.col name daily = Some (DF.select (map (on_day t) dates) cells))
    /\ DF.len daily = List.length (filter (on_day t) dates)
    /\ log s' = List.app (log s)
                  ["INFO - Filtered " ++ Str.of_nat (DF.len daily)
                     ++ " anomalies for date " ++ d]
    /\ files s' = files s.
Proof.
  set (df := anomaly_data s) in *.
  set (df' := DF.setitem "date" (map VTime dates) df).
  set (mask := map (on_day t) dates).
  assert (Hdf : df <> []) by (intro E; rewrite E in Hc; discriminate Hc).
  assert (Hlen : List.length (map VTime dates) = DF.len df).
  { rewrite length_map, (omap_length _ _ _ Hd). eapply col_length; eassumption. }
  exists (DF.filter_rows mask df').
  eexists. split.
  { unfold filter_anomalies_by_date, bind, gets, lift, modify, logger, ret.
    cbn [fst snd anomaly_data]. fold df. rewrite Hc, Hd.
    cbn [fst snd anomaly_data]. rewrite Ht. cbn [fst snd anomaly_data files log].
    fold df df'. reflexivity. }
  cbn [log files].
  split; [|split; [|split; [|split; [|split; reflexivity]]]].
  - rewrite columns_filter_rows. unfold df'.
    apply columns_setitem_in. eapply col_in_columns. exact Hc.
  - rewrite col_filter_rows. unfold df'. rewrite col_setitem_eq. cbn [option_map].
    unfold mask. now rewrite select_map_filter.
  - intros name cells Hn Hcol. rewrite col_filter_rows. unfold df'.
    rewrite col_setitem_neq by exact Hn. rewrite Hcol. reflexivity.
  - rewrite len_filter_rows.
    + unfold mask. apply count_true_filter.
    + unfold df'. now apply wf_setitem.
    + apply setitem_nonempty.
    + unfold df', mask. rewrite len_setitem by assumption.
      now rewrite length_map in *.
Qed.

(** X13.  The date filter keeps exactly the readings of the target day:
    when the [date] column and the target date can be read, the call
    returns a frame with the columns of the input, whose [date] column
    holds the timestamps that fall on the target day (whatever their time
    of day), in order, and whose other columns hold the cells of the same
    rows; it logs the number of rows kept and writes no file. *)
Theorem filter_by_date_rows (d : string) (s : estore) (c : list value)
    (dates : list timestamp) (t : timestamp)
    (Hwf : well_formed (anomaly_data s))
    (Hc : DF.col "date" (anomaly_data s) = Some c)
    (Hd : DF.to_datetime c = Ok dates)
    (Ht : DF.to_datetime1 (VStr d) = Ok t) :
  exists daily s',
    filter_anomalies_by_date world (Some d) s = (Ok daily, s')
    /\ DF.columns daily = DF.columns (anomaly_data s)
    /\ DF.col "date" daily = Some (map VTime (filter (on_day t) dates))
    /\ (forall name cells, name <> "date" ->
          DF.col name (anomaly_data s) = Some cells ->
          DF.col name daily = Some (DF.select (map (on_day t) dates) cells))
    /\ DF.len daily = List.length (filter (on_day t) dates)
    /\ log s' = List.app (log s)
                  ["INFO - Filtered " ++ Str.of_nat (DF.len daily)
                     ++ " anomalies for date " ++ d]
    /\ files s' = files s.
Proof. exact (filter_rows_of_day d s c dates t Hwf Hc Hd Ht). Qed.

(** X14.  How the date filter fails.  A [date] column with a cell that
    cannot be read makes the call raise before anything is changed.  A
    target date that cannot be read makes it raise after the caller's
    [date] column was already replaced by timestamps: the failed call
    leaves the caller's frame modified.  Neither failure writes a file or
    a log line. *)
Theorem filter_by_date_failures (target : option string) (s : estore) (c : list value)
    (Hc : DF.col "date" (anomaly_data s) = Some c) :
  let d := match target with Some x => x | None => today world end in
  (forall e, DF.to_datetime c = Raise e ->
     filter_anomalies_by_date world target s = (Raise e, s))
  /\ (forall dates e,
        DF.to_datetime c = Ok dates ->
        DF.to_datetime1 (VStr d) = Raise e ->
        filter_anomalies_by_date world target s
        = (Raise e,
           mkEstore (DF.setitem "date" (map VTime dates) (anomaly_data s))
                    (files s) (log s))).
Proof.
  split.
  - intros e He.
    unfold filter_anomalies_by_date, bind, gets, lift, modify, logger, ret.
    cbn [fst snd anomaly_data]. rewrite Hc, He. reflexivity.
  - intros dates e Hd He.
    unfold filter_anomalies_by_date, bind, gets, lift, modify, logger, ret.
    cbn [fst snd anomaly_data]. rewrite Hc, Hd. cbn [fst snd anomaly_data].
    destruct target; cbn [fst snd] in *; rewrite He; reflexivity.
Qed.

End DateFilter.

Lemma filter_by_date_rows_witness :
  exists daily s',
    filter_anomalies_by_date sample_env (Some "2024-01-16") (mkEstore sample_frame [] [])
      = (Ok daily, s')
    /\ DF.col "energyOutput" daily = Some [VFloat (Fin 500); VFloat (Fin 150)]
    /\ log s' = ["INFO - Filtered 2 anomalies for date 2024-01-16"].
Proof.
  destruct (filter_by_date_rows sample_env "2024-01-16" (mkEstore sample_frame [] [])
              [VStr "2024-01-15 10:00:00"; VStr "2024-01-15 11:00:00";
               VStr "2024-01-16 10:00:00"; VStr "2024-01-16 12:00:00"]
              [mkTime 19737 36000; mkTime 19737 39600;
               mkTime 19738 36000; mkTime 19738 43200]
              (mkTime 19738 0))
    as (daily & s' & Hrun & _ & _ & Hcols & Hlen & Hlog & _).
  - repeat constructor.
  - reflexivity.
  - vm_compute. reflexivity.
  - vm_compute. reflexivity.
  - exists daily, s'. split; [exact Hrun|]. split.
    + rewrite (Hcols "energyOutput"
                 [VFloat (Fin 500); VFloat (Fin 500); VFloat (Fin 500); VFloat (Fin 150)]);
        [reflexivity|discriminate|reflexivity].
    + rewrite Hlog, Hlen. reflexivity.
Defined.

Lemma filter_by_date_failures_witness :
  filter_anomalies_by_date sample_env (Some "2024-01-15") (mkEstore bad_date_frame [] [])
    = (Raise (ValueError "Unknown datetime string format, unable to parse: yesterday"),
       mkEstore bad_date_frame [] [])
  /\ anomaly_data (snd (filter_anomalies_by_date sample_env (Some "yesterday")
                          (mkEstore sample_frame [] [])))
     <> sample_frame.
Proof.
  split.
  - apply (filter_by_date_failures sample_env (Some "2024-01-15")
             (mkEstore bad_date_frame [] [])
             [VStr "2024-01-15 10:00:00"; VStr "yesterday"]); [reflexivity|].
    vm_compute. reflexivity.
  - destruct (filter_by_date_failures sample_env (Some "yesterday")
                (mkEstore sample_frame [] [])
                [VStr "2024-01-15 10:00:00"; VStr "2024-01-15 11:00:00";
                 VStr "2024-01-16 10:00:00"; VStr "2024-01-16 12:00:00"] eq_refl)
      as (_ & H).
    rewrite (H [mkTime 19737 36000; mkTime 19737 39600;
                mkTime 19738 36000; mkTime 19738 43200]
               (ValueError "Unknown datetime string format, unable to parse: yesterday"));
      [|vm_compute; reflexivity|vm_compute; reflexivity].
    cbn [snd anomaly_data]. discriminate.
Defined.

(* ================================================================== *)
(** * The trend of a day, and a day without readings *)
(* ================================================================== *)

Lemma monotonic_decreasing_spec (kwh : list Q) :
  Series.is_monotonic_decreasing (map Fin kwh) = true <-> non_increasing kwh.
Proof.
  induction kwh as [|x [|y l] IH].
  - split; [|reflexivity]. intros _ [|i] a b H; discriminate H.
  - split; [|reflexivity]. intros _ [|i] a b H1 H2; [discriminate H2|].
    destruct i; discriminate H2.
  - change (Series.is_monotonic_decreasing (map Fin (x :: y :: l)))
      with (F.geb (Fin x) (Fin y) && Series.is_monotonic_decreasing (map Fin (y :: l))).
    rewrite andb_true_iff, IH. cbn [F.geb F.leb]. rewrite Qle_bool_iff.
    split.
    + intros [Hxy Hl] [|i] a b Ha Hb.
      * cbn in Ha, Hb. inversion Ha. inversion Hb. subst. exact Hxy.
      * exact (Hl i a b Ha Hb).
    + intro H. split.
      * exact (H O x y eq_refl eq_refl).
      * intros i a b Ha Hb. exact (H (S i) a b Ha Hb).
Qed.

Lemma monotonic_repeat (x : Q) (n : nat) :
  Series.is_monotonic_decreasing (repeat (Fin x) n) = true.
Proof.
  induction n as [|[|n] IH]; try reflexivity.
  change (repeat (Fin x) (S (S n))) with (Fin x :: Fin x :: repeat (Fin x) n).
  change (F.geb (Fin x) (Fin x)
          && Series.is_monotonic_decreasing (repeat (Fin x) (S n)) = true).
  rewrite IH, andb_true_r. cbn [F.geb F.leb]. apply Qle_bool_iff. apply Qle_refl.
Qed.

Lemma as_floats_repeat_int (z : Z) (n : nat) :
  DF.as_floats (repeat (VInt z) n) = Ok (repeat (Fin (inject_Z z)) n).
Proof.
  unfold DF.as_floats. induction n as [|n IH]; [reflexivity|].
  cbn [repeat omap DF.to_float obind]. now rewrite IH.
Qed.

Section TrendFacts.

Variable world : env.

(** X15.  The trend of a day with at least two finite readings is
    'Declining' exactly when no reading exceeds the one before it, and
    'Variable' otherwise: a day of equal readings is 'Declining', and a
    rising day is labelled as a day that goes up and down is. *)
Theorem trend_direction_meaning (df : frame) (cells : list value) (kwh : list Q)
    (Hrows : (2 <= DF.len df)%nat)
    (Hcol : DF.col "energyOutput" df = Some cells)
    (Hfl : DF.as_floats cells = Ok (map Fin kwh)) :
  exists out label,
    format_alert_data world df = Ok out
    /\ DF.col "trend_direction" out = Some (DF.broadcast (DF.len df) (VStr label))
    /\ (label = "Declining" \/ label = "Variable")
    /\ (label = "Declining" <-> non_increasing kwh).
Proof.
  assert (Hne : DF.empty df = false).
  { unfold DF.empty. apply Nat.eqb_neq. lia. }
  destruct (format_alert_data_fields world df cells (map Fin kwh) Hne Hcol Hfl)
    as (out & Hout & _ & _ & _ & _ & _ & _ & _ & Htrend).
  exists out, (trend_label (DF.len df) (map Fin kwh)).
  split; [exact Hout|]. split; [exact Htrend|].
  unfold trend_label.
  destruct (Nat.ltb_spec 1 (DF.len df)) as [_|]; [|lia].
  rewrite <- monotonic_decreasing_spec.
  destruct (Series.is_monotonic_decreasing (map Fin kwh)).
  - split; [now left|]. split; reflexivity.
  - split; [now right|]. split; discriminate.
Qed.

(** The format of a day whose frame has no [energyOutput] column, and
    what the summary makes of it. *)
Lemma format_no_energy (df : frame) (d : string)
    (Hne : DF.empty df = false)
    (Hcol : DF.col "energyOutput" df = None) :
  let n := DF.len df in
  exists out,
    format_alert_data world df = Ok out
    /\ DF.columns out = headers
    /\ DF.col "energy_kwh" out = Some (DF.broadcast n (VInt 0))
    /\ DF.col "deviation_percentage" out = Some (DF.broadcast n (VStr ""))
    /\ DF.col "expected_min" out = Some (DF.broadcast n (VStr ""))
    /\ DF.col "expected_max" out = Some (DF.broadcast n (VStr ""))
    /\ DF.col "trend_direction" out
       = Some (DF.broadcast n (VStr (if (1 <? n)%nat then "Declining" else "Single Point")))
    /\ exists msg, generate_summary_stats world out d = Raise (TypeError msg).
Proof.
  intro n.
  assert (Hn : n <> O) by (unfold DF.empty in Hne; now apply Nat.eqb_neq).
  unfold format_alert_data. rewrite Hne.
  unfold additional_fields, DF.has_col. rewrite Hcol. cbn [obind].
  assert (Hget : DF.get "energyOutput" (VInt 0) n df = repeat (VInt 0) n)
    by (unfold DF.get; now rewrite Hcol).
  unfold export_columns. fold n. rewrite Hget.
  frame_simpl.
  unfold trend_direction, DF.getitem. frame_simpl.
  rewrite !length_map, !length_seq.
  rewrite as_floats_repeat_int. cbn [obind].
  rewrite monotonic_repeat.
  set (b := (1 <? n)%nat).
  assert (E : (if b then Ok (VStr "Declining") else Ok (VStr "Single Point"))
              = @Ok value (VStr (if b then "Declining" else "Single Point")))
    by (destruct b; reflexivity).
  rewrite E. cbn [obind].
  eexists. split; [reflexivity|].
  frame_simpl. repeat (split; [reflexivity|]).
  unfold generate_summary_stats.
  match goal with |- context [DF.empty ?f] => replace (DF.empty f) with false end.
  2:{ unfold DF.empty. frame_simpl. rewrite length_map, length_seq.
      symmetry. now apply Nat.eqb_neq. }
  unfold float_col, DF.getitem. frame_simpl.
  rewrite as_floats_repeat_int. cbn [obind].
  destruct n as [|n]; [congruence|].
  cbn [DF.broadcast repeat DF.as_floats omap DF.to_float obind]. eauto.
Qed.

(** X16.  A day of alerts whose frame has no [energyOutput] column is
    formatted without an error: the energy of every alert is the integer 0,
    the deviation and the expected range are left blank, and the trend of
    two or more alerts is 'Declining'.  The summary of such a day cannot be
    computed: it raises a [TypeError] at the average of the blank
    deviations. *)
Theorem format_without_energy (df : frame) (d : string)
    (Hne : DF.empty df = false)
    (Hcol : DF.col "energyOutput" df = None) :
  let n := DF.len df in
  exists out,
    format_alert_data world df = Ok out
    /\ DF.columns out = headers
    /\ DF.col "energy_kwh" out = Some (DF.broadcast n (VInt 0))
    /\ DF.col "deviation_percentage" out = Some (DF.broadcast n (VStr ""))
    /\ DF.col "expected_min" out = Some (DF.broadcast n (VStr ""))
    /\ DF.col "expected_max" out = Some (DF.broadcast n (VStr ""))
    /\ DF.col "trend_direction" out
       = Some (DF.broadcast n (VStr (if (1 <? n)%nat then "Declining" else "Single Point")))
    /\ exists msg, generate_summary_stats world out d = Raise (TypeError msg).
Proof. exact (format_no_energy df d Hne Hcol). Qed.

End TrendFacts.

Lemma trend_direction_meaning_witness :
  exists out,
    format_alert_data sample_env flat_day = Ok out
    /\ DF.col "trend_direction" out = Some [VStr "Declining"; VStr "Declining"].
Proof.
  destruct (trend_direction_meaning sample_env flat_day
              [VFloat (Fin 500); VFloat (Fin 500)] [500; 500])
    as (out & label & Hout & Ht & _ & Hiff).
  - cbn. lia.
  - reflexivity.
  - reflexivity.
  - exists out. split; [exact Hout|]. rewrite Ht.
    assert (Hl : label = "Declining").
    { apply Hiff. intros [|[|i]] a b Ha Hb; cbn in Ha, Hb; try discriminate.
      inversion Ha. inversion Hb. subst. apply Qle_refl. }
    rewrite Hl. reflexivity.
Defined.

Lemma format_without_energy_witness :
  exists out,
    format_alert_data sample_env no_energy_day = Ok out
    /\ DF.col "energy_kwh" out = Some [VInt 0; VInt 0]
    /\ DF.col "trend_direction" out = Some [VStr "Declining"; VStr "Declining"]
    /\ exists msg, generate_summary_stats sample_env out "2024-01-15" = Raise (TypeError msg).
Proof.
  destruct (format_without_energy sample_env no_energy_day "2024-01-15" eq_refl eq_refl)
    as (out & Hout & _ & He & _ & _ & _ & Ht & Hs).
  exists out. repeat split; assumption.
Defined.

(* ================================================================== *)
(** * Recommendations and the daily summary *)
(* ================================================================== *)

Lemma lookup_add_count (k s : string) (acc : list (string * nat)) :
  lookup_count k (add_count s acc)
  = if String.eqb s k then S (lookup_count k acc) else lookup_count k acc.
Proof.
  unfold lookup_count.
  induction acc as [|[k0 n] acc IH]; cbn [add_count find fst snd].
  - destruct (String.eqb_spec s k); reflexivity.
  - destruct (String.eqb_spec k0 s) as [->|Hks]; cbn [find fst snd].
    + destruct (String.eqb_spec s k); reflexivity.
    + destruct (String.eqb_spec k0 k) as [->|Hk].
      * destruct (String.eqb_spec s k); [congruence|reflexivity].
      * exact IH.
Qed.

Lemma lookup_counts_fold (k : string) (c : list value) (acc : list (string * nat)) :
  lookup_count k
    (fold_left (fun acc v => match v with VStr s => add_count s acc | _ => acc end) c acc)
  = (lookup_count k acc + count_str k c)%nat.
Proof.
  revert acc. unfold count_str.
  induction c as [|v c IH]; intro acc; cbn [fold_left filter List.length]; [lia|].
  rewrite IH.
  destruct v as [z|x|s|t|b]; try reflexivity.
  rewrite lookup_add_count.
  destruct (String.eqb s k); cbn [List.length]; lia.
Qed.

Lemma in_keys_add_count (x s : string) (acc : list (string * nat)) :
  In x (map fst (add_count s acc)) -> x = s \/ In x (map fst acc).
Proof.
  induction acc as [|[k0 n] acc IH]; cbn [add_count map fst In].
  - intros [H|[]]. now left.
  - destruct (String.eqb_spec k0 s) as [->|Hks]; cbn [map fst In].
    + intros [H|H]; right; [now left|now right].
    + intros [H|H]; [right; now left|].
      destruct (IH H) as [E|E]; [now left|right; now right].
Qed.

Lemma nodup_add_count (s : string) (acc : list (string * nat)) :
  NoDup (map fst acc) -> NoDup (map fst (add_count s acc)).
Proof.
  induction acc as [|[k0 n] acc IH]; cbn [add_count map fst]; intro H.
  - constructor; [intros []|constructor].
  - inversion H as [|? ? Hnotin Hnd]. subst.
    destruct (String.eqb_spec k0 s) as [->|Hks]; cbn [map fst].
    + constructor; assumption.
    + constructor; [|now apply IH].
      intro Hin. destruct (in_keys_add_count _ _ _ Hin); congruence.
Qed.

Lemma nodup_counts_fold (c : list value) (acc : list (string * nat)) :
  NoDup (map fst acc) ->
  NoDup (map fst
    (fold_left (fun acc v => match v with VStr s => add_count s acc | _ => acc end) c acc)).
Proof.
  revert acc. induction c as [|v c IH]; intros acc H; cbn [fold_left]; [exact H|].
  apply IH. destruct v; try exact H. now apply nodup_add_count.
Qed.

Lemma in_keys_insert (x : string) (e : string * nat) (l : list (string * nat)) :
  In x (map fst (insert_by_count e l)) <-> x = fst e \/ In x (map fst l).
Proof.
  induction l as [|e' l IH]; cbn [insert_by_count map In].
  - intuition congruence.
  - destruct (snd e' <? snd e)%nat; cbn [map In]; [intuition congruence|].
    rewrite IH. intuition congruence.
Qed.

Lemma lookup_insert (k : string) (e : string * nat) (l : list (string * nat)) :
  ~ In (fst e) (map fst l) ->
  lookup_count k (insert_by_count e l)
  = if String.eqb (fst e) k then snd e else lookup_count k l.
Proof.
  unfold lookup_count.
  induction l as [|e' l IH]; cbn [insert_by_count map In find]; intro Hn.
  - destruct (String.eqb (fst e) k); reflexivity.
  - destruct (snd e' <? snd e)%nat; cbn [find].
    + destruct (String.eqb (fst e) k); reflexivity.
    + destruct (String.eqb_spec (fst e') k) as [Ek|Ek].
      * destruct (String.eqb_spec (fst e) k) as [Ek'|]; [|reflexivity].
        exfalso. apply Hn. left. congruence.
      * apply IH. intro H. apply Hn. now right.
Qed.

Lemma in_keys_sorted (x : string) (l : list (string * nat)) :
  In x (map fst (fold_right insert_by_count [] l)) <-> In x (map fst l).
Proof.
  induction l as [|e l IH]; cbn [fold_right map In]; [tauto|].
  rewrite in_keys_insert, IH. intuition congruence.
Qed.

Lemma lookup_sorted (k : string) (l : list (string * nat)) :
  NoDup (map fst l) ->
  lookup_count k (fold_right insert_by_count [] l) = lookup_count k l.
Proof.
  induction l as [|e l IH]; cbn [fold_right map]; intro H; [reflexivity|].
  inversion H as [|? ? Hnotin Hnd]. subst.
  rewrite lookup_insert by (now rewrite in_keys_sorted).
  rewrite (IH Hnd). unfold lookup_count. cbn [find].
  destruct (String.eqb (fst e) k); reflexivity.
Qed.

(** The entry of [value_counts] for a label is the number of cells that
    hold it. *)
Lemma lookup_value_counts (k : string) (c : list value) :
  lookup_count k (value_counts c) = count_str k c.
Proof.
  unfold value_counts.
  rewrite lookup_sorted by (apply nodup_counts_fold; constructor).
  rewrite lookup_counts_fold. reflexivity.
Qed.

Lemma recommendations_cases (alert_data : frame) (sev : list value)
    (dev : list float64) :
  DF.empty alert_data = false ->
  DF.col "severity" alert_data = Some sev ->
  float_col "deviation_percentage" alert_data = Ok dev ->
  exists recs,
    get_recommendations alert_data = Ok recs
    /\ recs <> []
    /\ (List.length recs <= 5)%nat
    /\ (recs = ["Continue normal monitoring procedures"]
        <-> (count_str "Critical" sev = O /\ (count_str "Warning" sev <= 2)%nat
             /\ F.gtb (series_max dev) (Fin 50) = false))
    /\ ((0 < count_str "Critical" sev)%nat ->
        hd_error recs
        = Some ("Immediate attention required: " ++ Str.of_nat (count_str "Critical" sev)
                  ++ " critical anomalies detected")).
Proof.
  intros Hne Hs Hd. unfold get_recommendations. rewrite Hne.
  unfold DF.getitem. rewrite Hs. cbn [obind]. rewrite Hd. cbn [obind].
  eexists. split; [reflexivity|].
  destruct (Nat.ltb_spec 0 (count_str "Critical" sev)) as [Hc|Hc];
    destruct (Nat.ltb_spec 2 (count_str "Warning" sev)) as [Hw|Hw];
    destruct (F.gtb (series_max dev) (Fin 50)) eqn:Eg;
    cbn [List.app List.length hd_error];
    (split; [discriminate|]); (split; [lia|]);
    (split; [split; [try discriminate; intros _; repeat split; lia
                    | intros (H1 & H2 & H3); try discriminate; try lia; try reflexivity]
            | intro; try lia; reflexivity]).
Qed.

(** X17.  The exporter's recommendations are never empty and never more
    than five.  The default line 'Continue normal monitoring procedures' is
    the whole answer exactly when the day has no Critical alert, at most
    two Warning alerts and no deviation above 50: one or two warnings alone
    raise no recommendation.  With a Critical alert the list starts with the
    call for immediate attention and its count. *)
Theorem recommendations_never_empty (alert_data : frame) (recs : list string)
    (Hrecs : get_recommendations alert_data = Ok recs) :
  recs <> []
  /\ (List.length recs <= 5)%nat
  /\ (forall sev dev,
        DF.empty alert_data = false ->
        DF.col "severity" alert_data = Some sev ->
        float_col "deviation_percentage" alert_data = Ok dev ->
        (recs = ["Continue normal monitoring procedures"]
         <-> (count_str "Critical" sev = O /\ (count_str "Warning" sev <= 2)%nat
              /\ F.gtb (series_max dev) (Fin 50) = false))
        /\ ((0 < count_str "Critical" sev)%nat ->
            hd_error recs
            = Some ("Immediate attention required: "
                      ++ Str.of_nat (count_str "Critical" sev)
                      ++ " critical anomalies detected"))).
Proof.
  destruct (DF.empty alert_data) eqn:Ee.
  - unfold get_recommendations in Hrecs. rewrite Ee in Hrecs. inversion Hrecs.
    split; [discriminate|]. split; [cbn; lia|]. intros; discriminate.
  - assert (Hparts : exists sev dev, DF.col "severity" alert_data = Some sev
                       /\ float_col "deviation_percentage" alert_data = Ok dev).
    { revert Hrecs. unfold get_recommendations, DF.getitem. rewrite Ee.
      destruct (DF.col "severity" alert_data) as [sev|]; [|discriminate].
      cbn [obind].
      destruct (float_col "deviation_percentage" alert_data) as [dev|]; [|discriminate].
      eauto. }
    destruct Hparts as (sev & dev & Hs & Hd).
    destruct (recommendations_cases alert_data sev dev Ee Hs Hd)
      as (recs' & Hr & H1 & H2 & H3 & H4).
    rewrite Hrecs in Hr. inversion Hr. subst recs'.
    split; [exact H1|]. split; [exact H2|].
    intros sev' dev' _ Hs' Hd'. rewrite Hs in Hs'. rewrite Hd in Hd'.
    inversion Hs'. inversion Hd'. subst. split; assumption.
Qed.

Lemma recommendations_never_empty_witness :
  get_recommendations two_warnings = Ok ["Continue normal monitoring procedures"]
  /\ ["Continue normal monitoring procedures"] <> [].
Proof.
  split; [reflexivity|].
  apply (recommendations_never_empty two_warnings
           ["Continue normal monitoring procedures"]).
  reflexivity.
Defined.

Section SummaryFacts.

Variable world : env.

(** X18.  The daily summary agrees with the alerts it summarises: the total
    is the number of rows, the Critical, Warning and Info counts are the
    numbers of rows with that severity, the status is 'Critical' exactly
    when there is a Critical row (a day with warnings only has status
    'Normal'), and the recommendations are those of
    [get_recommendations], never empty. *)
Theorem summary_counts_rows (alert_data : frame) (d : string) (summ : summary)
    (sev : list value)
    (Hne : DF.empty alert_data = false)
    (Hs : DF.col "severity" alert_data = Some sev)
    (Hsum : generate_summary_stats world alert_data d = Ok summ) :
  summary_get "export_date" summ = Some (JStr d)
  /\ summary_get "total_alerts" summ = Some (JInt (Z.of_nat (DF.len alert_data)))
  /\ summary_get "critical_alerts" summ
     = Some (JInt (Z.of_nat (count_str "Critical" sev)))
  /\ summary_get "warning_alerts" summ
     = Some (JInt (Z.of_nat (count_str "Warning" sev)))
  /\ summary_get "info_alerts" summ
     = Some (JInt (Z.of_nat (count_str "Info" sev)))
  /\ summary_get "status" summ
     = Some (JStr (if (0 <? count_str "Critical" sev)%nat then "Critical" else "Normal"))
  /\ exists recs,
       summary_get "recommendations" summ = Some (JStrs recs)
       /\ get_recommendations alert_data = Ok recs
       /\ recs <> [].
Proof.
  revert Hsum. unfold generate_summary_stats. rewrite Hne.
  unfold DF.getitem at 1. rewrite Hs. cbn [obind].
  destruct (float_col "energy_kwh" alert_data) as [kwh|]; [|discriminate].
  cbn [obind].
  destruct (float_col "deviation_percentage" alert_data) as [dev|] eqn:Hd;
    [|discriminate].
  cbn [obind].
  destruct (DF.getitem "trend_direction" alert_data) as [trend|]; [|discriminate].
  cbn [obind].
  destruct (get_recommendations alert_data) as [recs|] eqn:Hr; [|discriminate].
  cbn [obind]. intro H. inversion H. subst summ. clear H.
  rewrite !lookup_value_counts.
  cbn [summary_get String.eqb Ascii.eqb Bool.eqb].
  repeat (split; [reflexivity|]).
  exists recs. split; [reflexivity|]. split; [reflexivity|].
  destruct (recommendations_cases alert_data sev dev Hne Hs Hd)
    as (recs' & Hr' & H1 & _).
  rewrite Hr in Hr'. inversion Hr'. subst. exact H1.
Qed.

End SummaryFacts.

Lemma summary_counts_rows_witness :
  exists summ,
    generate_summary_stats sample_env two_warnings "2024-01-15" = Ok summ
    /\ summary_get "warning_alerts" summ = Some (JInt 2)
    /\ summary_get "status" summ = Some (JStr "Normal").
Proof.
  destruct (generate_summary_stats sample_env two_warnings "2024-01-15")
    as [summ|e] eqn:E; [|vm_compute in E; discriminate E].
  exists summ. split; [reflexivity|].
  destruct (summary_counts_rows sample_env two_warnings "2024-01-15" summ
              [VStr "Warning"; VStr "Warning"] eq_refl eq_refl E)
    as (_ & _ & _ & Hw & _ & Hst & _).
  split; assumption.
Defined.

(* ================================================================== *)
(** * The files of a daily export *)
(* ================================================================== *)

Lemma read_put_same (p : string) (c : file) (fs : list (string * file)) :
  read_file p (put_file p c fs) = Some c.
Proof. unfold read_file, put_file. cbn [find fst snd]. now rewrite String.eqb_refl. Qed.

Lemma find_filter_other (p path : string) (fs : list (string * file)) :
  path <> p ->
  find (fun f => String.eqb (fst f) path)
       (filter (fun f => negb (String.eqb (fst f) p)) fs)
  = find (fun f => String.eqb (fst f) path) fs.
Proof.
  intro Hne. induction fs as [|[k v] fs IH]; [reflexivity|].
  cbn [filter find fst]. destruct (String.eqb_spec k p) as [->|Hk]; cbn [negb find fst].
  - destruct (String.eqb_spec p path); [congruence|exact IH].
  - destruct (String.eqb k path); [reflexivity|exact IH].
Qed.

Lemma read_put_other (p path : string) (c : file) (fs : list (string * file)) :
  path <> p -> read_file path (put_file p c fs) = read_file path fs.
Proof.
  intro Hne. unfold read_file, put_file. cbn [find fst].
  destruct (String.eqb_spec p path); [congruence|].
  now rewrite find_filter_other.
Qed.

Lemma files_kept_refl (fs : list (string * file)) : files_kept fs fs.
Proof. intros path f H. eauto. Qed.

Lemma files_kept_trans (a b c : list (string * file)) :
  files_kept a b -> files_kept b c -> files_kept a c.
Proof. intros H1 H2 path f H. destruct (H1 _ _ H) as (f' & H'). eauto. Qed.

Lemma files_kept_put (p : string) (c : file) (fs : list (string * file)) :
  files_kept fs (put_file p c fs).
Proof.
  intros path f H. destruct (String.eqb_spec path p) as [->|Hne].
  - rewrite read_put_same. eauto.
  - rewrite read_put_other by exact Hne. eauto.
Qed.

Section ExportFiles.

Variable world : env.
Variable output_dir : string.

(** The value of the date filter depends on the frame only. *)
Lemma filter_value (d : option string) (s s0 : estore) :
  anomaly_data s = anomaly_data s0 ->
  fst (filter_anomalies_by_date world d s) = fst (filter_anomalies_by_date world d s0).
Proof.
  intro E.
  unfold filter_anomalies_by_date, bind, gets, lift, modify, logger, ret.
  cbn [fst snd anomaly_data]. rewrite E.
  destruct (DF.col "date" (anomaly_data s0)) as [c|]; [|reflexivity].
  destruct (DF.to_datetime c) as [dates|e]; [|reflexivity].
  cbn [fst snd anomaly_data]. rewrite E.
  destruct (DF.to_datetime1 _); reflexivity.
Qed.

(** The three ways a daily export can end, with the files it leaves. *)
Lemma export_files_cases (d : option string) (prefix : string) (s : estore) :
  let date := match d with Some x => x | None => today world end in
  let p := csv_path output_dir prefix date in
  let q := summary_path output_dir prefix date in
  let run := export_daily_alerts world output_dir d prefix s in
  (exists e, fst run = Raise e /\ files (snd run) = files s
             /\ (fst (filter_anomalies_by_date world (Some date) s) = Raise e
                 \/ (exists daily,
                       fst (filter_anomalies_by_date world (Some date) s) = Ok daily
                       /\ format_alert_data world daily = Raise e)
                 \/ exists msg, io_error world p = Some msg))
  \/ (io_error world p = None
      /\ exists e daily formatted,
           fst run = Raise e
           /\ fst (filter_anomalies_by_date world (Some date) s) = Ok daily
           /\ format_alert_data world daily = Ok formatted
           /\ (generate_summary_stats world formatted date = Raise e
               \/ exists stats msg,
                    generate_summary_stats world formatted date = Ok stats
                    /\ io_error world q = Some msg /\ e = OSError msg)
           /\ files (snd run) = put_file p (csv_of formatted) (files s))
  \/ (io_error world p = None /\ io_error world q = None
      /\ exists daily formatted stats,
           fst run = Ok (p, DF.len formatted, stats)
           /\ fst (filter_anomalies_by_date world (Some date) s) = Ok daily
           /\ format_alert_data world daily = Ok formatted
           /\ generate_summary_stats world formatted date = Ok stats
           /\ files (snd run)
              = put_file q (Json stats) (put_file p (csv_of formatted) (files s))).
Proof.
  cbv zeta.
  set (date := match d with Some x => x | None => today world end).
  set (p := csv_path output_dir prefix date).
  set (q := summary_path output_dir prefix date).
  remember (export_daily_alerts world output_dir d prefix s) as run eqn:Hrun.
  unfold export_daily_alerts in Hrun. fold date in Hrun.
  fold (csv_path output_dir prefix date) in Hrun.
  fold (summary_path output_dir prefix date) in Hrun. fold p q in Hrun.
  unfold bind at 1 in Hrun. cbn [logger modify] in Hrun.
  set (s0 := mkEstore (anomaly_data s) (files s)
               (List.app (log s)
                  ["INFO" ++ " - " ++ "Starting export for date: " ++ date])) in Hrun.
  assert (Hfiles := filter_keeps_files world (Some date) s0).
  assert (Hval := filter_value (Some date) s0 s eq_refl).
  unfold bind at 1 in Hrun.
  destruct (filter_anomalies_by_date world (Some date) s0) as [[daily|e] s1];
    cbn [fst snd] in Hfiles, Hval; change (files s0) with (files s) in Hfiles.
  2:{ left. exists e. subst run. split; [reflexivity|]. split; [exact Hfiles|].
      left. now symmetry. }
  unfold bind at 1 in Hrun. unfold lift at 1 in Hrun.
  destruct (format_alert_data world daily) as [formatted|e] eqn:Hfmt.
  2:{ left. exists e. subst run. split; [reflexivity|]. split; [exact Hfiles|].
      right. left. exists daily. split; [now symmetry|exact Hfmt]. }
  assert (Hwrite : forall content line,
            (write_file world p content ;;; logger "INFO" line) s1
            = match io_error world p with
              | Some msg => (Raise (OSError msg), s1)
              | None => (Ok tt, mkEstore (anomaly_data s1) (put_file p content (files s1))
                                  (List.app (log s1) ["INFO" ++ " - " ++ line]))
              end).
  { intros content line. unfold bind, write_file, raise, modify, logger.
    destruct (io_error world p); reflexivity. }
  unfold bind at 1 in Hrun.
  assert (Hstep : exists lg,
    (if negb (DF.empty formatted)
     then write_file world p (Csv (DF.columns formatted) (rows_of formatted)) ;;;
          logger "INFO" ("Exported " ++ Str.of_nat (DF.len formatted)
                           ++ " alerts to " ++ p)
     else write_file world p (Csv headers (rows_of [])) ;;;
          logger "INFO" ("No alerts found for " ++ date
                           ++ ". Created empty file: " ++ p)) s1
    = match io_error world p with
      | Some msg => (Raise (OSError msg), s1)
      | None => (Ok tt, mkEstore (anomaly_data s1)
                          (put_file p (csv_of formatted) (files s1)) lg)
      end).
  { unfold csv_of. destruct (negb (DF.empty formatted)); cbv iota.
    - exists (List.app (log s1)
                ["INFO" ++ " - " ++ "Exported " ++ Str.of_nat (DF.len formatted)
                   ++ " alerts to " ++ p]).
      now rewrite Hwrite.
    - exists (List.app (log s1)
                ["INFO" ++ " - " ++ "No alerts found for " ++ date
                   ++ ". Created empty file: " ++ p]).
      now rewrite Hwrite. }
  destruct Hstep as (lg & Hstep). rewrite Hstep in Hrun. clear Hstep Hwrite.
  destruct (io_error world p) as [msg|] eqn:Hp.
  { left. exists (OSError msg). subst run. split; [reflexivity|].
    split; [exact Hfiles|]. right. right. eauto. }
  right.
  unfold bind at 1 in Hrun. unfold lift at 1 in Hrun.
  destruct (generate_summary_stats world formatted date) as [stats|e] eqn:Hst.
  2:{ left. split; [reflexivity|]. exists e, daily, formatted. subst run.
      cbn [fst snd files]. rewrite Hfiles.
      repeat split; try assumption; try reflexivity; try (symmetry; assumption).
      now left. }
  unfold bind at 1 in Hrun. unfold write_file at 1 in Hrun.
  destruct (io_error world q) as [msg|] eqn:Hq.
  { left. split; [reflexivity|]. exists (OSError msg), daily, formatted. subst run.
    cbn [raise fst snd files]. rewrite Hfiles.
    repeat split; try assumption; try reflexivity; try (symmetry; assumption).
    right. exists stats, msg. repeat split; assumption || reflexivity. }
  right. split; [reflexivity|]. split; [reflexivity|].
  exists daily, formatted, stats. subst run.
  cbn [modify ret fst snd files]. rewrite Hfiles.
  repeat split; try assumption; try reflexivity; symmetry; assumption.
Qed.

(** X19.  A daily export touches two paths only, the alert file of the day
    and its summary; it removes no file; when it raises, the summary of the
    day is as it was before the call; and when the alert file cannot be
    written, the call raises and leaves every file as it was. *)
Theorem export_daily_alerts_files (d : option string) (prefix : string) (s : estore) :
  let date := match d with Some x => x | None => today world end in
  let p := csv_path output_dir prefix date in
  let q := summary_path output_dir prefix date in
  let run := export_daily_alerts world output_dir d prefix s in
  (forall path, path <> p -> path <> q ->
     read_file path (files (snd run)) = read_file path (files s))
  /\ files_kept (files s) (files (snd run))
  /\ (forall e, fst run = Raise e ->
        read_file q (files (snd run)) = read_file q (files s))
  /\ (forall msg, io_error world p = Some msg ->
        (exists e, fst run = Raise e) /\ files (snd run) = files s).
Proof.
  cbv zeta.
  set (date := match d with Some x => x | None => today world end).
  assert (Hqp := summary_path_differs output_dir prefix date).
  pose proof (export_files_cases d prefix s) as H. cbv zeta in H. fold date in H.
  destruct H
    as [(e & Hr & Hf & _)
       |[(Hp & e & daily & formatted & Hr & _ & _ & _ & Hf)
        |(Hp & Hq & daily & formatted & stats & Hr & _ & _ & _ & Hf)]];
    rewrite Hf; clear Hf.
  - split; [reflexivity|]. split; [apply files_kept_refl|].
    split; [reflexivity|]. intros msg Hm. split; [eauto|reflexivity].
  - split; [intros path H1 H2; now apply read_put_other|].
    split; [apply files_kept_put|].
    split; [intros e' _; now apply read_put_other|].
    intros msg Hm. congruence.
  - split; [intros path H1 H2; now rewrite !read_put_other|].
    split; [eapply files_kept_trans; apply files_kept_put|].
    split; [intros e' He'; rewrite Hr in He'; discriminate He'|].
    intros msg Hm. congruence.
Qed.

(** The store a day of the batch leaves is that of the day's export, with
    one more log line when the export raised. *)
Lemma export_day_store (i : nat) (s : estore) :
  let run := export_daily_alerts world output_dir (Some (day_back world i)) "alerts" s in
  fst (export_day world output_dir i s) = Ok (record_of (day_back world i) (fst run))
  /\ files (snd (export_day world output_dir i s)) = files (snd run)
  /\ anomaly_data (snd (export_day world output_dir i s)) = anomaly_data (snd run).
Proof.
  cbv zeta. unfold export_day, try_except, bind, day_back.
  destruct (export_daily_alerts world output_dir _ "alerts" s) as [[r|e] s'];
    repeat split; reflexivity.
Qed.

(** X20.  A day of the batch can be reported as failed, with no file and
    no alert, while its alert file was written: when the day has alerts
    whose frame lacks the [energyOutput] column and the alert file can be
    written, the file is written with one row per alert, the summary then
    raises, and the record of the day says 'failed' with an alert count
    of 0. *)
Theorem failed_day_leaves_alert_file (i : nat) (s : estore) (daily : frame)
    (Hf : fst (filter_anomalies_by_date world (Some (day_back world i)) s) = Ok daily)
    (Hne : DF.empty daily = false)
    (Hcol : DF.col "energyOutput" daily = None)
    (Hp : io_error world (csv_path output_dir "alerts" (day_back world i)) = None) :
  exists msg rows,
    fst (export_day world output_dir i s)
      = Ok (mkBatchResult (day_back world i) None 0 "failed" (Some msg))
    /\ read_file (csv_path output_dir "alerts" (day_back world i))
                 (files (snd (export_day world output_dir i s)))
       = Some (Csv headers rows)
    /\ List.length rows = DF.len daily
    /\ read_file (summary_path output_dir "alerts" (day_back world i))
                 (files (snd (export_day world output_dir i s)))
       = read_file (summary_path output_dir "alerts" (day_back world i)) (files s).
Proof.
  set (date := day_back world i) in *.
  destruct (export_day_store i s) as (Hrec & Hfiles & _). fold date in Hrec, Hfiles.
  rewrite Hrec, Hfiles. clear Hrec Hfiles.
  destruct (format_no_energy world daily date Hne Hcol)
    as (out & Hout & Hcols & _ & _ & _ & _ & _ & msg & Hsum).
  destruct (format_alert_data_columns world daily out Hout)
    as [(He & _)|(_ & _ & Hlen)]; [congruence|].
  assert (Hqp := summary_path_differs output_dir "alerts" date).
  pose proof (export_files_cases (Some date) "alerts" s) as H. cbv zeta in H.
  destruct H
    as [(e & Hr & _ & [Hc|[(daily' & Hd & Hc)|(m & Hc)]])
       |[(_ & e & daily' & formatted & Hr & Hd & Hfmt & Hwhy & Hfl)
        |(_ & Hq & daily' & formatted & stats & Hr & Hd & Hfmt & Hst & _)]].
  - congruence.
  - rewrite Hf in Hd. inversion Hd. subst daily'. congruence.
  - congruence.
  - rewrite Hf in Hd. inversion Hd. subst daily'.
    rewrite Hout in Hfmt. inversion Hfmt. subst formatted.
    assert (Hcsv : csv_of out = Csv headers (rows_of out)).
    { unfold csv_of. rewrite <- Hcols.
      replace (DF.empty out) with false; [reflexivity|].
      unfold DF.empty in *. now rewrite Hlen. }
    rewrite Hr, Hfl, Hcsv. cbn [record_of].
    destruct Hwhy as [Hwhy|(stats & m & Hst & _)]; [|congruence].
    rewrite Hsum in Hwhy. inversion Hwhy. subst e.
    exists msg, (rows_of out). cbn [str_of_exn].
    split; [reflexivity|]. split; [apply read_put_same|].
    split; [now rewrite rows_of_length|]. now apply read_put_other.
  - rewrite Hf in Hd. inversion Hd. subst daily'.
    rewrite Hout in Hfmt. inversion Hfmt. subst formatted. congruence.
Qed.

Lemma dates_parsed_trans (a b c : frame) :
  dates_parsed_in_place a b -> dates_parsed_in_place b c -> dates_parsed_in_place a c.
Proof.
  intros [->|(ca & da & Hca & Hda & ->)] Hbc; [exact Hbc|].
  assert (R : dates_parsed_in_place a (DF.setitem "date" (map VTime da) a))
    by (right; exists ca, da; auto).
  destruct Hbc as [->|(cb & db & Hcb & Hdb & ->)]; [exact R|].
  rewrite col_setitem_eq in Hcb. inversion Hcb. subst cb.
  rewrite to_datetime_timestamps in Hdb. inversion Hdb. subst db.
  rewrite (setitem_same "date" (map VTime da)); [exact R|apply col_setitem_eq].
Qed.

(** What a day of the batch does to the caller's frame and to the files. *)
Lemma export_day_effects (i : nat) (s : estore) :
  let s' := snd (export_day world output_dir i s) in
  dates_parsed_in_place (anomaly_data s) (anomaly_data s')
  /\ files_kept (files s) (files s')
  /\ (forall r path,
        fst (export_day world output_dir i s) = Ok r ->
        br_file_path r = Some path ->
        exists f, read_file path (files s') = Some f).
Proof.
  cbv zeta. destruct (export_day_store i s) as (Hrec & Hfiles & Hdata).
  set (date := day_back world i) in *.
  rewrite Hfiles, Hdata. split; [|split].
  - destruct (export_data world output_dir (Some date) "alerts" s) as (s0 & E0 & ->).
    rewrite <- E0. apply filter_data.
  - pose proof (export_files_cases (Some date) "alerts" s) as H. cbv zeta in H.
    destruct H as [(e & _ & -> & _)
                  |[(_ & e & dl & fm & _ & _ & _ & _ & ->)
                   |(_ & _ & dl & fm & st & _ & _ & _ & _ & ->)]].
    + apply files_kept_refl.
    + apply files_kept_put.
    + eapply files_kept_trans; apply files_kept_put.
  - intros r path Hr Hpath. rewrite Hrec in Hr. inversion Hr. subst r. clear Hr.
    assert (Hqp := summary_path_differs output_dir "alerts" date).
    pose proof (export_files_cases (Some date) "alerts" s) as H. cbv zeta in H.
    destruct H as [(e & Hr & _)
                  |[(_ & e & dl & fm & Hr & _)
                   |(_ & _ & dl & fm & st & Hr & _ & _ & _ & ->)]];
      rewrite Hr in Hpath; cbn [record_of br_file_path fst] in Hpath;
      try discriminate Hpath.
    inversion Hpath. subst path.
    rewrite read_put_other by congruence. rewrite read_put_same. eauto.
Qed.

Lemma batch_loop_effects (days : list nat) (acc : list batch_result) (s : estore) :
  let run := batch_loop world output_dir days acc s in
  dates_parsed_in_place (anomaly_data s) (anomaly_data (snd run))
  /\ files_kept (files s) (files (snd run))
  /\ exists rs,
       fst run = Ok (acc ++ rs)%list
       /\ forall r path, In r rs -> br_file_path r = Some path ->
            exists f, read_file path (files (snd run)) = Some f.
Proof.
  cbv zeta. revert acc s.
  induction days as [|i days IH]; intros acc s.
  - cbn [batch_loop ret fst snd]. split; [now left|]. split; [apply files_kept_refl|].
    exists []. split; [now rewrite app_nil_r|]. intros r path [].
  - cbn [batch_loop]. unfold bind.
    destruct (export_day_effects i s) as (Hd & Hk & Hp).
    destruct (export_day_total world output_dir i s) as (s1 & Hday).
    rewrite Hday in Hd, Hk, Hp. cbn [fst snd] in Hd, Hk, Hp. rewrite Hday.
    destruct (IH (acc ++ [record_of (day_back world i)
                            (fst (export_daily_alerts world output_dir
                                    (Some (day_back world i)) "alerts" s))])%list s1)
      as (Hd' & Hk' & rs & Hrs & Hp').
    split; [eapply dates_parsed_trans; eassumption|].
    split; [eapply files_kept_trans; eassumption|].
    eexists (_ :: rs). split.
    + rewrite Hrs. now rewrite <- app_assoc.
    + intros r path [<-|Hin] Hpath.
      * destruct (Hp _ path eq_refl Hpath) as (f & Hf). exact (Hk' _ _ Hf).
      * exact (Hp' r path Hin Hpath).
Qed.

(** X21.  What a batch does beyond its records: the caller's frame comes
    back untouched or with its [date] column parsed in place (once, however
    many days are exported), no file that existed before is removed, and
    every path the batch reports as exported exists when it returns. *)
Theorem batch_export_effects (n : nat) (s : estore) :
  let run := batch_export world output_dir n s in
  dates_parsed_in_place (anomaly_data s) (anomaly_data (snd run))
  /\ files_kept (files s) (files (snd run))
  /\ (forall results r path,
        fst run = Ok results -> In r results -> br_file_path r = Some path ->
        exists f, read_file path (files (snd run)) = Some f).
Proof.
  cbv zeta. unfold batch_export.
  destruct (batch_loop_effects (seq 0 n) [] s) as (Hd & Hk & rs & Hrs & Hp).
  split; [exact Hd|]. split; [exact Hk|].
  intros results r path Hres Hin Hpath. rewrite Hrs in Hres.
  inversion Hres. subst results. exact (Hp r path Hin Hpath).
Qed.

End ExportFiles.

Lemma failed_day_leaves_alert_file_witness :
  exists msg rows,
    fst (export_day sample_env "./exports" 0 (mkEstore alerts_without_energy [] []))
      = Ok (mkBatchResult "2024-01-16" None 0 "failed" (Some msg))
    /\ read_file "./exports/alerts_20240116.csv"
         (files (snd (export_day sample_env "./exports" 0
                        (mkEstore alerts_without_energy [] []))))
       = Some (Csv headers rows)
    /\ List.length rows = 2%nat.
Proof.
  destruct (failed_day_leaves_alert_file sample_env "./exports" 0
              (mkEstore alerts_without_energy [] [])
              [("date", [VTime (mkTime 19738 36000); VTime (mkTime 19738 43200)]);
               ("severity", [VStr "Warning"; VStr "Critical"])])
    as (msg & rows & Hrec & Hfile & Hlen & _).
  - vm_compute. reflexivity.
  - reflexivity.
  - reflexivity.
  - reflexivity.
  - exists msg, rows. repeat split; assumption.
Defined.

(* ================================================================== *)
(** * From scoring to export *)
(* ================================================================== *)

Lemma Forall_select {A} (P : A -> Prop) (mask : list bool) (xs : list A) :
  Forall P xs -> Forall P (DF.select mask xs).
Proof.
  revert xs. induction mask as [|b mask IH]; intros [|x xs] H; cbn [DF.select];
    try constructor.
  inversion H. subst. destruct b; [constructor|]; auto.
Qed.

Lemma known_status_of_severity (s : severity) :
  known_status (system_status_of (VStr (severity_name s))).
Proof. destruct s; cbn; unfold known_status; auto. Qed.

Section EndToEnd.

Context {sk : Sklearn}.
Variable world : env.
Variable output_dir : string.

(** The total of a daily summary is the number of rows it was given. *)
Lemma summary_total (alert_data : frame) (d : string) (summ : summary) :
  generate_summary_stats world alert_data d = Ok summ ->
  summary_get "total_alerts" summ = Some (JInt (Z.of_nat (DF.len alert_data))).
Proof.
  unfold generate_summary_stats. destruct (DF.empty alert_data) eqn:Ee.
  - intro H. inversion H. unfold DF.empty in Ee. apply Nat.eqb_eq in Ee.
    rewrite Ee. reflexivity.
  - destruct (DF.getitem "severity" alert_data); [|discriminate]. cbn [obind].
    destruct (float_col "energy_kwh" alert_data); [|discriminate]. cbn [obind].
    destruct (float_col "deviation_percentage" alert_data); [|discriminate].
    cbn [obind].
    destruct (DF.getitem "trend_direction" alert_data); [|discriminate]. cbn [obind].
    destruct (get_recommendations alert_data); [|discriminate]. cbn [obind].
    intro H. inversion H. reflexivity.
Qed.

(** The status column of a formatted day. *)
Lemma format_status_column (df out : frame) :
  DF.empty df = false ->
  format_alert_data world df = Ok out ->
  DF.col "system_status" out
  = Some (map system_status_of (DF.get "severity" (VStr "Unknown") (DF.len df) df)).
Proof.
  intros Hne. unfold format_alert_data. rewrite Hne.
  unfold additional_fields, export_columns.
  destruct (DF.has_col "energyOutput" df).
  - destruct (energy_of df) as [energy|]; [|discriminate]. cbn [obind].
    frame_simpl.
    destruct (DF.as_floats (DF.get "energyOutput" (VInt 0) (DF.len df) df));
      [|discriminate].
    cbn [obind]. frame_simpl. unfold trend_direction. frame_simpl.
    destruct (1 <? _)%nat; [destruct (DF.as_floats _); cbn [obind]|cbn [obind]];
      try discriminate; intro H; inversion H; frame_simpl; reflexivity.
  - cbn [obind]. frame_simpl. unfold trend_direction. frame_simpl.
    destruct (1 <? _)%nat; [destruct (DF.as_floats _); cbn [obind]|cbn [obind]];
      try discriminate; intro H; inversion H; frame_simpl; reflexivity.
Qed.

(** X22.  Exporting a scored frame exports every reading of the day, not
    the flagged ones only: the date filter does not look at
    [anomaly_flag], so when the daily export of the frame scoring returned
    succeeds, its alert count, and the total of its summary, is the number
    of readings whose date falls on the target day. *)
Theorem export_counts_every_reading (ds ds' : dstore) (result : frame)
    (c : list value) (dates : list timestamp) (target prefix : string)
    (t : timestamp) (fs : list (string * file)) (lg : list string)
    (path : string) (count : nat) (stats : summary) (es' : estore)
    (Hwf : well_formed (data ds))
    (Hc : DF.col "date" (data ds) = Some c)
    (Hd : DF.to_datetime c = Ok dates)
    (Ht : DF.to_datetime1 (VStr target) = Ok t)
    (Hdet : detect_anomalies ds = (Ok result, ds'))
    (Hexp : export_daily_alerts world output_dir (Some target) prefix
              (mkEstore result fs lg) = (Ok (path, count, stats), es')) :
  count = List.length (filter (on_day t) dates)
  /\ summary_get "total_alerts" stats = Some (JInt (Z.of_nat count))
  /\ exists rows,
       read_file path (files es') = Some (Csv headers rows)
       /\ List.length rows = count.
Proof.
  destruct (detect_ok_inv _ _ _ Hdet) as (iso & energy & combined & Hen & Hcomb & Hres).
  set (df := data ds) in *.
  assert (Hdf : df <> []) by (intro E; rewrite E in Hc; discriminate Hc).
  assert (Hel := energy_length df _ Hwf Hen).
  destruct (combine_scores_length _ _ _ _ Hcomb) as (Hlc & Hlz & _).
  rewrite length_map in Hlz. unfold Series.zscore in Hlz. rewrite length_map in Hlz.
  assert (Hli : List.length iso = DF.len df) by congruence.
  assert (Hlc' : List.length combined = DF.len df) by congruence.
  destruct (assign_scores_shape (thresholds (self ds)) df iso energy combined
              Hwf Hdf Hel Hli Hlc') as (Hwr & _).
  destruct (assign_scores_col (thresholds (self ds)) df iso energy combined)
    as (_ & _ & _ & Hkeep).
  rewrite <- Hres in Hwr, Hkeep.
  assert (Hcr : DF.col "date" result = Some c).
  { rewrite Hkeep; [exact Hc|].
    cbn. intros [H|[H|[H|[H|[H|[H|[H|[]]]]]]]]; discriminate H. }
  destruct (filter_rows_of_day world target (mkEstore result fs lg) c dates t
              Hwr Hcr Hd Ht) as (daily & s1 & Hfil & _ & _ & _ & Hlen & _).
  pose proof (export_files_cases world output_dir (Some target) prefix
                (mkEstore result fs lg)) as H.
  cbv zeta in H. rewrite Hexp in H. cbn [fst snd] in H.
  destruct H as [(e & He & _)
                |[(_ & e & dl & fm & He & _)
                 |(_ & _ & dl & fm & st & Hr & Hdl & Hfm & Hst & Hfiles)]];
    try discriminate He.
  inversion Hr. subst path count st. clear Hr.
  rewrite Hfil in Hdl. cbn [fst] in Hdl. inversion Hdl. subst dl. clear Hdl.
  assert (Hcount : DF.len fm = DF.len daily).
  { destruct (format_alert_data_columns world daily fm Hfm)
      as [(He & ->)|(_ & _ & Hl)]; [|exact Hl].
    unfold DF.empty in He. apply Nat.eqb_eq in He. now rewrite He. }
  split; [congruence|].
  split; [exact (summary_total fm target stats Hst)|].
  assert (Hqp := summary_path_differs output_dir prefix target).
  rewrite Hfiles, read_put_other by congruence. rewrite read_put_same.
  unfold csv_of.
  destruct (format_alert_data_columns world daily fm Hfm)
    as [(He & ->)|(_ & Hcols & Hl)].
  - exists (rows_of []). split; reflexivity.
  - replace (DF.empty fm) with false.
    2:{ destruct (DF.empty fm) eqn:E; [|reflexivity].
        destruct (DF.empty daily) eqn:E'.
        - unfold format_alert_data in Hfm. rewrite E' in Hfm. inversion Hfm.
          subst fm. discriminate Hcols.
        - unfold DF.empty in *. rewrite Hl in E. congruence. }
    cbn [negb]. rewrite Hcols. exists (rows_of fm). split; [reflexivity|].
    apply rows_of_length.
Qed.

(** X23.  The exporter's fallbacks are not used on a scored frame: in the
    formatted alerts of any day of a frame scoring returned, every
    [system_status] is one of the four statuses of a known severity, never
    'Under Review'. *)
Theorem scored_alerts_have_known_status (ds ds' : dstore) (result : frame)
    (target : option string) (fs : list (string * file)) (lg : list string)
    (daily out : frame) (es' : estore) (cells : list value)
    (Hdet : detect_anomalies ds = (Ok result, ds'))
    (Hfil : filter_anomalies_by_date world target (mkEstore result fs lg)
            = (Ok daily, es'))
    (Hfmt : format_alert_data world daily = Ok out)
    (Hcol : DF.col "system_status" out = Some cells) :
  Forall known_status cells.
Proof.
  destruct (detect_ok_inv _ _ _ Hdet) as (iso & energy & combined & _ & _ & Hres).
  destruct (assign_scores_col (thresholds (self ds)) (data ds) iso energy combined)
    as (_ & Hsev & _ & _).
  rewrite <- Hres in Hsev.
  destruct (DF.empty daily) eqn:Ee.
  { unfold format_alert_data in Hfmt. rewrite Ee in Hfmt. inversion Hfmt. subst out.
    discriminate Hcol. }
  rewrite (format_status_column daily out Ee Hfmt) in Hcol. inversion Hcol. clear Hcol.
  assert (Hds : exists mask,
            DF.col "severity" daily
            = Some (DF.select mask
                      (map (fun x => VStr (severity_name
                                             (classify (thresholds (self ds)) x)))
                           combined))).
  { revert Hfil.
    unfold filter_anomalies_by_date, bind, gets, lift, modify, logger, ret.
    cbn [fst snd anomaly_data].
    destruct (DF.col "date" result) as [c|].
    2:{ intro H. inversion H. subst daily. discriminate Ee. }
    destruct (DF.to_datetime c) as [dates|]; [|discriminate].
    cbn [fst snd anomaly_data].
    destruct (DF.to_datetime1 _) as [t|]; [|discriminate].
    cbn [fst snd anomaly_data]. intro H. inversion H.
    eexists. rewrite col_filter_rows, col_setitem_neq by discriminate.
    rewrite Hsev. reflexivity. }
  destruct Hds as (mask & Hds).
  unfold DF.get. rewrite Hds.
  apply Forall_map. apply Forall_select. apply Forall_map.
  apply Forall_forall. intros x _. apply known_status_of_severity.
Qed.

End EndToEnd.

Lemma export_counts_every_reading_witness :
  exists stats es',
    export_daily_alerts sample_env "./exports" (Some "2024-01-16") "alerts"
      (mkEstore scored_sample [] [])
    = (Ok ("./exports/alerts_20240116.csv", 2%nat, stats), es')
    /\ summary_get "total_alerts" stats = Some (JInt 2).
Proof.
  destruct (export_daily_alerts sample_env "./exports" (Some "2024-01-16") "alerts"
              (mkEstore scored_sample [] [])) as [[[[path count] stats]|e] es'] eqn:E;
    [|vm_compute in E; discriminate E].
  destruct (@export_counts_every_reading toy_sklearn sample_env "./exports"
              (mkDstore (@fitted_on toy_sklearn sample_frame) sample_frame)
              (mkDstore (@fitted_on toy_sklearn sample_frame) sample_frame)
              scored_sample
              [VStr "2024-01-15 10:00:00"; VStr "2024-01-15 11:00:00";
               VStr "2024-01-16 10:00:00"; VStr "2024-01-16 12:00:00"]
              [mkTime 19737 36000; mkTime 19737 39600;
               mkTime 19738 36000; mkTime 19738 43200]
              "2024-01-16" "alerts" (mkTime 19738 0) [] [] path count stats es')
    as (Hcount & Htotal & _).
  - repeat constructor.
  - reflexivity.
  - vm_compute. reflexivity.
  - vm_compute. reflexivity.
  - vm_compute. reflexivity.
  - exact E.
  - assert (Hp : path = "./exports/alerts_20240116.csv")
      by (vm_compute in E; inversion E; reflexivity).
    cbn in Hcount. subst path count.
    exists stats, es'. split; [reflexivity|exact Htotal].
Defined.

Lemma scored_alerts_have_known_status_witness :
  exists out cells,
    format_alert_data sample_env scored_day = Ok out
    /\ DF.col "system_status" out = Some cells
    /\ Forall known_status cells.
Proof.
  destruct (format_alert_data sample_env scored_day) as [out|e] eqn:Hfmt;
    [|vm_compute in Hfmt; discriminate Hfmt].
  destruct (DF.col "system_status" out) as [cells|] eqn:Hcol.
  2:{ vm_compute in Hfmt. inversion Hfmt. subst out. vm_compute in Hcol.
      discriminate Hcol. }
  exists out, cells. split; [reflexivity|]. split; [exact Hcol|].
  apply (@scored_alerts_have_known_status toy_sklearn sample_env
           (mkDstore (@fitted_on toy_sklearn sample_frame) sample_frame)
           (mkDstore (@fitted_on toy_sklearn sample_frame) sample_frame)
           scored_sample (Some "2024-01-16") [] [] scored_day out
           (snd (filter_anomalies_by_date sample_env (Some "2024-01-16")
                   (mkEstore scored_sample [] [])))
           cells).
  - vm_compute. reflexivity.
  - vm_compute. reflexivity.
  - exact Hfmt.
  - exact Hcol.
Defined.

(* ================================================================== *)
(** * Exporting a day again *)
(* ================================================================== *)

Section ExportAgain.

Variable world : env.
Variable output_dir : string.

(** The date filter, step by step. *)
Lemma filter_run (d : option string) (s : estore) :
  let target := match d with Some x => x | None => today world end in
  filter_anomalies_by_date world d s
  = match DF.col "date" (anomaly_data s) with
    | None =>
        (Ok [], mkEstore (anomaly_data s) (files s)
                  (List.app (log s) ["WARNING - No 'date' column found in data"]))
    | Some c =>
        match DF.to_datetime c with
        | Raise e => (Raise e, s)
        | Ok dates =>
            let df := DF.setitem "date" (map VTime dates) (anomaly_data s) in
            match DF.to_datetime1 (VStr target) with
            | Raise e => (Raise e, mkEstore df (files s) (log s))
            | Ok t =>
                let daily := DF.filter_rows (map (on_day t) dates) df in
                (Ok daily,
                 mkEstore df (files s)
                   (List.app (log s)
                      ["INFO - Filtered " ++ Str.of_nat (DF.len daily)
                         ++ " anomalies for date " ++ target]))
            end
        end
    end.
Proof.
  cbv zeta.
  unfold filter_anomalies_by_date, bind, gets, lift, logger, modify, ret.
  cbn [fst snd anomaly_data].
  destruct (DF.col "date" (anomaly_data s)) as [c|]; [|reflexivity].
  destruct (DF.to_datetime c) as [dates|e]; [|reflexivity].
  cbn [fst snd anomaly_data].
  destruct (DF.to_datetime1 _) as [t|e]; reflexivity.
Qed.

(** Once the filter has run, running it again on the frame it left returns
    the same rows and changes nothing. *)
Lemma filter_stable (d : option string) (s s' : estore) (daily : frame) :
  anomaly_data s' = anomaly_data (snd (filter_anomalies_by_date world d s)) ->
  fst (filter_anomalies_by_date world d s) = Ok daily ->
  fst (filter_anomalies_by_date world d s') = Ok daily
  /\ anomaly_data (snd (filter_anomalies_by_date world d s')) = anomaly_data s'.
Proof.
  rewrite !filter_run. cbv zeta.
  destruct (DF.col "date" (anomaly_data s)) as [c|] eqn:Ec.
  - destruct (DF.to_datetime c) as [dates|e] eqn:Ed; [|discriminate].
    destruct (DF.to_datetime1 _) as [t|e] eqn:Et; [|discriminate].
    cbn [fst snd anomaly_data]. intros E H. inversion H. clear H.
    rewrite E, col_setitem_eq, to_datetime_timestamps.
    cbn [fst snd anomaly_data].
    rewrite (setitem_same "date" (map VTime dates)); [|apply col_setitem_eq].
    split; reflexivity.
  - cbn [fst snd anomaly_data]. intros E H. rewrite E, Ec.
    cbn [fst snd anomaly_data]. split; [exact H|reflexivity].
Qed.

(** X24.  Exporting a day a second time, with the same clock, repeats the
    first export: it returns the same path, count and summary, leaves the
    caller's frame as the first export left it, and every path reads as it
    did after the first export. *)
Theorem export_again_same (d : option string) (prefix : string) (s s1 : estore)
    (r : string * nat * summary)
    (Hrun : export_daily_alerts world output_dir d prefix s = (Ok r, s1)) :
  exists s2,
    export_daily_alerts world output_dir d prefix s1 = (Ok r, s2)
    /\ anomaly_data s2 = anomaly_data s1
    /\ forall path, read_file path (files s2) = read_file path (files s1).
Proof.
  set (date := match d with Some x => x | None => today world end).
  assert (Hqp := summary_path_differs output_dir prefix date).
  (* the first export *)
  pose proof (export_files_cases world output_dir d prefix s) as H1.
  cbv zeta in H1. fold date in H1. rewrite Hrun in H1. cbn [fst snd] in H1.
  destruct H1 as [(e & He & _)
                 |[(_ & e & dl & fm & He & _)
                  |(Hp & Hq & daily & fm & st & Hr & Hdl & Hfm & Hst & Hfiles)]];
    try discriminate He.
  destruct (export_data world output_dir d prefix s) as (s0 & E0 & Hdata).
  fold date in Hdata. rewrite Hrun in Hdata. cbn [snd] in Hdata.
  assert (Hdl0 : fst (filter_anomalies_by_date world (Some date) s0) = Ok daily)
    by (rewrite (filter_value world (Some date) s0 s E0); exact Hdl).
  destruct (filter_stable (Some date) s0 s1 daily Hdata Hdl0) as (Hdl1 & _).
  (* the second export *)
  destruct (export_daily_alerts world output_dir d prefix s1) as [o2 s2] eqn:Hrun2.
  exists s2.
  pose proof (export_files_cases world output_dir d prefix s1) as H2.
  cbv zeta in H2. fold date in H2. rewrite Hrun2 in H2. cbn [fst snd] in H2.
  destruct (export_data world output_dir d prefix s1) as (s0' & E0' & Hdata').
  fold date in Hdata'. rewrite Hrun2 in Hdata'. cbn [snd] in Hdata'.
  assert (Hsame : anomaly_data s2 = anomaly_data s1).
  { rewrite Hdata'.
    destruct (filter_stable (Some date) s0 s0' daily) as (_ & Hs);
      [congruence|exact Hdl0|]. congruence. }
  destruct H2 as [(e & He & _ & [Hc|[(dl & Hd & Hc)|(m & Hc)]])
                 |[(_ & e & dl & fm' & He & Hd & Hfm' & Hwhy & _)
                  |(_ & _ & dl & fm' & st' & Hr' & Hd & Hfm' & Hst' & Hfiles')]].
  - congruence.
  - rewrite Hdl1 in Hd. inversion Hd. subst dl. congruence.
  - congruence.
  - rewrite Hdl1 in Hd. inversion Hd. subst dl.
    rewrite Hfm in Hfm'. inversion Hfm'. subst fm'.
    destruct Hwhy as [Hw|(st' & m & _ & Hm & _)]; congruence.
  - rewrite Hdl1 in Hd. inversion Hd. subst dl.
    rewrite Hfm in Hfm'. inversion Hfm'. subst fm'.
    rewrite Hst in Hst'. inversion Hst'. subst st'.
    split; [f_equal; congruence|]. split; [exact Hsame|].
    intro path. rewrite Hfiles', Hfiles.
    destruct (String.eqb_spec path (summary_path output_dir prefix date)) as [->|Hnq].
    + now rewrite !read_put_same.
    + destruct (String.eqb_spec path (csv_path output_dir prefix date)) as [->|Hnp].
      * repeat (rewrite read_put_other by congruence); rewrite ?read_put_same.
        repeat (rewrite read_put_other by congruence); rewrite ?read_put_same.
        reflexivity.
      * repeat (rewrite read_put_other by assumption). reflexivity.
Qed.

End ExportAgain.

Lemma export_again_same_witness :
  exists r s1 s2,
    export_daily_alerts sample_env "./exports" (Some "2024-01-15") "alerts"
      (mkEstore sample_frame [] []) = (Ok r, s1)
    /\ export_daily_alerts sample_env "./exports" (Some "2024-01-15") "alerts" s1
       = (Ok r, s2)
    /\ anomaly_data s2 = anomaly_data s1.
Proof.
  destruct (export_daily_alerts sample_env "./exports" (Some "2024-01-15") "alerts"
              (mkEstore sample_frame [] [])) as [[r|e] s1] eqn:E;
    [|vm_compute in E; discriminate E].
  destruct (export_again_same sample_env "./exports" (Some "2024-01-15") "alerts"
              (mkEstore sample_frame [] []) s1 r E) as (s2 & H2 & Hd & _).
  exists r, s1, s2. repeat split; assumption.
Defined.

Lemma export_daily_alerts_files_witness :
  read_file "./exports/notes.txt"
    (files (snd (export_daily_alerts sample_env "./exports" (Some "2024-01-15") "alerts"
                   (mkEstore sample_frame [("./exports/notes.txt", Csv [] [])] []))))
  = Some (Csv [] []).
Proof.
  destruct (export_daily_alerts_files sample_env "./exports" (Some "2024-01-15") "alerts"
              (mkEstore sample_frame [("./exports/notes.txt", Csv [] [])] []))
    as (H & _).
  rewrite H; [reflexivity|vm_compute; discriminate|vm_compute; discriminate].
Defined.

Lemma batch_export_effects_witness :
  dates_parsed_in_place sample_frame
    (anomaly_data (snd (batch_export sample_env "./exports" 3
                          (mkEstore sample_frame [] [])))).
Proof.
  apply (batch_export_effects sample_env "./exports" 3 (mkEstore sample_frame [] [])).
Defined.

(* ================================================================== *)
(** * The most severe anomaly of a summary *)
(* ================================================================== *)

Lemma idxmax_from_Fin (l : list Q) (i j : nat) (bq : Q) :
  exists k q,
    idxmax_from i (Some (j, Fin bq)) (map Fin l) = Some k
    /\ ((k = j /\ q = bq) \/ ((i <= k)%nat /\ nth_error l (k - i) = Some q))
    /\ bq <= q
    /\ forall y, In y l -> y <= q.
Proof.
  revert i j bq. induction l as [|x l IH]; intros i j bq.
  - exists j, bq. cbn. split; [reflexivity|]. split; [now left|].
    split; [apply Qle_refl|]. intros y [].
  - cbn [map idxmax_from F.is_nan F.gtb F.ltb].
    destruct (F.Qltb bq x) eqn:E.
    + apply Qltb_lt in E.
      destruct (IH (S i) i x) as (k & q & Hk & Hpos & Hle & Hall).
      exists k, q. split; [exact Hk|]. split; [|split].
      * right. destruct Hpos as [(-> & ->)|(Hik & Hn)].
        -- split; [lia|]. now rewrite Nat.sub_diag.
        -- split; [lia|]. replace (k - i)%nat with (S (k - S i)) by lia. exact Hn.
      * apply Qlt_le_weak in E. eapply Qle_trans; eassumption.
      * intros y [<-|Hy]; [exact Hle|now apply Hall].
    + apply Qltb_ge in E.
      destruct (IH (S i) j bq) as (k & q & Hk & Hpos & Hle & Hall).
      exists k, q. split; [exact Hk|]. split; [|split].
      * destruct Hpos as [H|(Hik & Hn)]; [now left|right].
        split; [lia|]. replace (k - i)%nat with (S (k - S i)) by lia. exact Hn.
      * exact Hle.
      * intros y [<-|Hy]; [eapply Qle_trans; eassumption|now apply Hall].
Qed.

(** On finite cells [idxmax] answers with the position of a largest
    cell. *)
Lemma idxmax_Fin (l : list Q) :
  l <> [] ->
  exists k q, idxmax (map Fin l) = Ok k /\ nth_error l k = Some q
              /\ forall y, In y l -> y <= q.
Proof.
  destruct l as [|x l]; [congruence|]. intros _.
  unfold idxmax. cbn [map idxmax_from F.is_nan].
  destruct (idxmax_from_Fin l 1 0 x) as (k & q & Hk & Hpos & Hle & Hall).
  exists k, q. rewrite Hk. split; [reflexivity|]. split.
  - destruct Hpos as [(-> & ->)|(Hik & Hn)]; [reflexivity|].
    destruct k as [|k]; [lia|]. cbn [nth_error].
    now replace (S k - 1)%nat with k in Hn by lia.
  - intros y [<-|Hy]; [exact Hle|now apply Hall].
Qed.

Lemma select_map {A B} (f : A -> B) (mask : list bool) (xs : list A) :
  DF.select mask (map f xs) = map f (DF.select mask xs).
Proof.
  revert xs. induction mask as [|b mask IH]; intros [|x xs]; try reflexivity.
  cbn [map DF.select]. destruct b; cbn [map]; now rewrite IH.
Qed.

Lemma select_combine {A B} (mask : list bool) (xs : list A) (ys : list B) :
  DF.select mask (combine xs ys) = combine (DF.select mask xs) (DF.select mask ys).
Proof.
  revert xs ys. induction mask as [|b mask IH]; intros [|x xs] [|y ys];
    try reflexivity; cbn [combine DF.select].
  - destruct b; [reflexivity|]. destruct (DF.select mask xs); reflexivity.
  - destruct b; cbn [combine]; now rewrite IH.
Qed.

Lemma nth_error_combine {A B} (xs : list A) (ys : list B) (k : nat) (x : A) (y : B) :
  nth_error xs k = Some x -> nth_error ys k = Some y ->
  nth_error (combine xs ys) k = Some (x, y).
Proof.
  revert ys k. induction xs as [|a xs IH]; intros [|b ys] [|k]; cbn;
    try discriminate.
  - intros [= ->] [= ->]. reflexivity.
  - apply IH.
Qed.

(** X25.  The most severe date of a summary is the date of a flagged
    reading with the highest score among the flagged readings, and the
    maximum score of the summary is the score of that reading (unflagged
    readings are not looked at, however high their score). *)
Theorem most_severe_is_highest (results : frame) (flags dates : list value)
    (mask : list bool) (qs : list Q) (summ : anomaly_summary)
    (Hf : DF.col "anomaly_flag" results = Some flags)
    (Hm : as_mask flags = Ok mask)
    (Hsc : DF.col "anomaly_score" results = Some (DF.of_floats (map Fin qs)))
    (Hd : DF.col "date" results = Some dates)
    (Hsum : get_anomaly_summary results = Returns summ)
    (Hpos : (0 < total_anomalies summ)%nat) :
  exists q d,
    In (q, d) (DF.select mask (combine qs dates))
    /\ (forall q2 d2, In (q2, d2) (DF.select mask (combine qs dates)) -> q2 <= q)
    /\ most_severe_date summ = Some d
    /\ exists q', max_anomaly_score summ = VFloat (Fin q') /\ q' == q.
Proof.
  revert Hsum Hpos. unfold get_anomaly_summary, DF.getitem.
  rewrite Hf. cbn [obind]. rewrite Hm. cbn [cbind].
  destruct (DF.len results =? 0)%nat; [discriminate|].
  rewrite col_filter_rows.
  destruct (DF.col "severity" results) as [sevs|]; cbn [option_map cbind];
    [|discriminate].
  destruct (0 <? DF.len (DF.filter_rows mask results))%nat eqn:En.
  2:{ cbn [cbind]. intro H. inversion H. cbn [total_anomalies].
      apply Nat.ltb_ge in En. lia. }
  unfold date_of_most_severe, float_col, DF.getitem.
  rewrite !col_filter_rows, Hsc, Hd. cbn [option_map obind].
  rewrite as_floats_select. cbn [obind cbind].
  rewrite select_map.
  set (l := DF.select mask qs).
  destruct l as [|x l'] eqn:El.
  { cbn. discriminate. }
  destruct (idxmax_Fin (x :: l')) as (k & q & Hk & Hq & Hall); [discriminate|].
  rewrite Hk. cbn [obind].
  destruct (nth_error (DF.select mask dates) k) as [d|] eqn:Hdk;
    cbn [obind cbind]; [|discriminate].
  intros H _. inversion H. clear H. cbn [most_severe_date max_anomaly_score].
  exists q, d. rewrite select_combine. fold l. rewrite El.
  split; [|split; [|split]].
  - eapply nth_error_In. apply nth_error_combine; eassumption.
  - intros q2 d2 Hin. apply in_combine_l in Hin. now apply Hall.
  - reflexivity.
  - change (Fin x :: map Fin l') with (map Fin (x :: l')).
    unfold series_max. rewrite notna_Fin. cbn [map].
    destruct (fold_maximum_Fin l' x) as (hi & Hhi & Hin & Hub).
    rewrite Hhi. exists hi. split; [reflexivity|].
    apply Qle_antisym.
    + now apply Hall.
    + apply Hub. eapply nth_error_In. exact Hq.
Qed.

Lemma most_severe_is_highest_witness :
  exists summ,
    get_anomaly_summary scored_two_alerts = Returns summ
    /\ most_severe_date summ = Some (VStr "2024-01-16 10:00:00").
Proof.
  destruct (get_anomaly_summary scored_two_alerts) as [summ| |] eqn:E;
    [|vm_compute in E; discriminate E|vm_compute in E; discriminate E].
  exists summ. split; [reflexivity|].
  destruct (most_severe_is_highest scored_two_alerts
              [VBool false; VBool true; VBool true]
              [VStr "2024-01-15 10:00:00"; VStr "2024-01-15 11:00:00";
               VStr "2024-01-16 10:00:00"]
              [false; true; true] [0.9; 0.4; 0.6] summ)
    as (q & d & Hin & Hmax & Hdate & _).
  - reflexivity.
  - reflexivity.
  - reflexivity.
  - reflexivity.
  - exact E.
  - vm_compute in E. inversion E. cbn. lia.
  - rewrite Hdate. f_equal.
    cbn in Hin, Hmax.
    destruct Hin as [Hin|[Hin|[]]]; inversion Hin; subst; [|reflexivity].
    exfalso. specialize (Hmax 0.6 (VStr "2024-01-16 10:00:00")).
    assert (H : 0.6 <= 0.4) by (apply Hmax; right; left; reflexivity).
    revert H. apply Qlt_not_le. reflexivity.
Defined.

(* ================================================================== *)
(** * Rounding to binary64 *)
(* ================================================================== *)

Lemma pow2_pos (e : Z) : 0 < B64.pow2 e.
Proof. apply Qpower_0_lt. reflexivity. Qed.

Lemma pow2_add (a b : Z) : B64.pow2 (a + b) == B64.pow2 a * B64.pow2 b.
Proof. apply Qpower_plus. discriminate. Qed.

Lemma pow2_le (a b : Z) : (a <= b)%Z -> B64.pow2 a <= B64.pow2 b.
Proof. intro H. apply Qpower_le_compat_l; [exact H|discriminate]. Qed.

Lemma pow2_lt_inv (a b : Z) : B64.pow2 a < B64.pow2 b -> (a < b)%Z.
Proof. intro H. apply (Qpower_lt_compat_l_inv 2); [exact H|reflexivity]. Qed.

Lemma pow2_Z (n : Z) : (0 <= n)%Z -> B64.pow2 n == inject_Z (2 ^ n).
Proof. intro H. unfold B64.pow2. now rewrite Zpower_Qpower. Qed.

Lemma pow2_succ (a : Z) : B64.pow2 (a + 1) == 2 * B64.pow2 a.
Proof. rewrite pow2_add. unfold B64.pow2 at 2. rewrite Qpower_1_r. ring. Qed.

Lemma ilog2_spec (q : Q) :
  ~ q == 0 ->
  B64.pow2 (B64.ilog2 q) <= Qabs q < B64.pow2 (B64.ilog2 q + 1).
Proof.
  intro Hq. destruct q as [n d].
  assert (Hn : (0 < Z.abs n)%Z).
  { destruct (Z.eq_dec n 0) as [->|]; [exfalso; apply Hq; reflexivity|lia]. }
  unfold B64.ilog2. cbn [Qnum Qden Qabs].
  set (a := Z.abs n) in *.
  set (la := Z.log2 a). set (ld := Z.log2 (Z.pos d)).
  destruct (Z.log2_spec a Hn) as (Ha1 & Ha2). fold la in Ha1, Ha2.
  destruct (Z.log2_spec (Z.pos d) eq_refl) as (Hd1 & Hd2). fold ld in Hd1, Hd2.
  assert (Hla : (0 <= la)%Z) by apply Z.log2_nonneg.
  assert (Hld : (0 <= ld)%Z) by apply Z.log2_nonneg.
  assert (Qa1 : B64.pow2 la <= inject_Z a)
    by (rewrite pow2_Z by exact Hla; now rewrite <- Zle_Qle).
  assert (Qa2 : inject_Z a < B64.pow2 (la + 1))
    by (rewrite pow2_Z by lia; now rewrite <- Zlt_Qlt).
  assert (Qd1 : B64.pow2 ld <= inject_Z (Z.pos d))
    by (rewrite pow2_Z by exact Hld; now rewrite <- Zle_Qle).
  assert (Qd2 : inject_Z (Z.pos d) < B64.pow2 (ld + 1))
    by (rewrite pow2_Z by lia; now rewrite <- Zlt_Qlt).
  assert (Hdpos : 0 < inject_Z (Z.pos d)) by reflexivity.
  assert (Lo : B64.pow2 (la - ld - 1) <= a # d).
  { rewrite Qmake_Qdiv. apply Qle_shift_div_l; [exact Hdpos|].
    apply Qle_trans with (B64.pow2 (la - ld - 1) * B64.pow2 (ld + 1)).
    - apply Qmult_le_l; [apply pow2_pos|]. now apply Qlt_le_weak.
    - rewrite <- pow2_add. replace (la - ld - 1 + (ld + 1))%Z with la by lia.
      exact Qa1. }
  assert (Hi : a # d < B64.pow2 (la - ld + 1)).
  { rewrite Qmake_Qdiv. apply Qlt_shift_div_r; [exact Hdpos|].
    apply Qlt_le_trans with (B64.pow2 (la - ld + 1) * B64.pow2 ld).
    - rewrite <- pow2_add. replace (la - ld + 1 + ld)%Z with (la + 1)%Z by lia.
      exact Qa2.
    - apply Qmult_le_l; [apply pow2_pos|exact Qd1]. }
  destruct (Qle_bool (B64.pow2 (la - ld)) (a # d)) eqn:E.
  - apply Qle_bool_iff in E. split; [exact E|exact Hi].
  - apply Qle_bool_false in E. split; [exact Lo|].
    replace (la - ld - 1 + 1)%Z with (la - ld)%Z by lia. exact E.
Qed.

Lemma exponent_spec (q : Q) :
  (-1074 <= B64.exponent q)%Z
  /\ Qabs q < B64.pow2 (B64.exponent q + 53)
  /\ ((-1074 < B64.exponent q)%Z -> B64.pow2 (B64.exponent q + 52) <= Qabs q).
Proof.
  unfold B64.exponent. destruct (Qeq_bool q 0) eqn:E.
  - apply Qeq_bool_iff in E. split; [lia|]. split; [|lia].
    rewrite E. apply pow2_pos.
  - apply Qeq_bool_neq in E. destruct (ilog2_spec q E) as (H1 & H2).
    split; [lia|]. split.
    + eapply Qlt_le_trans; [exact H2|]. apply pow2_le. lia.
    + intro H. replace (Z.max (B64.ilog2 q - 52) (-1074) + 52)%Z
        with (B64.ilog2 q) by lia. exact H1.
Qed.

(** Rounding to the nearest integer, ties to even. *)
Lemma Qrint_cases (x : Q) :
  let f := Qfloor x in
  (F.Qrint x = f /\ x - inject_Z f <= 1 # 2)
  \/ (F.Qrint x = (f + 1)%Z /\ 1 # 2 <= x - inject_Z f).
Proof.
  cbv zeta. unfold F.Qrint.
  destruct (Qcompare (x - inject_Z (Qfloor x)) (1 # 2)) eqn:E.
  - apply Qeq_alt in E. destruct (Z.even (Qfloor x)).
    + left. split; [reflexivity|]. rewrite E. apply Qle_refl.
    + right. split; [reflexivity|]. rewrite E. apply Qle_refl.
  - apply Qlt_alt in E. left. split; [reflexivity|]. now apply Qlt_le_weak.
  - apply Qgt_alt in E. right. split; [reflexivity|]. now apply Qlt_le_weak.
Qed.

Lemma Qrint_error (x : Q) : Qabs (inject_Z (F.Qrint x) - x) <= 1 # 2.
Proof.
  assert (H1 := Qfloor_le x). assert (H2 := Qlt_floor x).
  rewrite inject_Z_plus in H2.
  apply Qabs_Qle_condition.
  destruct (Qrint_cases x) as [(-> & H)|(-> & H)];
    rewrite ?inject_Z_plus; change (inject_Z 1) with 1 in *; split; lra.
Qed.

Lemma Qrint_le_int (x : Q) (k : Z) : x <= inject_Z k -> (F.Qrint x <= k)%Z.
Proof.
  intro H. assert (H1 := Qfloor_le x).
  destruct (Qrint_cases x) as [(-> & _)|(-> & Hr)].
  - rewrite Zle_Qle. lra.
  - assert (Hlt : inject_Z (Qfloor x) < inject_Z k) by lra.
    rewrite <- Zlt_Qlt in Hlt. lia.
Qed.

Lemma Qrint_ge_int (x : Q) (k : Z) : inject_Z k <= x -> (k <= F.Qrint x)%Z.
Proof.
  intro H. apply Qfloor_resp_le in H. rewrite Qfloor_Z in H.
  destruct (Qrint_cases x) as [(-> & _)|(-> & _)]; lia.
Qed.

Lemma Qrint_Z (z : Z) : F.Qrint (inject_Z z) = z.
Proof.
  apply Z.le_antisymm.
  - apply Qrint_le_int. apply Qle_refl.
  - apply Qrint_ge_int. apply Qle_refl.
Qed.

Lemma Qrint_mono (x y : Q) : x <= y -> (F.Qrint x <= F.Qrint y)%Z.
Proof.
  intro Hxy. assert (Hf := Qfloor_resp_le x y Hxy).
  destruct (Z.eq_dec (Qfloor x) (Qfloor y)) as [E|E].
  - unfold F.Qrint. rewrite <- E.
    destruct (Qcompare (x - inject_Z (Qfloor x)) (1 # 2)) eqn:Ex;
      destruct (Qcompare (y - inject_Z (Qfloor x)) (1 # 2)) eqn:Ey;
      repeat match goal with
             | H : Qcompare _ _ = Eq |- _ => apply Qeq_alt in H
             | H : Qcompare _ _ = Lt |- _ => apply Qlt_alt in H
             | H : Qcompare _ _ = Gt |- _ => apply Qgt_alt in H
             end;
      try (destruct (Z.even (Qfloor x))); try lia; exfalso; lra.
  - destruct (Qrint_cases x) as [(-> & _)|(-> & _)];
      destruct (Qrint_cases y) as [(-> & _)|(-> & _)]; lia.
Qed.
Lemma pow2_le_inv (a b : Z) : B64.pow2 a <= B64.pow2 b -> (a <= b)%Z.
Proof. intro H. apply (Qpower_le_compat_l_inv 2); [exact H|reflexivity]. Qed.

(** The parts of a rounded non-negative number: the scaled significand
    is an integer of at most 53 bits, normal above the smallest exponent,
    within half a unit of the scaled number. *)
Lemma round_pos_parts (q : Q) :
  0 <= q ->
  let e := B64.exponent q in
  let m := F.Qrint (q / B64.pow2 e) in
  (0 <= m <= 2 ^ 53)%Z
  /\ ((-1074 < e)%Z -> (2 ^ 52 <= m)%Z)
  /\ Qabs (inject_Z m * B64.pow2 e - q) <= B64.pow2 (e - 1).
Proof.
  intros Hq e m.
  destruct (exponent_spec q) as (He & Hup & Hlo). fold e in He, Hup, Hlo.
  rewrite (Qabs_pos q Hq) in Hup, Hlo.
  assert (Hp := pow2_pos e).
  split; [split|split].
  - apply Qrint_ge_int. apply Qle_shift_div_l; [exact Hp|].
    change (inject_Z 0) with 0. lra.
  - apply Qrint_le_int. rewrite <- pow2_Z by lia.
    apply Qle_shift_div_r; [exact Hp|]. rewrite <- pow2_add.
    replace (53 + e)%Z with (e + 53)%Z by lia. now apply Qlt_le_weak.
  - intro H. apply Qrint_ge_int. rewrite <- pow2_Z by lia.
    apply Qle_shift_div_l; [exact Hp|]. rewrite <- pow2_add.
    replace (52 + e)%Z with (e + 52)%Z by lia. now apply Hlo.
  - assert (Hx : inject_Z m * B64.pow2 e - q
                 == (inject_Z m - q / B64.pow2 e) * B64.pow2 e) by (field; lra).
    rewrite Hx.
    rewrite Qabs_Qmult, (Qabs_pos (B64.pow2 e)) by lra.
    assert (Herr := Qrint_error (q / B64.pow2 e)). fold m in Herr.
    assert (Hhalf : B64.pow2 e == 2 * B64.pow2 (e - 1)).
    { rewrite <- pow2_succ. now replace (e - 1 + 1)%Z with e by lia. }
    assert (Hp1 := pow2_pos (e - 1)).
    apply Qle_trans with ((1 # 2) * B64.pow2 e).
    + apply Qmult_le_compat_r; [exact Herr|lra].
    + rewrite Hhalf. lra.
Qed.

Lemma round_pos_form (q : Q) :
  let v := inject_Z (F.Qrint (q / B64.pow2 (B64.exponent q)))
           * B64.pow2 (B64.exponent q) in
  (B64.pow2 1024 <= v /\ B64.round_pos q = PInf)
  \/ (v < B64.pow2 1024 /\ B64.round_pos q = Fin (Qred v)).
Proof.
  cbv zeta. unfold B64.round_pos.
  destruct (Qle_bool (B64.pow2 1024) _) eqn:E.
  - left. apply Qle_bool_iff in E. auto.
  - right. apply Qle_bool_false in E. auto.
Qed.

Lemma round_pos_nonneg (q : Q) :
  0 <= q ->
  B64.round_pos q = PInf \/ exists r, B64.round_pos q = Fin r /\ 0 <= r.
Proof.
  intro Hq. destruct (round_pos_parts q Hq) as ((Hm & _) & _).
  destruct (round_pos_form q) as [(_ & ->)|(_ & ->)]; [now left|right].
  eexists. split; [reflexivity|]. rewrite Qred_correct.
  apply Qmult_le_0_compat; [|apply Qlt_le_weak, pow2_pos].
  change 0 with (inject_Z 0). now rewrite <- Zle_Qle.
Qed.

(** Rounding is monotone. *)
Lemma round_pos_mono (q1 q2 : Q) :
  0 <= q1 -> q1 <= q2 -> F.leb (B64.round_pos q1) (B64.round_pos q2) = true.
Proof.
  intros H1 H12. assert (H2 : 0 <= q2) by lra.
  destruct (round_pos_parts q1 H1) as ((Hm1 & Hm1') & _ & _).
  destruct (round_pos_parts q2 H2) as ((Hm2 & _) & Hn2 & _).
  destruct (exponent_spec q1) as (He1 & Hup1 & Hlo1).
  destruct (exponent_spec q2) as (He2 & Hup2 & Hlo2).
  rewrite (Qabs_pos q1 H1) in Hup1, Hlo1. rewrite (Qabs_pos q2 H2) in Hup2, Hlo2.
  set (e1 := B64.exponent q1) in *. set (e2 := B64.exponent q2) in *.
  set (m1 := F.Qrint (q1 / B64.pow2 e1)) in *.
  set (m2 := F.Qrint (q2 / B64.pow2 e2)) in *.
  assert (Hv : inject_Z m1 * B64.pow2 e1 <= inject_Z m2 * B64.pow2 e2).
  { destruct (Z.lt_trichotomy e1 e2) as [Hlt|[Heq|Hgt]].
    - apply Qle_trans with (B64.pow2 (e1 + 53)).
      + rewrite Z.add_comm, pow2_add.
        apply Qmult_le_compat_r; [|apply Qlt_le_weak, pow2_pos].
        rewrite pow2_Z by lia. now rewrite <- Zle_Qle.
      + apply Qle_trans with (B64.pow2 (e2 + 52)); [apply pow2_le; lia|].
        rewrite Z.add_comm, pow2_add.
        apply Qmult_le_compat_r; [|apply Qlt_le_weak, pow2_pos].
        rewrite pow2_Z by lia. rewrite <- Zle_Qle. apply Hn2. lia.
    - assert (Hm : (m1 <= m2)%Z).
      { subst m1 m2. rewrite <- Heq. apply Qrint_mono.
        assert (Hp := pow2_pos e1).
        apply Qle_shift_div_l; [exact Hp|].
        setoid_replace (q1 / B64.pow2 e1 * B64.pow2 e1) with q1 by (field; lra).
        exact H12. }
      rewrite <- Heq. apply Qmult_le_compat_r; [|apply Qlt_le_weak, pow2_pos].
      now rewrite <- Zle_Qle.
    - exfalso. assert (Hc : B64.pow2 (e1 + 52) < B64.pow2 (e2 + 53)).
      { eapply Qle_lt_trans; [apply Hlo1; lia|]. lra. }
      apply pow2_lt_inv in Hc. lia. }
  destruct (round_pos_form q1) as [(Hb1 & ->)|(Hb1 & ->)];
    destruct (round_pos_form q2) as [(Hb2 & ->)|(Hb2 & ->)];
    fold e1 m1 in Hb1; fold e2 m2 in Hb2; cbn [F.leb]; try reflexivity.
  - exfalso. lra.
  - apply Qle_bool_iff. now rewrite !Qred_correct.
Qed.
Lemma Qred_idem (q : Q) : Qred (Qred q) = Qred q.
Proof. apply Qred_complete, Qred_correct. Qed.

Lemma Qopp_opp (q : Q) : - - q = q.
Proof. destruct q as [n d]. unfold Qopp. cbn. now rewrite Z.opp_involutive. Qed.

Lemma Fin_inj (a b : Q) : Fin a = Fin b -> a = b.
Proof.
  intro H. exact (f_equal (fun x => match x with Fin c => c | _ => a end) H).
Qed.

Lemma round_pos_fin (q r : Q) :
  0 <= q -> B64.round_pos q = Fin r -> Qred r = r /\ 0 <= r.
Proof.
  intros Hq H.
  destruct (round_pos_nonneg q Hq) as [E|(r' & E & Hr')]; rewrite E in H;
    [discriminate|].
  apply Fin_inj in H. subst r'. split; [|exact Hr'].
  destruct (round_pos_form q) as [(_ & E')|(_ & E')]; rewrite E' in E;
    [discriminate|].
  apply Fin_inj in E. rewrite <- E. apply Qred_idem.
Qed.

(** A rounded number rounds to itself. *)
Lemma round_pos_idem (q r : Q) :
  0 <= q -> B64.round_pos q = Fin r -> B64.round_pos r = Fin r.
Proof.
  intros Hq Hr.
  destruct (round_pos_parts q Hq) as ((Hm0 & Hm1) & _ & _).
  set (e := B64.exponent q) in *. set (m := F.Qrint (q / B64.pow2 e)) in *.
  destruct (round_pos_form q) as [(_ & E)|(Hv & E)]; rewrite E in Hr;
    [discriminate|].
  fold e m in Hv, Hr.
  apply (f_equal (fun x => match x with Fin a => a | _ => r end)) in Hr.
  cbv beta iota in Hr. rename Hr into Hr'. clear E.
  set (v := inject_Z m * B64.pow2 e) in *.
  assert (Erv : r == v) by (rewrite <- Hr'; apply Qred_correct).
  assert (Hv0 : 0 <= v).
  { unfold v. apply Qmult_le_0_compat; [|apply Qlt_le_weak, pow2_pos].
    change 0 with (inject_Z 0). now rewrite <- Zle_Qle. }
  assert (Hr0 : 0 <= r) by now rewrite Erv.
  destruct (exponent_spec r) as (He' & Hup' & Hlo').
  rewrite (Qabs_pos r Hr0) in Hup', Hlo'.
  set (e' := B64.exponent r) in *.
  assert (Hp := pow2_pos e). assert (Hp' := pow2_pos e').
  assert (He : (-1074 <= e)%Z) by apply exponent_spec.
  assert (Hint : exists k, r / B64.pow2 e' == inject_Z k).
  { destruct (Z.le_gt_cases e' e) as [Hle|Hgt].
    - exists (m * 2 ^ (e - e'))%Z.
      rewrite inject_Z_mult, <- pow2_Z by lia. rewrite Erv. unfold v.
      assert (Hsplit : B64.pow2 e == B64.pow2 (e - e') * B64.pow2 e').
      { rewrite <- pow2_add. now replace (e - e' + e')%Z with e by lia. }
      rewrite Hsplit. field. lra.
    - assert (Hb : B64.pow2 (e' + 52) <= B64.pow2 (e + 53)).
      { eapply Qle_trans; [apply Hlo'; lia|]. rewrite Erv. unfold v.
        rewrite (Z.add_comm e 53), pow2_add.
        apply Qmult_le_compat_r; [|lra].
        rewrite pow2_Z by lia. now rewrite <- Zle_Qle. }
      apply pow2_le_inv in Hb. assert (Ee : e' = (e + 1)%Z) by lia.
      assert (Hm : (2 ^ 53 <= m)%Z).
      { assert (Hc : B64.pow2 53 * B64.pow2 e <= inject_Z m * B64.pow2 e).
        { rewrite <- pow2_add. replace (53 + e)%Z with (e' + 52)%Z by lia.
          fold v. rewrite <- Erv. apply Hlo'. lia. }
        apply Qmult_le_r in Hc; [|exact Hp].
        rewrite pow2_Z in Hc by lia. now rewrite <- Zle_Qle in Hc. }
      exists (2 ^ 52)%Z. rewrite Erv. unfold v.
      replace m with (2 ^ 53)%Z by lia. rewrite Ee, pow2_succ.
      assert (E53 : inject_Z (2 ^ 53) == 2 * inject_Z (2 ^ 52)) by reflexivity.
      rewrite E53. field. lra. }
  destruct Hint as (k & Hk).
  assert (Hrint : F.Qrint (r / B64.pow2 e') = k)
    by (rewrite (Qrint_comp _ _ Hk); apply Qrint_Z).
  assert (Hv' : inject_Z k * B64.pow2 e' == v).
  { rewrite <- Hk, <- Erv. field. lra. }
  unfold B64.round_pos. fold e'. rewrite Hrint.
  destruct (Qle_bool (B64.pow2 1024) (inject_Z k * B64.pow2 e')) eqn:Eo.
  - exfalso. apply Qle_bool_iff in Eo. rewrite Hv' in Eo. lra.
  - f_equal. rewrite <- Hr'. now apply Qred_complete.
Qed.

Lemma round_comp (q1 q2 : Q) : q1 == q2 -> B64.round q1 = B64.round q2.
Proof. intro H. unfold B64.round. now rewrite (Qred_complete _ _ H). Qed.

Lemma round_idem (q r : Q) : B64.round q = Fin r -> B64.round r = Fin r.
Proof.
  unfold B64.round at 1. cbv zeta.
  destruct (Qle_bool 0 (Qred q)) eqn:Es.
  - intro H. apply Qle_bool_iff in Es.
    destruct (round_pos_fin _ _ Es H) as (Hred & Hr0).
    unfold B64.round. cbv zeta. rewrite Hred.
    apply Qle_bool_iff in Hr0. rewrite Hr0.
    eapply round_pos_idem; eassumption.
  - apply Qle_bool_false in Es. intro H.
    assert (Hq : 0 <= - Qred q) by lra.
    destruct (B64.round_pos (- Qred q)) as [r0| | |] eqn:E; try discriminate.
    cbn [F.neg] in H. apply Fin_inj in H. subst r.
    assert (Hidem := round_pos_idem _ _ Hq E).
    destruct (round_pos_fin _ _ Hq E) as (Hred & Hr0).
    unfold B64.round. cbv zeta. rewrite Qred_opp, Hred.
    destruct (Qle_bool 0 (- r0)) eqn:Es'.
    + apply Qle_bool_iff in Es'.
      assert (Ez : r0 == 0) by lra.
      assert (E0 : r0 = 0).
      { rewrite <- Hred. change 0 with (Qred 0). now apply Qred_complete. }
      rewrite E0. reflexivity.
    + rewrite Qopp_opp, Hidem. reflexivity.
Qed.

Lemma leb_neg (x y : float64) :
  F.leb x y = true -> F.leb (F.neg y) (F.neg x) = true.
Proof.
  destruct x as [a| | |], y as [b| | |]; cbn; try reflexivity; try discriminate.
  rewrite !Qle_bool_iff. lra.
Qed.

Lemma round_mono (q1 q2 : Q) :
  q1 <= q2 -> F.leb (B64.round q1) (B64.round q2) = true.
Proof.
  intro H. unfold B64.round. cbv zeta.
  assert (E1 := Qred_correct q1). assert (E2 := Qred_correct q2).
  destruct (Qle_bool 0 (Qred q1)) eqn:S1; destruct (Qle_bool 0 (Qred q2)) eqn:S2;
    try (apply Qle_bool_iff in S1); try (apply Qle_bool_iff in S2);
    try (apply Qle_bool_false in S1); try (apply Qle_bool_false in S2).
  - apply round_pos_mono; lra.
  - exfalso. lra.
  - assert (Hq : 0 <= - Qred q1) by lra.
    destruct (round_pos_nonneg _ Hq) as [->|(r1 & -> & Hr1)];
      destruct (round_pos_nonneg _ S2) as [->|(r2 & -> & Hr2)];
      cbn; try reflexivity.
    apply Qle_bool_iff. lra.
  - apply leb_neg. apply round_pos_mono; lra.
Qed.

(** A number between two representable numbers rounds between them. *)
Lemma round_between (lo hi q rlo rhi : Q) :
  B64.round lo = Fin rlo -> B64.round hi = Fin rhi ->
  lo <= q <= hi ->
  exists r, B64.round q = Fin r /\ rlo <= r <= rhi.
Proof.
  intros Hlo Hhi (H1 & H2).
  assert (M1 := round_mono lo q H1). assert (M2 := round_mono q hi H2).
  rewrite Hlo in M1. rewrite Hhi in M2.
  destruct (B64.round q) as [r| | |]; cbn in M1, M2; try discriminate.
  exists r. split; [reflexivity|].
  apply Qle_bool_iff in M1. apply Qle_bool_iff in M2. split; assumption.
Qed.

(** The error of rounding a number below [2^k]. *)
Lemma round_pos_error (q : Q) (k : Z) :
  0 <= q -> q < B64.pow2 k -> (-1021 <= k <= 1023)%Z ->
  exists r, B64.round_pos q = Fin r /\ Qabs (r - q) <= B64.pow2 (k - 54).
Proof.
  intros Hq Hk Hrange.
  destruct (round_pos_parts q Hq) as ((Hm0 & Hm1) & Hn & Herr).
  destruct (exponent_spec q) as (He & Hup & Hlo).
  rewrite (Qabs_pos q Hq) in Hup, Hlo.
  set (e := B64.exponent q) in *. set (m := F.Qrint (q / B64.pow2 e)) in *.
  assert (Hek : (e <= k - 53)%Z).
  { destruct (Z.eq_dec e (-1074)) as [->|Hne]; [lia|].
    assert (Hc : B64.pow2 (e + 52) < B64.pow2 k)
      by (eapply Qle_lt_trans; [apply Hlo; lia|exact Hk]).
    apply pow2_lt_inv in Hc. lia. }
  assert (Hbound : Qabs (inject_Z m * B64.pow2 e - q) <= B64.pow2 (k - 54)).
  { eapply Qle_trans; [exact Herr|]. apply pow2_le. lia. }
  destruct (round_pos_form q) as [(Hov & _)|(_ & ->)].
  - exfalso. fold e m in Hov.
    apply Qabs_Qle_condition in Hbound. destruct Hbound as (_ & Hb).
    assert (H1 : B64.pow2 (k - 54) <= B64.pow2 k) by (apply pow2_le; lia).
    assert (H2 : 2 * B64.pow2 k <= B64.pow2 1024).
    { rewrite <- pow2_succ. apply pow2_le. lia. }
    assert (H3 := pow2_pos k). lra.
  - eexists. split; [reflexivity|]. fold e m. now rewrite Qred_correct.
Qed.

Lemma round_error (q : Q) (k : Z) :
  Qabs q < B64.pow2 k -> (-1021 <= k <= 1023)%Z ->
  exists r, B64.round q = Fin r /\ Qabs (r - q) <= B64.pow2 (k - 54).
Proof.
  intros Hk Hrange. unfold B64.round. cbv zeta.
  assert (E := Qred_correct q).
  destruct (Qle_bool 0 (Qred q)) eqn:S.
  - apply Qle_bool_iff in S.
    destruct (round_pos_error (Qred q) k) as (r & -> & Hr);
      [exact S|rewrite E; rewrite Qabs_pos in Hk by lra; exact Hk|exact Hrange|].
    exists r. split; [reflexivity|]. now rewrite <- E.
  - apply Qle_bool_false in S.
    destruct (round_pos_error (- Qred q) k) as (r & -> & Hr);
      [lra|rewrite E; rewrite Qabs_neg in Hk by lra; exact Hk|exact Hrange|].
    exists (- r). split; [reflexivity|].
    setoid_replace (- r - q) with (- (r - - Qred q)) by (rewrite E; ring).
    now rewrite Qabs_opp.
Qed.

(* ================================================================== *)
(** * The score combiner in double precision *)
(* ================================================================== *)

Lemma round_not_nan (q : Q) : F.is_nan (B64.round q) = false.
Proof.
  unfold B64.round. cbv zeta.
  destruct (Qle_bool 0 (Qred q)).
  - destruct (round_pos_form (Qred q)) as [(_ & ->)|(_ & ->)]; reflexivity.
  - destruct (round_pos_form (- Qred q)) as [(_ & ->)|(_ & ->)]; reflexivity.
Qed.

Lemma Qeq_bool_nonzero (q : Q) : ~ q == 0 -> Qeq_bool q 0 = false.
Proof.
  intro H. destruct (Qeq_bool q 0) eqn:E; [|reflexivity].
  apply Qeq_bool_iff in E. contradiction.
Qed.

Lemma round_zero : B64.round 0 = Fin 0.
Proof. reflexivity. Qed.

Lemma round_one : B64.round 1 = Fin 1.
Proof. vm_compute. reflexivity. Qed.

(** A number in [0,1] rounds into [0,1]. *)
Lemma round_unit (q : Q) :
  0 <= q <= 1 -> exists r, B64.round q = Fin r /\ 0 <= r <= 1.
Proof. apply (round_between 0 1 q 0 1 round_zero round_one). Qed.

Lemma clip_unit (y : float64) :
  F.is_nan y = false ->
  exists b, F.clip y (Fin 0) (Fin 1) = Fin b /\ 0 <= b <= 1.
Proof.
  destruct y as [r| | |]; intro H; try discriminate H.
  - unfold F.clip.
    destruct (maximum_Fin r 0) as (m & -> & H1 & H2 & _).
    destruct (minimum_Fin m 1) as (m' & -> & H3 & H4 & [-> | ->]).
    + exists m. split; [reflexivity|]. lra.
    + exists 1. split; [reflexivity|]. lra.
  - exists 1. split; [reflexivity|]. lra.
  - exists 0. split; [reflexivity|]. lra.
Qed.

Lemma div_lit_not_nan (v : float64) (k : Q) :
  0 < k -> F.is_nan v = false -> F.is_nan (B64.div v (Fin k)) = false.
Proof.
  intros Hk Hv. unfold B64.div.
  assert (Ek : Qeq_bool k 0 = false) by (apply Qeq_bool_nonzero; lra).
  assert (Sk : Z.sgn (Qnum k) = 1%Z).
  { destruct k as [n d]. unfold Qlt in Hk. cbn in Hk |- *. lia. }
  destruct v as [q| | |]; try discriminate Hv; cbn [F.div]; rewrite Ek.
  - cbn [B64.fl]. apply round_not_nan.
  - cbn [F.sgn]. rewrite Sk. reflexivity.
  - cbn [F.sgn]. rewrite Sk. reflexivity.
Qed.

Lemma z_normalize_unit (z : float64) :
  F.is_nan z = false -> exists b, D.z_normalize z = Fin b /\ 0 <= b <= 1.
Proof.
  intro H. apply clip_unit. apply div_lit_not_nan; [reflexivity|exact H].
Qed.

Lemma spc_normalize_unit (s : float64) :
  F.is_nan s = false -> exists c, D.spc_normalize s = Fin c /\ 0 <= c <= 1.
Proof.
  intro H. apply clip_unit. apply div_lit_not_nan; [reflexivity|exact H].
Qed.

Lemma round_top : exists R, B64.round (B64.pow2 1023 + 1) = Fin R
                            /\ B64.round (B64.pow2 1023) = Fin R
                            /\ R == B64.pow2 1023.
Proof. eexists. split; [vm_compute; reflexivity|]. split; vm_compute; reflexivity. Qed.

Lemma lit_epsilon : exists e0, B64.lit epsilon = Fin e0 /\ 0 < e0 <= 1.
Proof. eexists. split; [vm_compute; reflexivity|]. split; reflexivity || discriminate. Qed.

(** The inverted min-max rescaling in doubles stays within [0,1]; the
    lowest score is mapped to 1. *)
Lemma iso_normalize_unit (lo hi x : Q) :
  lo <= x -> x <= hi -> Qabs lo <= iso_bound -> Qabs hi <= iso_bound ->
  exists a, D.iso_normalize (Fin lo) (Fin hi) (Fin x) = Fin a
            /\ 0 <= a <= 1 /\ (x == lo -> a == 1).
Proof.
  intros Hlo Hhi Bl Bh.
  apply Qabs_Qle_condition in Bl. apply Qabs_Qle_condition in Bh.
  destruct round_top as (R & Rtop & Rtop' & ER).
  assert (Hsum : B64.pow2 1023 == 2 * iso_bound).
  { unfold iso_bound. rewrite <- pow2_succ. reflexivity. }
  assert (Hpos := pow2_pos 1022). fold iso_bound in Hpos.
  unfold D.iso_normalize, B64.sub, B64.add, B64.div.
  cbn [F.sub F.neg F.add B64.fl].
  (* x - lo *)
  destruct (round_between 0 (B64.pow2 1023) (x + - lo) 0 R round_zero Rtop')
    as (d & Ed & Hd); [lra|].
  (* hi - lo *)
  destruct (round_between 0 (B64.pow2 1023) (hi + - lo) 0 R round_zero Rtop')
    as (D' & ED & HD); [lra|].
  assert (HdD : d <= D').
  { assert (M := round_mono (x + - lo) (hi + - lo)). rewrite Ed, ED in M.
    apply Qle_bool_iff. apply M. lra. }
  rewrite Ed, ED. cbn [F.add B64.fl].
  destruct lit_epsilon as (e0 & Ee & He0). rewrite Ee. cbn [F.add B64.fl].
  assert (ID := round_idem _ _ ED). assert (Ie := round_idem _ _ Ee).
  destruct (round_between D' (B64.pow2 1023 + 1) (D' + e0) D' R ID Rtop)
    as (E' & EE & HE); [lra|].
  assert (He : e0 <= E').
  { assert (M := round_mono e0 (D' + e0)). rewrite Ie, EE in M.
    apply Qle_bool_iff. apply M. lra. }
  rewrite EE. cbn [F.div].
  assert (Enz : Qeq_bool E' 0 = false) by (apply Qeq_bool_nonzero; lra).
  rewrite Enz. cbn [B64.fl].
  assert (Hratio : 0 <= d / E' <= 1).
  { split.
    - apply Qle_shift_div_l; lra.
    - apply Qle_shift_div_r; lra. }
  destruct (round_unit _ Hratio) as (t & Et & Ht). rewrite Et.
  cbn [F.neg F.add B64.fl].
  destruct (round_unit (1 + - t)) as (a & Ea & Ha); [lra|].
  exists a. split; [exact Ea|]. split; [exact Ha|].
  intro Exlo.
  assert (Ed0 : d = 0).
  { assert (Hc : B64.round (x + - lo) = B64.round 0) by (apply round_comp; lra).
    rewrite Ed, round_zero in Hc. now apply Fin_inj in Hc. }
  subst d.
  assert (Et0 : t = 0).
  { assert (Hc : B64.round (0 / E') = B64.round 0)
      by (apply round_comp; unfold Qdiv; ring).
    rewrite Et, round_zero in Hc. now apply Fin_inj in Hc. }
  subst t.
  assert (Hc : B64.round (1 + - 0) = B64.round 1) by (apply round_comp; ring).
  rewrite Hc, round_one in Ea. apply Fin_inj in Ea. subst a. reflexivity.
Qed.
Lemma round_both (lo hi q rlo rhi : Q) (k : Z) :
  B64.round lo = Fin rlo -> B64.round hi = Fin rhi ->
  lo <= q <= hi -> Qabs q < B64.pow2 k -> (-1021 <= k <= 1023)%Z ->
  exists r, B64.round q = Fin r /\ rlo <= r <= rhi
            /\ Qabs (r - q) <= B64.pow2 (k - 54).
Proof.
  intros Hlo Hhi Hq Hk Hr.
  destruct (round_between lo hi q rlo rhi Hlo Hhi Hq) as (r & Er & Hb).
  destruct (round_error q k Hk Hr) as (r' & Er' & He).
  rewrite Er in Er'. apply Fin_inj in Er'. subst r'.
  exists r. auto.
Qed.

Lemma lit_half : B64.lit 0.5 = Fin (1 # 2).
Proof. vm_compute. reflexivity. Qed.

Lemma lit_03 : B64.lit 0.3 = Fin (5404319552844595 # 18014398509481984).
Proof. vm_compute. reflexivity. Qed.

Lemma lit_02 : B64.lit 0.2 = Fin (3602879701896397 # 18014398509481984).
Proof. vm_compute. reflexivity. Qed.

(** The weighted sum in doubles: within [0,1], within [2^-51] of the exact
    convex combination, and at least one half when the isolation component
    is 1. *)
Lemma weighted_double (a b c : Q) :
  0 <= a <= 1 -> 0 <= b <= 1 -> 0 <= c <= 1 ->
  exists r, D.weighted (Fin a) (Fin b) (Fin c) = Fin r
            /\ 0 <= r <= 1
            /\ Qabs (r - combined_spec a b c) <= B64.pow2 (-51)
            /\ (a == 1 -> 1 # 2 <= r).
Proof.
  intros Ha Hb Hc.
  set (w1 := 5404319552844595 # 18014398509481984).
  set (w2 := 3602879701896397 # 18014398509481984).
  set (c1 := 3602879701896397 # 4503599627370496).
  assert (P0 : B64.pow2 0 == 1) by reflexivity.
  assert (P1 : B64.pow2 1 == 2) by reflexivity.
  assert (P54 : B64.pow2 (0 - 54) == 1 # 18014398509481984) by reflexivity.
  assert (P53 : B64.pow2 (1 - 54) == 1 # 9007199254740992) by reflexivity.
  assert (P51 : B64.pow2 (-51) == 1 # 2251799813685248) by reflexivity.
  assert (R12 : B64.round (1 # 2) = Fin (1 # 2)) by (vm_compute; reflexivity).
  assert (Rw1 : B64.round w1 = Fin w1) by (vm_compute; reflexivity).
  assert (Rw2 : B64.round w2 = Fin w2) by (vm_compute; reflexivity).
  assert (Rc1 : B64.round ((1 # 2) + w1) = Fin c1) by (vm_compute; reflexivity).
  assert (Rtop : B64.round (c1 + w2) = Fin 1) by (vm_compute; reflexivity).
  assert (Vw1 : w1 == 5404319552844595 # 18014398509481984) by reflexivity.
  assert (Vw2 : w2 == 3602879701896397 # 18014398509481984) by reflexivity.
  assert (Vc1 : c1 == 3602879701896397 # 4503599627370496) by reflexivity.
  unfold D.weighted, B64.add, B64.mul. rewrite lit_half, lit_03, lit_02.
  fold w1 w2. cbn [F.mul B64.fl].
  destruct (round_both 0 (1 # 2) ((1 # 2) * a) 0 (1 # 2) 0 round_zero R12)
    as (t1 & E1 & B1 & X1);
    [lra|rewrite P0; apply Qabs_Qlt_condition; lra|lia|].
  destruct (round_both 0 w1 (w1 * b) 0 w1 0 round_zero Rw1)
    as (t2 & E2 & B2 & X2);
    [rewrite Vw1; lra|rewrite P0, Vw1; apply Qabs_Qlt_condition; lra|lia|].
  rewrite E1, E2. cbn [F.add B64.fl].
  destruct (round_both 0 ((1 # 2) + w1) (t1 + t2) 0 c1 0 round_zero Rc1)
    as (s1 & E3 & B3 & X3);
    [rewrite Vw1 in *; lra
    |rewrite P0; rewrite Vw1 in *; apply Qabs_Qlt_condition; lra|lia|].
  destruct (round_both 0 w2 (w2 * c) 0 w2 0 round_zero Rw2)
    as (t3 & E4 & B4 & X4);
    [rewrite Vw2; lra|rewrite P0, Vw2; apply Qabs_Qlt_condition; lra|lia|].
  rewrite E3, E4. cbn [F.add B64.fl].
  destruct (round_both 0 (c1 + w2) (s1 + t3) 0 1 1 round_zero Rtop)
    as (r & E5 & B5 & X5);
    [rewrite Vc1, Vw2 in *; lra
    |rewrite P1; rewrite Vc1, Vw2 in *; apply Qabs_Qlt_condition; lra|lia|].
  exists r. split; [exact E5|]. split; [exact B5|].
  rewrite P54 in X1, X2, X3, X4. rewrite P53 in X5.
  apply Qabs_Qle_condition in X1, X2, X3, X4, X5.
  split.
  - rewrite P51. apply Qabs_Qle_condition. unfold combined_spec.
    rewrite Vw1, Vw2 in *. split; lra.
  - intro Ea.
    assert (Et1 : t1 = 1 # 2).
    { assert (Hc' : B64.round ((1 # 2) * a) = B64.round (1 # 2))
        by (apply round_comp; rewrite Ea; ring).
      rewrite E1, R12 in Hc'. now apply Fin_inj in Hc'. }
    subst t1.
    destruct (round_between (1 # 2) ((1 # 2) + w1) ((1 # 2) + t2) (1 # 2) c1 R12 Rc1)
      as (s1' & E3' & B3'); [rewrite Vw1 in *; lra|].
    rewrite E3 in E3'. apply Fin_inj in E3'. subst s1'.
    destruct (round_between (1 # 2) (c1 + w2) (s1 + t3) (1 # 2) 1 R12 Rtop)
      as (r' & E5' & B5'); [rewrite Vc1, Vw2 in *; lra|].
    rewrite E5 in E5'. apply Fin_inj in E5'. subst r'. lra.
Qed.



(** Without the bound on the isolation scores their range can overflow,
    and scores become NaN: the batch [1e308, 1e308, 1e308, -1e308]. *)
Lemma combine_scores_overflow :
  let big := B64.lit (inject_Z (10 ^ 308)) in
  D._combine_scores [big; big; big; F.neg big]
    [Fin 0; Fin 0; Fin 0; Fin 0] [Fin 0; Fin 0; Fin 0; Fin 0]
  = Ok [NaN; NaN; NaN; Fin (1 # 2)].
Proof. vm_compute. reflexivity. Qed.

(* ================================================================== *)
(** * The derived alert fields in double precision *)
(* ================================================================== *)

Lemma fl_same (x y : float64) : same_float x y -> B64.fl x = B64.fl y.
Proof.
  destruct x as [a| | |], y as [b| | |]; cbn; try contradiction; try reflexivity.
  apply round_comp.
Qed.

Lemma Qabs_nonneg_eq (q : Q) : 0 <= q -> Qabs q = q.
Proof.
  destruct q as [n d]. unfold Qle. cbn. intro H.
  f_equal. apply Z.abs_eq. lia.
Qed.

Lemma Qabs_opp_eq (q : Q) : Qabs (- q) = Qabs q.
Proof. destruct q as [n d]. cbn. now rewrite Z.abs_opp. Qed.

Lemma abs_round_pos (q : Q) :
  0 <= q -> F.abs (B64.round_pos q) = B64.round_pos q.
Proof.
  intro Hq. destruct (round_pos_nonneg q Hq) as [->|(r & -> & Hr)]; [reflexivity|].
  cbn [F.abs]. now rewrite Qabs_nonneg_eq.
Qed.

Lemma abs_neg (x : float64) : F.abs (F.neg x) = F.abs x.
Proof.
  destruct x as [q| | |]; cbn [F.abs F.neg]; try reflexivity.
  now rewrite Qabs_opp_eq.
Qed.

(** Rounding commutes with the absolute value. *)
Lemma round_abs (q : Q) : B64.round (Qabs q) = F.abs (B64.round q).
Proof.
  destruct (Qlt_le_dec q 0) as [Hneg|Hpos].
  - rewrite (round_comp (Qabs q) (- q)) by (apply Qabs_neg; lra).
    unfold B64.round. cbv zeta. rewrite Qred_opp.
    assert (E := Qred_correct q).
    assert (S1 : Qle_bool 0 (- Qred q) = true) by (apply Qle_bool_iff; lra).
    assert (S2 : Qle_bool 0 (Qred q) = false) by (apply Qle_bool_false; lra).
    rewrite S1, S2, abs_neg. symmetry. apply abs_round_pos. lra.
  - rewrite (round_comp (Qabs q) q) by (now apply Qabs_pos).
    unfold B64.round. cbv zeta.
    assert (E := Qred_correct q).
    assert (S1 : Qle_bool 0 (Qred q) = true) by (apply Qle_bool_iff; lra).
    rewrite S1. symmetry. apply abs_round_pos. lra.
Qed.

Lemma abs_fl (x : float64) : F.abs (B64.fl x) = B64.fl (F.abs x).
Proof.
  destruct x as [q| | |]; cbn [B64.fl F.abs]; try reflexivity.
  symmetry. apply round_abs.
Qed.

Lemma abs_mul_100 (y : float64) :
  same_float (F.abs (F.mul y (Fin 100))) (F.mul (F.abs y) (Fin 100)).
Proof.
  destruct y as [a| | |]; try exact I.
  cbn [F.mul F.abs same_float]. apply Qabs_Qmult.
Qed.

Lemma abs_div_nonneg (s : float64) (m : Q) :
  0 <= m ->
  same_float (F.abs (F.div s (Fin m))) (F.div (F.abs s) (Fin m)).
Proof.
  intro Hm. destruct s as [q| | |]; cbn [F.abs]; [| | |exact I].
  - unfold F.div. destruct (Qeq_bool m 0) eqn:E.
    + cbn [F.sgn Qnum]. rewrite sgn_Qabs.
      destruct (Z.sgn (Qnum q)); exact I.
    + apply Qeq_bool_neq in E. cbn [F.abs same_float].
      unfold Qdiv. rewrite Qabs_Qmult.
      rewrite (Qabs_pos (/ m)) by (apply Qinv_le_0_compat; exact Hm).
      reflexivity.
  - unfold F.div. destruct (Qeq_bool m 0) eqn:E; [exact I|].
    apply Qeq_bool_neq in E. cbn [F.sgn]. rewrite (sgn_positive m Hm E). exact I.
  - unfold F.div. destruct (Qeq_bool m 0) eqn:E; [exact I|].
    apply Qeq_bool_neq in E. cbn [F.sgn]. rewrite (sgn_positive m Hm E). exact I.
Qed.

(** With a day mean that is not negative, the absolute value of the
    quotient is the quotient of the absolute value, in doubles too. *)
Lemma deviation_matches_spec64 (m : Q) (x : float64) :
  0 <= m ->
  D.deviation_percentage (Fin m) x = deviation_percentage_spec64 (Fin m) x.
Proof.
  intro Hm. unfold D.deviation_percentage, deviation_percentage_spec64.
  f_equal. unfold B64.mul, B64.div.
  rewrite abs_fl. rewrite (fl_same _ _ (abs_mul_100 _)).
  rewrite abs_fl. rewrite (fl_same _ _ (abs_div_nonneg _ m Hm)).
  reflexivity.
Qed.

Section FormatDouble.

Context {pd : Pandas}.
Variable world : env.

(** The derived columns of a day formatted in doubles. *)
Lemma format_double_fields (df : frame) (cells : list value)
    (kwh : list float64) :
  DF.empty df = false ->
  DF.col "energyOutput" df = Some cells ->
  DF.as_floats cells = Ok kwh ->
  let n := DF.len df in
  let mean_output := series_mean kwh in
  let std_output := series_std kwh in
  exists out,
    D.format_alert_data world df = Ok out
    /\ DF.columns out = headers
    /\ DF.len out = n
    /\ DF.col "energy_kwh" out = Some cells
    /\ DF.col "expected_min" out
       = Some (DF.broadcast n
                 (py_max0 (B64.sub mean_output (B64.mul (Fin 2) std_output))))
    /\ DF.col "expected_max" out
       = Some (DF.broadcast n
                 (VFloat (B64.add mean_output (B64.mul (Fin 2) std_output))))
    /\ DF.col "deviation_percentage" out
       = Some (DF.of_floats (map (D.deviation_percentage mean_output) kwh)).
Proof.
  intros Hne Hcol Hfl n mean_output std_output.
  unfold D.format_alert_data. rewrite Hne.
  unfold D.additional_fields, DF.has_col, energy_of, DF.getitem.
  rewrite Hcol. cbn [obind]. rewrite Hfl. cbn [obind].
  unfold export_columns. rewrite (get_present _ _ _ _ _ Hcol).
  fold n. frame_simpl. rewrite !length_map, !length_seq. frame_simpl.
  rewrite Hfl. frame_simpl.
  unfold trend_direction, DF.getitem. frame_simpl.
  rewrite !length_map, !length_seq.
  rewrite Hfl. cbn [obind].
  replace (if (1 <? n)%nat
           then Ok (VStr (if Series.is_monotonic_decreasing kwh
                          then "Declining" else "Variable"))
           else Ok (VStr "Single Point"))
    with (Ok (A := value) (VStr (trend_label n kwh)))
    by (unfold trend_label; destruct (1 <? n)%nat; reflexivity).
  cbn [obind].
  eexists. split; [reflexivity|].
  frame_simpl. rewrite !length_map, !length_seq.
  repeat split; reflexivity.
Qed.

(** C8.  For every non-empty export day the derived fields are computed
    over that day's own readings, from the mean and the standard deviation
    pandas returns for them, in double precision: [expected_min] is
    [max(0, dayMean - 2 dayStd)], [expected_max] is [dayMean + 2 dayStd],
    and [deviation_percentage] is the absolute value of
    [(value - dayMean) / dayMean * 100] rounded to 2 decimals as NumPy
    rounds a double (scale by 100, round to the nearest integer, ties to
    even, scale back).  This is the formula of the claim, evaluated in
    doubles, whenever the day mean is not negative; for the day
    [100, 200, 300], whose mean is 200, the deviations are 50, 0 and 50. *)
Theorem format_derived_fields_double (df : frame) (cells : list value)
    (kwh : list float64)
    (Hne : DF.empty df = false)
    (Hcol : DF.col "energyOutput" df = Some cells)
    (Hfl : DF.as_floats cells = Ok kwh) :
  let n := DF.len df in
  let dayMean := series_mean kwh in
  let dayStd := series_std kwh in
  (exists out,
     D.format_alert_data world df = Ok out
     /\ DF.col "expected_min" out
        = Some (DF.broadcast n (py_max0 (B64.sub dayMean (B64.mul (Fin 2) dayStd))))
     /\ DF.col "expected_max" out
        = Some (DF.broadcast n (VFloat (B64.add dayMean (B64.mul (Fin 2) dayStd))))
     /\ DF.col "deviation_percentage" out
        = Some (DF.of_floats
                  (map (fun v =>
                          B64.round2
                            (F.abs (B64.mul (B64.div (B64.sub v dayMean) dayMean)
                                            (Fin 100))))
                       kwh)))
  /\ (forall d, exists lo, DF.to_float (py_max0 (Fin d)) = Ok (Fin lo) /\ lo == Qmax 0 d)
  /\ (forall m v, dayMean = Fin m -> 0 <= m ->
        D.deviation_percentage dayMean v = deviation_percentage_spec64 dayMean v)
  /\ (series_mean [Fin 100; Fin 200; Fin 300] = Fin 200 ->
      exists out cells,
        D.format_alert_data world day_100_200_300 = Ok out
        /\ DF.col "deviation_percentage" out = Some cells
        /\ values_are cells [50; 0; 50] = true).
Proof.
  intros n dayMean dayStd.
  destruct (format_double_fields df cells kwh Hne Hcol Hfl)
    as (out & Ho & _ & _ & _ & Hmin & Hmax & Hdev).
  split; [exists out; repeat split; assumption|].
  split.
  { intro d. unfold py_max0, F.gtb, F.ltb.
    destruct (F.Qltb 0 d) eqn:E; cbn [DF.to_float].
    - apply Qltb_lt in E. exists d. split; [reflexivity|].
      destruct (Q.max_spec 0 d) as [[_ ->]|[? ->]]; lra.
    - apply Qltb_ge in E. exists (inject_Z 0). split; [reflexivity|].
      destruct (Q.max_spec 0 d) as [[? ->]|[_ ->]]; [lra|reflexivity]. }
  split.
  { intros m v -> Hm. now apply deviation_matches_spec64. }
  intro Hmean.
  destruct (format_double_fields day_100_200_300
              [VFloat (Fin 100); VFloat (Fin 200); VFloat (Fin 300)]
              [Fin 100; Fin 200; Fin 300])
    as (out3 & Ho3 & _ & _ & _ & _ & _ & Hdev3); try reflexivity.
  exists out3. eexists. split; [exact Ho3|]. split; [exact Hdev3|].
  rewrite Hmean. vm_compute. reflexivity.
Qed.

End FormatDouble.

Lemma format_derived_fields_double_witness :
  exists out,
    D.format_alert_data (pd := toy_pandas) sample_env day_100_200_300 = Ok out
    /\ DF.col "expected_max" out = Some (DF.broadcast 3 (VFloat (Fin 400)))
    /\ DF.col "expected_min" out = Some (DF.broadcast 3 (VInt 0)).
Proof.
  destruct (@format_derived_fields_double toy_pandas sample_env day_100_200_300
              [VFloat (Fin 100); VFloat (Fin 200); VFloat (Fin 300)]
              [Fin 100; Fin 200; Fin 300])
    as ((out & Ho & Hmin & Hmax & _) & _); try reflexivity.
  exists out. split; [exact Ho|]. split.
  - rewrite Hmax. vm_compute. reflexivity.
  - rewrite Hmin. vm_compute. reflexivity.
Defined.

(** On a day with a negative mean the deviation of the code differs from
    the formula of the claim. *)
Lemma deviation_formula_counterexample :
  let kwh := [Fin (-100); Fin (-300)] in
  exists out cells,
    D.format_alert_data (pd := toy_pandas) sample_env day_negative = Ok out
    /\ DF.col "deviation_percentage" out = Some cells
    /\ values_are cells [50; 50] = true
    /\ series_mean (Pandas := toy_pandas) kwh = Fin (-200)
    /\ values_are (DF.of_floats (map (deviation_percentage_spec64 (Fin (-200))) kwh))
                  [-50; -50] = true.
Proof.
  cbv zeta. do 2 eexists. split; [vm_compute; reflexivity|].
  repeat split; vm_compute; reflexivity.
Qed.

(** The rounding to 2 decimals is applied to the double: on the day
    [10003.5, 9996.5] the exact deviation is the tie 0.035, the double
    computed lies below it, and the export holds 0.03. *)
Lemma deviation_rounds_the_double :
  let q := 5044031582654955 # 144115188075855872 in
  exists out,
    D.format_alert_data (pd := toy_pandas) sample_env day_near_tie = Ok out
    /\ DF.col "deviation_percentage" out
       = Some [VFloat (B64.lit 0.03); VFloat (B64.lit 0.03)]
    /\ Qabs ((10003.5 - 10000) / 10000 * 100) == 0.035
    /\ F.abs (B64.mul (B64.div (B64.sub (Fin 10003.5) (Fin 10000)) (Fin 10000))
                      (Fin 100)) = Fin q
    /\ q < 0.035
    /\ B64.round2 (Fin q) = B64.lit 0.03.
Proof.
  cbv zeta. eexists. split; [vm_compute; reflexivity|].
  split; [vm_compute; reflexivity|].
  split; [vm_compute; reflexivity|].
  split; [vm_compute; reflexivity|].
  split; vm_compute; reflexivity.
Qed.

(* ================================================================== *)
(** * Scoring after a fit *)
(* ================================================================== *)

Section AfterFit.

Context {sk : Sklearn}.

(** A fitted detector given a frame without readings raises [KeyError]
    before any estimator is called. *)
Lemma detect_without_energy (d : detector) (df : frame) :
  fitted d = true -> DF.col "energyOutput" df = None ->
  fst (detect_anomalies (mkDstore d df)) = Raise (KeyError "energyOutput").
Proof.
  intros Hf Hc.
  unfold detect_anomalies, bind, gets, lift, raise, ret. cbn [fst snd self data].
  rewrite Hf. cbn [negb fst snd data].
  unfold _extract_features, energy_of, DF.getitem. rewrite Hc. reflexivity.
Qed.

(** The matrix of features has one row per reading. *)
Lemma extract_features_rows (df : frame) (X : matrix) (energy : list float64) :
  _extract_features df = Ok X -> energy_of df = Ok energy ->
  List.length X = List.length energy.
Proof.
  unfold _extract_features. intros HX Hen. rewrite Hen in HX. cbn [obind] in HX.
  unfold column_stack, feature_columns in HX. cbn [app List.length] in HX.
  destruct (forallb _ _); [|discriminate].
  inversion HX. now rewrite length_map, length_seq.
Qed.

(** What a successful [fit] has computed. *)
Lemma fit_ok_inv (d : detector) (train : frame) (s1 : dstore) :
  fit (mkDstore d train) = (Ok tt, s1) ->
  exists X sc X' forest,
    _extract_features train = Ok X
    /\ scaler_fit_transform X = Ok (sc, X')
    /\ forest_fit (contamination d) (random_state d) X' = Ok forest
    /\ s1 = mkDstore (mkDetector (contamination d) (random_state d) (Some forest)
                                 (Some sc) true (thresholds d)) train.
Proof.
  unfold fit, bind, gets, lift, modify, set_self. cbn.
  destruct (_extract_features train) as [X|e]; cbn; [|discriminate].
  destruct (scaler_fit_transform X) as [[sc X']|e] eqn:Es; cbn; [|discriminate].
  destruct (forest_fit _ _ X') as [forest|e] eqn:Ef; cbn; [|discriminate].
  intro H. inversion H. exists X, sc, X', forest.
  split; [reflexivity|]. split; [exact Es|]. split; [exact Ef|]. reflexivity.
Qed.

(** What a call of [detect_anomalies] that returns got from the
    estimators. *)
Lemma detect_ok_library (s s' : dstore) (result : frame) :
  detect_anomalies s = (Ok result, s') ->
  exists iso readings,
    library_scores (self s) (data s) iso
    /\ energy_of (data s) = Ok readings
    /\ readings <> []
    /\ List.length iso = List.length readings
    /\ DF.col "isolation_score" result = Some (DF.of_floats iso).
Proof.
  unfold detect_anomalies, bind, gets, lift, raise, ret, fitted_parts. cbn [fst snd].
  destruct (negb (fitted (self s))); [discriminate|].
  destruct (_extract_features (data s)) as [Y|] eqn:EY; [|discriminate].
  destruct (scaler (self s)) as [sc1|] eqn:Es; [|discriminate].
  destruct (isolation_forest (self s)) as [fo1|] eqn:Ef; [|discriminate].
  cbn [fst snd].
  destruct (scaler_transform sc1 Y) as [Y'|] eqn:EY'; [|discriminate].
  destruct (decision_function fo1 Y') as [iso|] eqn:Ei; [|discriminate].
  destruct (predict fo1 Y') as [labels|] eqn:El; [|discriminate].
  destruct (energy_of (data s)) as [readings|] eqn:Een; [|discriminate].
  destruct (_combine_scores _ _ _) as [combined|] eqn:Ec; [|discriminate].
  destruct (_get_recommendations _) as [recs|] eqn:Er; [|discriminate].
  intro H. inversion H. subst result s'. clear H.
  exists iso, readings.
  assert (Hlen : List.length iso = List.length readings /\ iso <> []).
  { revert Ec. unfold _combine_scores.
    destruct iso as [|i0 iso']; [discriminate|].
    cbn [Series.amin Series.amax obind].
    unfold Series.zscore, _spc_analysis. rewrite !length_map.
    destruct (Nat.eqb_spec (List.length readings) (List.length (i0 :: iso')));
      [|discriminate].
    intros _. split; [congruence|discriminate]. }
  destruct Hlen as (Hlen & Hin).
  split.
  { unfold library_scores. exists sc1, fo1, Y, Y', labels. repeat split; assumption. }
  split; [reflexivity|].
  split; [intros ->; destruct iso; [congruence|discriminate]|].
  split; [exact Hlen|].
  col_simpl. reflexivity.
Qed.

(** C3.  Scoring with a detector on which [fit] has not been called, or
    on which it failed, raises the not-fitted error, computes no score and
    leaves the detector and the frame as they were.  A successful [fit]
    marks the detector fitted, but scoring may still raise: a frame without
    the [energyOutput] column raises [KeyError], and whatever the
    estimators raise on the features of the frame is passed on.  Scoring
    returns exactly when every estimator call returns on the features of
    the frame, with one isolation score per reading of a frame that has
    readings; this is so for the training frame itself, as scikit-learn
    scores the matrix it was fitted on.  Scoring changes neither the
    detector nor the frame, and what it returns does not depend on what the
    detector held before the fit: only on the contamination, the seed, the
    thresholds and the two frames. *)
Theorem detect_after_fit (c : float64) (seed : Z) (train : frame)
    (s1 : dstore) (energy : list float64)
    (Hfit : fit (mkDstore (init c seed) train) = (Ok tt, s1))
    (Hlib : scores_training_matrix sk)
    (Hen : energy_of train = Ok energy) (Hne : energy <> []) :
  (* before fit *)
  (forall df,
     detect_anomalies (mkDstore (init c seed) df)
     = (Raise not_fitted_error, mkDstore (init c seed) df))
  /\ (forall d df, fitted d = false ->
        detect_anomalies (mkDstore d df) = (Raise not_fitted_error, mkDstore d df))
  /\ (forall s e s' df, fitted (self s) = false -> fit s = (Raise e, s') ->
        fst (detect_anomalies (mkDstore (self s') df)) = Raise not_fitted_error)
  (* after fit *)
  /\ fitted (self s1) = true
  /\ data s1 = train
  /\ (forall df, DF.col "energyOutput" df = None ->
        fst (detect_anomalies (mkDstore (self s1) df)) = Raise (KeyError "energyOutput"))
  /\ (forall df result,
        fst (detect_anomalies (mkDstore (self s1) df)) = Ok result ->
        exists iso readings,
          library_scores (self s1) df iso
          /\ energy_of df = Ok readings
          /\ readings <> []
          /\ List.length iso = List.length readings
          /\ DF.col "isolation_score" result = Some (DF.of_floats iso))
  /\ (forall df iso readings,
        library_scores (self s1) df iso ->
        energy_of df = Ok readings -> readings <> [] ->
        List.length iso = List.length readings ->
        exists result, fst (detect_anomalies (mkDstore (self s1) df)) = Ok result)
  /\ (exists result iso,
        detect_anomalies (mkDstore (self s1) train) = (Ok result, mkDstore (self s1) train)
        /\ List.length iso = List.length energy
        /\ DF.col "isolation_score" result = Some (DF.of_floats iso))
  (* no hidden state *)
  /\ (forall df, snd (detect_anomalies (mkDstore (self s1) df)) = mkDstore (self s1) df)
  /\ (forall d2 : detector,
        contamination d2 = c -> random_state d2 = seed ->
        thresholds d2 = thresholds (init c seed) ->
        fst (fit (mkDstore d2 train)) = Ok tt
        /\ forall df,
             detect_anomalies (mkDstore (self (snd (fit (mkDstore d2 train)))) df)
             = detect_anomalies (mkDstore (self s1) df)).
Proof.
  assert (H1 := fit_outcome (mkDstore (init c seed) train)).
  rewrite Hfit in H1. destruct H1 as (Hf & Hd & _).
  destruct (fit_ok_inv _ _ _ Hfit) as (X & sc & X' & forest & HX & Hsc & Hfo & Hs1).
  cbn [contamination random_state thresholds init] in Hfo, Hs1.
  split; [intro df; now apply detect_unfitted|].
  split; [intros d df Hd'; now apply detect_unfitted|].
  split.
  { intros s e s' df Hs Hr. assert (H := fit_outcome s). rewrite Hr in H.
    destruct H as (H & _). rewrite detect_unfitted; [reflexivity|congruence]. }
  split; [exact Hf|].
  split; [exact Hd|].
  split; [intros df Hc; now apply detect_without_energy|].
  split.
  { intros df result Hr.
    destruct (detect_anomalies (mkDstore (self s1) df)) as [o s'] eqn:E.
    cbn [fst] in Hr. subst o.
    exact (detect_ok_library _ _ _ E). }
  split.
  { intros df iso readings Hl Hre Hrn Hlen.
    destruct (detect_fitted (self s1) df iso readings Hf Hl Hre Hrn Hlen)
      as (result & Hr & _).
    exists result. now rewrite Hr. }
  split.
  { destruct (Hlib train X sc X' c seed forest HX Hsc Hfo)
      as (Htr & iso & labels & Hi & Hl & Hlen).
    assert (Hls : library_scores (self s1) train iso).
    { unfold library_scores. exists sc, forest, X, X', labels.
      rewrite Hs1. cbn [self scaler isolation_forest]. repeat split; assumption. }
    assert (Hlen' : List.length iso = List.length energy)
      by (rewrite Hlen; now apply (extract_features_rows train)).
    destruct (detect_fitted (self s1) train iso energy Hf Hls Hen Hne Hlen')
      as (result & Hr & Hic & _).
    exists result, iso. repeat split; assumption. }
  split; [intro df; apply detect_anomalies_pure|].
  intros d2 Hc2 Hr2 Ht2.
  destruct d2 as [c2 r2 f2 sc2 b2 t2]. cbn in Hc2, Hr2, Ht2. subst c2 r2 t2.
  rewrite Hs1. unfold fit, bind, gets, lift, modify, set_self. cbn.
  rewrite HX. cbn. rewrite Hsc. cbn. rewrite Hfo. cbn.
  split; reflexivity.
Qed.

End AfterFit.

Lemma toy_scores_training_matrix : scores_training_matrix toy_sklearn.
Proof.
  intros df X sc X' c seed forest HX Hsc Hfo.
  assert (Hrows : forall row, In row X -> List.length row = feature_width df).
  { revert HX. unfold _extract_features.
    destruct (energy_of df) as [energy|e]; cbn [obind]; [|discriminate].
    unfold column_stack, feature_columns. cbn [app].
    destruct (forallb _ _); [|discriminate].
    intro H. inversion H. subst X. clear H.
    intros row Hin. apply in_map_iff in Hin. destruct Hin as (i & <- & _).
    cbn [map List.length]. rewrite length_map, !length_app.
    unfold feature_width, rolling_features, time_features, rate_features.
    destruct (7 <=? DF.len df)%nat, (1 <? DF.len df)%nat,
      (DF.col "date" df) as [cells|]; try destruct (DF.to_datetime cells);
      cbn [List.length]; lia. }
  cbn in Hsc. destruct X as [|row rest]; [discriminate|].
  inversion Hsc. subst sc X'. clear Hsc.
  split.
  - cbn -[forallb]. 
    replace (forallb _ (row :: rest)) with true; [reflexivity|].
    symmetry. apply forallb_forall. intros r Hr. apply Nat.eqb_eq.
    rewrite (Hrows r Hr). symmetry. apply Hrows. now left.
  - cbn. do 2 eexists. split; [reflexivity|]. split; [reflexivity|].
    cbn. now rewrite length_map.
Qed.

Lemma detect_after_fit_witness :
  exists result iso,
    @detect_anomalies toy_sklearn
      (mkDstore (self (snd (@fit toy_sklearn (mkDstore init_default sample_frame))))
                sample_frame)
    = (Ok result,
       mkDstore (self (snd (@fit toy_sklearn (mkDstore init_default sample_frame))))
                sample_frame)
    /\ List.length iso = 4%nat
    /\ DF.col "isolation_score" result = Some (DF.of_floats iso).
Proof.
  destruct (@detect_after_fit toy_sklearn (Fin 0.1) 42 sample_frame
              (snd (@fit toy_sklearn (mkDstore init_default sample_frame)))
              [Fin 500; Fin 500; Fin 500; Fin 150])
    as (_ & _ & _ & _ & _ & _ & _ & _ & (result & iso & Hr & Hl & Hi) & _).
  - reflexivity.
  - exact toy_scores_training_matrix.
  - reflexivity.
  - discriminate.
  - exists result, iso. repeat split; assumption.
Defined.

(** A detector fitted on seven readings without dates (four features a
    reading) raises on a batch of three readings (two features a reading),
    and on a frame without readings. *)
Lemma fitted_detector_raises_counterexample :
  let s1 := snd (@fit toy_sklearn (mkDstore init_default week_frame)) in
  fst (@fit toy_sklearn (mkDstore init_default week_frame)) = Ok tt
  /\ fitted (self s1) = true
  /\ feature_width week_frame = 4%nat
  /\ feature_width no_date_frame = 2%nat
  /\ (exists msg,
        fst (@detect_anomalies toy_sklearn (mkDstore (self s1) no_date_frame))
        = Raise (ValueError msg))
  /\ fst (@detect_anomalies toy_sklearn (mkDstore (self s1) dates_only_frame))
     = Raise (KeyError "energyOutput").
Proof.
  cbv zeta. split; [vm_compute; reflexivity|].
  split; [vm_compute; reflexivity|].
  split; [vm_compute; reflexivity|].
  split; [vm_compute; reflexivity|].
  split; [eexists; vm_compute; reflexivity|].
  vm_compute; reflexivity.
Qed.

(* ================================================================== *)
(** * The control limits in double precision *)
(* ================================================================== *)

Lemma maximum_zero_nonpos (x : float64) :
  F.leb x (Fin 0) = true -> F.maximum (Fin 0) x = Fin 0.
Proof.
  destruct x as [t| | |]; cbn; try discriminate; try reflexivity.
  intro H. apply Qle_bool_iff in H. unfold F.Qltb.
  replace (Qle_bool t 0) with true; [reflexivity|].
  symmetry. now apply Qle_bool_iff.
Qed.

Lemma maximum_zero_nonneg (x : float64) :
  F.leb (Fin 0) x = true -> same_float (F.maximum (Fin 0) x) x.
Proof.
  destruct x as [t| | |]; cbn; try discriminate; try (intros _; exact I).
  intro H. apply Qle_bool_iff in H. unfold F.Qltb.
  destruct (Qle_bool t 0) eqn:E; cbn.
  - apply Qle_bool_iff in E. lra.
  - reflexivity.
Qed.

Lemma div_same (x y : float64) (s : Q) :
  ~ s == 0 -> same_float x y -> same_float (F.div x (Fin s)) (F.div y (Fin s)).
Proof.
  intros Hs H. assert (Es : Qeq_bool s 0 = false) by now apply Qeq_bool_nonzero.
  destruct x as [a| | |], y as [b| | |]; cbn in H; try contradiction;
    unfold F.div; rewrite ?Es; try exact I.
  - cbn. now rewrite H.
  - cbn. destruct (F.inf_of_sign _); try exact I. reflexivity.
  - cbn. destruct (F.inf_of_sign _); try exact I. reflexivity.
Qed.

(** Dividing a value that is not negative by a positive number. *)
Lemma div64_nonneg (x : float64) (s : Q) :
  0 < s -> F.leb (Fin 0) x = true -> F.leb (Fin 0) (B64.div x (Fin s)) = true.
Proof.
  intros Hs Hx. unfold B64.div.
  assert (Es : Qeq_bool s 0 = false) by (apply Qeq_bool_nonzero; lra).
  destruct x as [t| | |]; try discriminate Hx.
  - unfold F.div. rewrite Es. cbn [B64.fl].
    cbn in Hx. apply Qle_bool_iff in Hx.
    change (Fin 0) with (B64.round 0). apply round_mono.
    apply Qle_shift_div_l; lra.
  - unfold F.div. rewrite Es. cbn [F.sgn].
    rewrite (sgn_positive s) by lra. reflexivity.
Qed.

Lemma div64_zero (s : Q) : ~ s == 0 -> B64.div (Fin 0) (Fin s) = Fin 0.
Proof.
  intro Hs. unfold B64.div, F.div.
  rewrite (Qeq_bool_nonzero s Hs). cbn [B64.fl].
  rewrite (round_comp (0 / s) 0); [reflexivity|]. field. exact Hs.
Qed.

(** Adding zero to the result of an operation changes nothing. *)
Lemma add64_zero_r (q : Q) : B64.add (B64.round q) (Fin 0) = B64.round q.
Proof.
  unfold B64.add. destruct (B64.round q) as [u| | |] eqn:E; try reflexivity.
  cbn [F.add B64.fl]. rewrite (round_comp (u + 0) u) by ring.
  now apply round_idem with q.
Qed.

Lemma add64_zero_l (q : Q) : B64.add (Fin 0) (B64.round q) = B64.round q.
Proof.
  unfold B64.add. destruct (B64.round q) as [u| | |] eqn:E; try reflexivity.
  cbn [F.add B64.fl]. rewrite (round_comp (0 + u) u) by ring.
  now apply round_idem with q.
Qed.

Lemma div64_round (x : float64) (s : Q) :
  ~ s == 0 -> F.is_nan x = false ->
  (exists q, B64.div x (Fin s) = B64.round q)
  \/ B64.div x (Fin s) = PInf \/ B64.div x (Fin s) = NInf.
Proof.
  intros Hs Hx. unfold B64.div, F.div. rewrite (Qeq_bool_nonzero s Hs).
  destruct x as [t| | |]; try discriminate Hx.
  - left. eexists. reflexivity.
  - right. destruct s as [[|n|n] d]; cbn; auto.
    exfalso. apply Hs. reflexivity.
  - right. destruct s as [[|n|n] d]; cbn; auto.
    exfalso. apply Hs. reflexivity.
Qed.

Lemma add64_div_zero_r (x : float64) (s : Q) :
  ~ s == 0 -> F.is_nan x = false ->
  B64.add (B64.div x (Fin s)) (Fin 0) = B64.div x (Fin s).
Proof.
  intros Hs Hx.
  destruct (div64_round x s Hs Hx) as [(q & ->)|[-> | ->]];
    [apply add64_zero_r|reflexivity|reflexivity].
Qed.

Lemma add64_div_zero_l (x : float64) (s : Q) :
  ~ s == 0 -> F.is_nan x = false ->
  B64.add (Fin 0) (B64.div x (Fin s)) = B64.div x (Fin s).
Proof.
  intros Hs Hx.
  destruct (div64_round x s Hs Hx) as [(q & ->)|[-> | ->]];
    [apply add64_zero_l|reflexivity|reflexivity].
Qed.

Lemma sub64_sign (a b : Q) :
  (a <= b -> F.leb (B64.sub (Fin a) (Fin b)) (Fin 0) = true)
  /\ (b <= a -> F.leb (Fin 0) (B64.sub (Fin a) (Fin b)) = true).
Proof.
  unfold B64.sub. cbn [F.sub F.neg F.add B64.fl].
  change (Fin 0) with (B64.round 0).
  split; intro H; apply round_mono; lra.
Qed.

Lemma leb_not_nan_r (x y : float64) : F.leb x y = true -> F.is_nan y = false.
Proof. destruct x, y; cbn; congruence. Qed.

Section ControlLimits.

Context {pd : Pandas}.

(** The SPC score of one reading against finite control limits. *)
Lemma spc_score_double (s ucl lcl v : Q) :
  0 < s -> lcl <= ucl ->
  let r := B64.add
             (B64.div (F.maximum (Fin 0) (B64.sub (Fin v) (Fin ucl))) (Fin s))
             (B64.div (F.maximum (Fin 0) (B64.sub (Fin lcl) (Fin v))) (Fin s)) in
  F.leb (Fin 0) r = true
  /\ (lcl <= v <= ucl -> r = Fin 0)
  /\ (ucl < v -> r = B64.div (B64.sub (Fin v) (Fin ucl)) (Fin s))
  /\ (v < lcl -> r = B64.div (B64.sub (Fin lcl) (Fin v)) (Fin s)).
Proof.
  intros Hs Hlu r.
  assert (Hnz : ~ s == 0) by lra.
  destruct (sub64_sign v ucl) as (U1 & U2).
  destruct (sub64_sign lcl v) as (L1 & L2).
  assert (Hin : lcl <= v <= ucl -> r = Fin 0).
  { intros (H1 & H2). unfold r.
    rewrite (maximum_zero_nonpos _ (U1 H2)), (maximum_zero_nonpos _ (L1 H1)).
    rewrite (div64_zero s Hnz). reflexivity. }
  assert (Hup : ucl < v -> r = B64.div (B64.sub (Fin v) (Fin ucl)) (Fin s)).
  { intro H. unfold r.
    assert (H1 : lcl <= v) by lra. assert (H2 : ucl <= v) by lra.
    rewrite (maximum_zero_nonpos _ (L1 H1)), (div64_zero s Hnz).
    assert (E : B64.div (F.maximum (Fin 0) (B64.sub (Fin v) (Fin ucl))) (Fin s)
                = B64.div (B64.sub (Fin v) (Fin ucl)) (Fin s)).
    { unfold B64.div. apply fl_same. apply div_same; [exact Hnz|].
      apply maximum_zero_nonneg. exact (U2 H2). }
    rewrite E. apply add64_div_zero_r; [exact Hnz|].
    exact (leb_not_nan_r _ _ (U2 H2)). }
  assert (Hlo : v < lcl -> r = B64.div (B64.sub (Fin lcl) (Fin v)) (Fin s)).
  { intro H. unfold r.
    assert (H1 : v <= ucl) by lra. assert (H2 : v <= lcl) by lra.
    rewrite (maximum_zero_nonpos _ (U1 H1)), (div64_zero s Hnz).
    assert (E : B64.div (F.maximum (Fin 0) (B64.sub (Fin lcl) (Fin v))) (Fin s)
                = B64.div (B64.sub (Fin lcl) (Fin v)) (Fin s)).
    { unfold B64.div. apply fl_same. apply div_same; [exact Hnz|].
      apply maximum_zero_nonneg. exact (L2 H2). }
    rewrite E. apply add64_div_zero_l; [exact Hnz|].
    exact (leb_not_nan_r _ _ (L2 H2)). }
  split; [|auto].
  destruct (Qlt_le_dec ucl v) as [Ha|Ha].
  - rewrite (Hup Ha). apply div64_nonneg; [exact Hs|]. apply U2. lra.
  - destruct (Qlt_le_dec v lcl) as [Hb|Hb].
    + rewrite (Hlo Hb). apply div64_nonneg; [exact Hs|]. apply L2. lra.
    + rewrite Hin by (split; assumption). reflexivity.
Qed.

(** X1.  On a batch of finite readings for which pandas returns a finite
    mean and a positive, finite standard deviation [s], with finite
    control limits [ucl] and [lcl] (the mean plus and minus three times
    [s], in doubles), the SPC score of every reading is never negative and
    never NaN; it is 0 within the control limits and, outside them, the
    distance beyond the limit divided by [s], both computed in doubles. *)
Theorem spc_analysis_control_limits (e : list Q) (m s ucl lcl : Q)
    (Hm : series_mean (map Fin e) = Fin m)
    (Hs : series_std (map Fin e) = Fin s)
    (Hpos : 0 < s)
    (Hucl : B64.add (Fin m) (B64.mul (Fin 3) (Fin s)) = Fin ucl)
    (Hlcl : B64.sub (Fin m) (B64.mul (Fin 3) (Fin s)) = Fin lcl) :
  lcl <= ucl
  /\ forall i v, nth_error e i = Some v ->
       exists r,
         nth_error (D._spc_analysis (map Fin e)) i = Some r
         /\ F.leb (Fin 0) r = true
         /\ (lcl <= v <= ucl -> r = Fin 0)
         /\ (ucl < v -> r = B64.div (B64.sub (Fin v) (Fin ucl)) (Fin s))
         /\ (v < lcl -> r = B64.div (B64.sub (Fin lcl) (Fin v)) (Fin s)).
Proof.
  assert (Hlu : lcl <= ucl).
  { revert Hucl Hlcl. unfold B64.mul. cbn [F.mul B64.fl].
    assert (H3 : F.leb (B64.round 0) (B64.round (3 * s)) = true)
      by (apply round_mono; lra).
    destruct (B64.round (3 * s)) as [t| | |]; try discriminate H3.
    - cbn in H3. apply Qle_bool_iff in H3.
      unfold B64.add, B64.sub. cbn [F.sub F.neg F.add B64.fl].
      intros Hu Hl.
      assert (H := round_mono (m + - t) (m + t)).
      rewrite Hu, Hl in H. cbn in H. apply Qle_bool_iff. apply H. lra.
    - unfold B64.add. cbn. discriminate. }
  split; [exact Hlu|].
  intros i v Hv. unfold D._spc_analysis. rewrite Hm, Hs, Hucl, Hlcl.
  rewrite nth_error_map, nth_error_map, Hv. cbn [option_map].
  eexists. split; [reflexivity|].
  exact (spc_score_double s ucl lcl v Hpos Hlu).
Qed.

End ControlLimits.

Lemma spc_analysis_control_limits_witness :
  nth_error (D._spc_analysis (pd := toy_pandas) (map Fin [100; 200; 300])) 0
  = Some (Fin 0).
Proof.
  destruct (@spc_analysis_control_limits toy_pandas [100; 200; 300] 200 100 500 (-100))
    as (_ & H).
  - vm_compute. reflexivity.
  - vm_compute. reflexivity.
  - reflexivity.
  - vm_compute. reflexivity.
  - vm_compute. reflexivity.
  - destruct (H O 100 eq_refl) as (r & Hr & _ & Hin & _).
    rewrite Hr. f_equal. apply Hin. split; unfold Qle; simpl; lia.
Defined.

(* ================================================================== *)
(** * The reading with the lowest isolation score *)
(* ================================================================== *)

Lemma classify_half (r : Q) :
  1 # 2 <= r ->
  F.gtb (Fin r) (th_info thresholds64) = true
  /\ severity_le Warning (classify thresholds64 (Fin r)).
Proof.
  intro Hr. unfold thresholds64, classify. cbn [th_info th_critical th_warning].
  rewrite lit_half, lit_03.
  split.
  - cbn. apply Qltb_lt.
    assert (E : 5404319552844595 # 18014398509481984 < 1 # 2) by reflexivity. lra.
  - unfold severity_le.
    destruct (F.geb (Fin r) (B64.lit 0.8)); [simpl; lia|].
    replace (F.geb (Fin r) (Fin (1 # 2))) with true; [simpl; lia|].
    symmetry. cbn. now apply Qle_bool_iff.
Qed.

(** X2.  In every batch of finite isolation scores (of magnitude at most
    [2^1022]) whose z-scores and SPC scores are not NaN, the reading with
    the lowest isolation score gets the full isolation weight: its combined
    score, in doubles, is at least 0.5, so it is flagged as an anomaly and
    classified Warning or Critical, whatever its z-score and SPC score
    are. *)
Theorem lowest_isolation_score_flagged (iso : list Q) (z spc : list float64)
    (Hne : iso <> [])
    (Hz : List.length z = List.length iso)
    (Hs : List.length spc = List.length iso)
    (Hb : Forall (fun x => Qabs x <= iso_bound) iso)
    (Hzn : Forall (fun v => F.is_nan v = false) z)
    (Hsn : Forall (fun v => F.is_nan v = false) spc) :
  exists combined i lo r,
    D._combine_scores (map Fin iso) z spc = Ok combined
    /\ nth_error iso i = Some lo
    /\ (forall x, In x iso -> lo <= x)
    /\ nth_error combined i = Some (Fin r)
    /\ 0.5 <= r
    /\ F.gtb (Fin r) (th_info thresholds64) = true
    /\ severity_le Warning (classify thresholds64 (Fin r)).
Proof.
  destruct iso as [|x0 xs]; [congruence|].
  destruct (fold_minimum_Fin xs x0) as (lo & Elo & Ilo & Hlo).
  destruct (fold_maximum_Fin xs x0) as (hi & Ehi & Ihi & Hhi).
  assert (Hrun : D._combine_scores (map Fin (x0 :: xs)) z spc
                 = Ok (zip3 D.weighted
                         (map (D.iso_normalize (Fin lo) (Fin hi)) (map Fin (x0 :: xs)))
                         (map D.z_normalize z) (map D.spc_normalize spc))).
  { unfold D._combine_scores.
    cbn [map Series.amin Series.amax obind]. rewrite Elo, Ehi.
    change (Fin x0 :: map Fin xs) with (map Fin (x0 :: xs)).
    rewrite Hz, Hs, length_map, Nat.eqb_refl. reflexivity. }
  destruct (In_nth_error _ _ Ilo) as (i & Hi).
  assert (Hlt : (i < List.length (x0 :: xs))%nat) by (apply nth_error_Some; congruence).
  destruct (nth_error z i) as [zi|] eqn:Hzi; [|apply nth_error_None in Hzi; lia].
  destruct (nth_error spc i) as [si|] eqn:Hsi; [|apply nth_error_None in Hsi; lia].
  rewrite Forall_forall in Hb, Hzn, Hsn.
  destruct (iso_normalize_unit lo hi lo (Hlo lo Ilo) (Hhi lo Ilo) (Hb lo Ilo) (Hb hi Ihi))
    as (a & Ea & Ha & Hone).
  destruct (z_normalize_unit zi (Hzn zi (nth_error_In _ _ Hzi))) as (b & Eb & Hb').
  destruct (spc_normalize_unit si (Hsn si (nth_error_In _ _ Hsi))) as (c & Ec & Hc).
  destruct (weighted_double a b c Ha Hb' Hc) as (r & Er & _ & _ & Hhalf).
  assert (Hr : 1 # 2 <= r) by (apply Hhalf, Hone; reflexivity).
  exists (zip3 D.weighted
            (map (D.iso_normalize (Fin lo) (Fin hi)) (map Fin (x0 :: xs)))
            (map D.z_normalize z) (map D.spc_normalize spc)), i, lo, r.
  split; [exact Hrun|]. split; [exact Hi|].
  split; [exact Hlo|].
  split.
  { rewrite (nth_error_zip3 D.weighted _ _ _ i (Fin a) (Fin b) (Fin c)).
    - now rewrite Er.
    - rewrite !nth_error_map, Hi. cbn [option_map]. now rewrite Ea.
    - rewrite nth_error_map, Hzi. cbn [option_map]. now rewrite Eb.
    - rewrite nth_error_map, Hsi. cbn [option_map]. now rewrite Ec. }
  split; [assert (E : 0.5 == 1 # 2) by reflexivity; lra|].
  now apply classify_half.
Qed.

Lemma lowest_isolation_score_flagged_witness :
  exists combined i r,
    D._combine_scores (map Fin [-0.5; 0.25; 0.1]) [Fin 0.2; Fin 0.1; PInf]
                      [Fin 0; Fin 0; Fin 0] = Ok combined
    /\ nth_error combined i = Some (Fin r) /\ 0.5 <= r.
Proof.
  destruct (lowest_isolation_score_flagged [-0.5; 0.25; 0.1] [Fin 0.2; Fin 0.1; PInf]
              [Fin 0; Fin 0; Fin 0])
    as (combined & i & lo & r & Hc & _ & _ & Hr & H5 & _).
  - discriminate.
  - reflexivity.
  - reflexivity.
  - repeat constructor; vm_compute; discriminate.
  - repeat constructor.
  - repeat constructor.
  - exists combined, i, r. repeat split; assumption.
Defined.
